(** * The active-workout view-model and the rest timer of the gym client

    A shallow embedding of [src/hooks/useWorkout.ts], of the set-row handling
    of [src/components/workout/SetInputCard.tsx] and of the countdown of
    [src/components/workout/RestTimer.tsx], with the properties the
    specification states about them.

    Conventions.
    - A JavaScript [number] that counts something (set numbers, repetitions,
      seconds, list lengths) is a [Z].  A measured quantity ([weight_kg],
      [rpe]) is a [Q]: the rational value of the double the program holds.
      Sums and products of such numbers are those of IEEE 754 binary64,
      rounded to nearest with ties to even, subnormal numbers included
      ([Double.add], [Double.mul]): each operand is read as the nearest
      double and the exact result is rounded again.  [Infinity] and [NaN]
      are no values of the model, which is the program's as long as no
      result reaches [2^1024]; the two zeros are one.
    - [T | null] and optional fields are [option T].
    - The hosted database is an environment: every request of the hook is an
      [Effect] whose answer is supplied by a handler.  Properties are proved
      for every handler unless they speak about stored rows, in which case
      they are proved for the executable store of [RefBackend]. *)

From Stdlib Require Import String List ZArith QArith Qround Qabs Qpower Bool Lia.
From Stdlib Require Import DecimalString DecimalNat Sorted Ascii.
Import ListNotations.

Local Open Scope string_scope.
Local Open Scope Z_scope.

(** ** JavaScript helpers *)

(** [a ?? b] *)
Definition nullish {A : Type} (a : option A) (b : A) : A :=
  match a with Some x => x | None => b end.

(** Truthiness of [number | null]: neither [null] nor [0]. *)
Definition truthyZ (n : option Z) : bool :=
  match n with Some z => negb (z =? 0) | None => false end.

Definition truthyQ (q : option Q) : bool :=
  match q with Some x => negb (Qeq_bool x 0) | None => false end.

(** [Math.round]: the nearest integer, a tie going up; taken of the exact
    value of the double. *)
Definition Math_round (x : Q) : Z := Qfloor (x + (1 # 2)).

(** [Math.max] on counters. *)
Definition Math_max (a b : Z) : Z := Z.max a b.

(** ** Numbers: IEEE 754 binary64 *)

Module Double.

(** [2^k] *)
Definition pow2 (k : Z) : Q := (2 ^ k)%Q.

(** [floor (log2 |x|)] of a number that is not zero: the difference of the
    bit lengths of numerator and denominator, or one less. *)
Definition ilog2 (x : Q) : Z :=
  let c := Z.log2 (Z.abs (Qnum x)) - Z.log2 (Zpos (Qden x)) in
  if Qle_bool (pow2 c) (Qabs x) then c else c - 1.

(** The integer nearest to [y], the even one of the two when [y] lies
    halfway. *)
Definition round_even (y : Q) : Z :=
  let f := Qfloor y in
  match (y - inject_Z f ?= 1 # 2)%Q with
  | Lt => f
  | Gt => f + 1
  | Eq => if Z.even f then f else f + 1
  end.

(** The exponent of the last of the 53 binary digits of the double at [x];
    the smallest positive double is [2^-1074]. *)
Definition ulp_exponent (x : Q) : Z := Z.max (ilog2 x - 52) (-1074).

(** The double nearest to [x]. *)
Definition nearest (x : Q) : Q :=
  if Qeq_bool x 0 then 0%Q
  else
    let q := ulp_exponent x in
    Qred (inject_Z (round_even (x / pow2 q)) * pow2 q).

Definition round (x : Q) : Q := nearest (Qred x).

(** [a + b] and [a * b] on numbers *)
Definition add (a b : Q) : Q := round (round a + round b).
Definition mul (a b : Q) : Q := round (round a * round b).

(** A double (the upper bound of the exponent aside): an integer of at
    most 53 bits times a power of two that is no smaller than [2^-1074]. *)
Definition representable (x : Q) : Prop :=
  exists m q : Z,
    (x == inject_Z m * pow2 q)%Q /\ Z.abs m < 2 ^ 53 /\ -1074 <= q.

(** A multiple of [2^-k]. *)
Definition on_grid (k : Z) (x : Q) : Prop :=
  exists m : Z, (x == inject_Z m * pow2 (- k))%Q.

(** [a + b + ...], from the left, in doubles. *)
Definition sum (l : list Q) : Q := fold_left add l 0%Q.

End Double.

(** ** Data model: [src/types/workout.ts] *)

Inductive MuscleGroup :=
| chest | back | front_delt | side_delt | rear_delt | biceps | triceps
| forearms | quadriceps | hamstrings | glutes | calves | core | traps | lats.

Inductive EquipmentType :=
| barbell | dumbbell | cable | machine | bodyweight | kettlebell
| resistance_band | other.

Inductive WorkoutStatus := in_progress | completed | abandoned.

Definition WorkoutStatus_eqb (a b : WorkoutStatus) : bool :=
  match a, b with
  | in_progress, in_progress | completed, completed | abandoned, abandoned => true
  | _, _ => false
  end.

Module Exercise.
Record t := mk {
  id : string;
  name : string;
  description : option string;
  primary_muscle_group : MuscleGroup;
  secondary_muscle_groups : list MuscleGroup;
  equipment : EquipmentType;
  is_compound : bool;
  created_by : option string;
  created_at : string }.
End Exercise.

Module TemplateExercise.
Record t := mk {
  id : string;
  template_id : string;
  exercise_id : string;
  order_index : Z;
  target_sets : Z;
  target_reps : option Z;
  target_rpe : option Q;
  rest_seconds : Z;
  notes : option string;
  created_at : string;
  exercise : option Exercise.t }.
End TemplateExercise.

Module WorkoutTemplateWithExercises.
Record t := mk {
  id : string;
  name : string;
  description : option string;
  created_by : option string;
  estimated_duration_minutes : option Z;
  created_at : string;
  updated_at : string;
  template_exercises : list TemplateExercise.t }.
End WorkoutTemplateWithExercises.

Module Workout.
Record t := mk {
  id : string;
  user_id : string;
  template_id : option string;
  name : string;
  started_at : string;
  completed_at : option string;
  status : WorkoutStatus;
  notes : option string;
  created_at : string;
  updated_at : string }.
End Workout.

Module WorkoutSet.
Record t := mk {
  id : string;
  workout_exercise_id : string;
  set_number : Z;
  weight_kg : option Q;
  reps : option Z;
  rpe : option Q;
  is_warmup : bool;
  is_failure : bool;
  is_dropset : bool;
  target_reps : option Z;
  completed_at : string;
  created_at : string }.
End WorkoutSet.

(** [WorkoutExercise], with the four target fields that [startWorkout] adds
    to the rows it keeps (they are absent, [None], on a row that comes
    straight from the database). *)
Module WorkoutExercise.
Record t := mk {
  id : string;
  workout_id : string;
  exercise_id : string;
  order_index : Z;
  template_exercise_id : option string;
  is_substitution : bool;
  notes : option string;
  created_at : string;
  exercise : option Exercise.t;
  sets : option (list WorkoutSet.t);
  targetSets : option Z;
  targetReps : option Z;
  targetRpe : option Q;
  restSeconds : option Z }.

(** [{ ...ex, sets }] *)
Definition with_sets (ex : t) (s : option (list WorkoutSet.t)) : t :=
  mk ex.(id) ex.(workout_id) ex.(exercise_id) ex.(order_index)
     ex.(template_exercise_id) ex.(is_substitution) ex.(notes)
     ex.(created_at) ex.(exercise) s
     ex.(targetSets) ex.(targetReps) ex.(targetRpe) ex.(restSeconds).

(** Two rows that agree on every field but [sets]. *)
Definition same_but_sets (a b : t) : Prop :=
  a.(id) = b.(id)
  /\ a.(workout_id) = b.(workout_id)
  /\ a.(exercise_id) = b.(exercise_id)
  /\ a.(order_index) = b.(order_index)
  /\ a.(template_exercise_id) = b.(template_exercise_id)
  /\ a.(is_substitution) = b.(is_substitution)
  /\ a.(notes) = b.(notes)
  /\ a.(created_at) = b.(created_at)
  /\ a.(exercise) = b.(exercise)
  /\ a.(targetSets) = b.(targetSets)
  /\ a.(targetReps) = b.(targetReps)
  /\ a.(targetRpe) = b.(targetRpe)
  /\ a.(restSeconds) = b.(restSeconds).

(** [{ ...ex, targetSets, targetReps, targetRpe, restSeconds, sets: [] }] *)
Definition with_targets (ex : t) (ts : Z) (tr : option Z) (trpe : option Q)
    (rs : Z) : t :=
  mk ex.(id) ex.(workout_id) ex.(exercise_id) ex.(order_index)
     ex.(template_exercise_id) ex.(is_substitution) ex.(notes)
     ex.(created_at) ex.(exercise) (Some [])
     (Some ts) tr trpe (Some rs).
End WorkoutExercise.

(** [Omit<NewWorkoutSet, 'workout_exercise_id'>], the argument of [logSet]. *)
Module NewWorkoutSet.
Record t := mk {
  set_number : Z;
  weight_kg : option Q;
  reps : option Z;
  rpe : option Q;
  is_warmup : option bool;
  is_failure : option bool;
  is_dropset : option bool;
  target_reps : option Z }.
End NewWorkoutSet.

(** [Partial<WorkoutSet>], the argument of [updateSet]: every field may be
    left out; a nullable field that is given may be given as [null]. *)
Module PartialWorkoutSet.
Record t := mk {
  id : option string;
  workout_exercise_id : option string;
  set_number : option Z;
  weight_kg : option (option Q);
  reps : option (option Z);
  rpe : option (option Q);
  is_warmup : option bool;
  is_failure : option bool;
  is_dropset : option bool;
  target_reps : option (option Z);
  completed_at : option string;
  created_at : option string }.
End PartialWorkoutSet.

Module PreviousSetData.
Record t := mk {
  exercise_id : string;
  weight_kg : Q;
  reps : Z;
  set_number : Z }.
End PreviousSetData.

(** The signed-in user of the auth context; the hook reads only its id. *)
Module User.
Record t := mk { id : string }.
End User.

(** ** The state of the hook *)

Record UseWorkoutState := mkState {
  workout : option Workout.t;
  exercises : list WorkoutExercise.t;
  loading : bool;
  error : option string }.

Definition initialState : UseWorkoutState := mkState None [] false None.

(** ** [getWorkoutStats] *)

Record WorkoutStats := mkStats {
  totalSets : Z;
  totalVolume : Z;
  exerciseCount : Z;
  completedExercises : Z }.

(** [arr.length] *)
Definition length_ {A : Type} (l : list A) : Z := Z.of_nat (length l).

(** [ex.sets?.filter(s => !s.is_warmup).length ?? 0] *)
Definition workingSetCount (ex : WorkoutExercise.t) : Z :=
  nullish
    (option_map
       (fun sets => length_ (filter (fun s => negb s.(WorkoutSet.is_warmup)) sets))
       ex.(WorkoutExercise.sets))
    0.

(** [!s.is_warmup && s.weight_kg && s.reps ? s.weight_kg * s.reps : 0] *)
Definition setVolume (s : WorkoutSet.t) : Q :=
  if negb s.(WorkoutSet.is_warmup)
     && truthyQ s.(WorkoutSet.weight_kg)
     && truthyZ s.(WorkoutSet.reps)
  then
    match s.(WorkoutSet.weight_kg), s.(WorkoutSet.reps) with
    | Some w, Some r => Double.mul w (inject_Z r)
    | _, _ => 0%Q
    end
  else 0%Q.

Definition getWorkoutStats (state : UseWorkoutState) : WorkoutStats :=
  let totalSets :=
    fold_left (fun acc ex => acc + workingSetCount ex) state.(exercises) 0 in
  let totalVolume :=
    fold_left
      (fun acc ex =>
         Double.add acc
           (nullish
              (option_map
                 (fun sets =>
                    fold_left (fun setAcc s => Double.add setAcc (setVolume s))
                      sets 0%Q)
                 ex.(WorkoutExercise.sets))
              0%Q))
      state.(exercises) 0%Q in
  let exerciseCount := length_ state.(exercises) in
  let completedExercises :=
    length_ (filter (fun ex => 0 <? workingSetCount ex) state.(exercises)) in
  mkStats totalSets (Math_round totalVolume) exerciseCount completedExercises.

(** *** What the specification says the statistics are *)

(** Every set held in memory, exercise after exercise. *)
Definition all_sets (exs : list WorkoutExercise.t) : list WorkoutSet.t :=
  flat_map (fun ex => nullish ex.(WorkoutExercise.sets) []) exs.

Definition is_working (s : WorkoutSet.t) : bool := negb s.(WorkoutSet.is_warmup).

(** The count of non-warmup sets across all exercises. *)
Definition spec_totalSets (exs : list WorkoutExercise.t) : Z :=
  length_ (filter is_working (all_sets exs)).

(** Weight times reps of a set that has both fields; nothing otherwise. *)
Definition spec_setVolume (s : WorkoutSet.t) : Q :=
  match s.(WorkoutSet.weight_kg), s.(WorkoutSet.reps) with
  | Some w, Some r => (w * inject_Z r)%Q
  | _, _ => 0%Q
  end.

Fixpoint Qsum (l : list Q) : Q :=
  match l with
  | [] => 0%Q
  | x :: l' => (x + Qsum l')%Q
  end.

(** The sum of weight times reps over non-warmup sets. *)
Definition spec_volume (exs : list WorkoutExercise.t) : Q :=
  Qsum (map spec_setVolume (filter is_working (all_sets exs))).

(** [n] is the integer nearest to [x] (the upper one on a tie). *)
Definition nearest_integer (x : Q) (n : Z) : Prop :=
  (inject_Z n - (1 # 2) <= x)%Q /\ (x < inject_Z n + (1 # 2))%Q.

(** *** The same sum in the arithmetic of the program *)

(** Weight times reps of a set that has both fields, as a double. *)
Definition double_setVolume (s : WorkoutSet.t) : Q :=
  match s.(WorkoutSet.weight_kg), s.(WorkoutSet.reps) with
  | Some w, Some r => Double.mul w (inject_Z r)
  | _, _ => 0%Q
  end.

(** The products of the non-warmup sets added up in doubles: set after set
    within an exercise, then exercise after exercise. *)
Definition double_volume (exs : list WorkoutExercise.t) : Q :=
  Double.sum
    (map (fun ex =>
            Double.sum
              (map double_setVolume
                 (filter is_working (nullish ex.(WorkoutExercise.sets) []))))
         exs).

(** The sum of the absolute products over the non-warmup sets. *)
Definition abs_volume (exs : list WorkoutExercise.t) : Q :=
  Qsum (map (fun s => Qabs (spec_setVolume s)) (filter is_working (all_sets exs))).

(** The case in which doubles add and multiply without error: every weight
    of a non-warmup set is a multiple of [2^-k] (of a quarter for [k = 2])
    and the absolute products add up to less than [2^(53-k)]. *)
Definition exact_volume (k : Z) (exs : list WorkoutExercise.t) : Prop :=
  k <= 1074
  /\ Forall (fun s => Double.on_grid k (nullish s.(WorkoutSet.weight_kg) 0%Q))
       (filter is_working (all_sets exs))
  /\ (abs_volume exs * Double.pow2 k < Double.pow2 53)%Q.

(** ** The environment of the hook *)

(** A value that reaches a [catch] block.  The blocks of the hook only ask
    whether it is an [Error] instance and, if so, read its [message]. *)
Record Thrown := mkThrown {
  message : string;
  instanceof_Error : bool }.

(** The [error] of a database answer; the hook throws it as it is. *)
Definition PostgrestError := Thrown.

(** [{ data, error }] as the client library types it: either the data
    or an error. *)
Inductive PostgrestResponse (A : Type) : Type :=
| PgData (data : A)
| PgError (error : PostgrestError).
Arguments PgData {A} data.
Arguments PgError {A} error.

Module NewWorkoutExercise.
Record t := mk {
  workout_id : string;
  exercise_id : string;
  order_index : Z;
  template_exercise_id : string;
  is_substitution : bool }.
End NewWorkoutExercise.

(** A row of the first query of [getPreviousSets]:
    [id, workout_exercises!inner(id, exercise_id)]. *)
Module RecentWorkout.
Record exercise_ref := mk_ref { we_id : string; we_exercise_id : string }.
Record t := mk { id : string; workout_exercises : list exercise_ref }.
End RecentWorkout.

(** A row of the second query: [set_number, weight_kg, reps]. *)
Module SetRow.
Record t := mk { set_number : Z; weight_kg : option Q; reps : option Z }.
End SetRow.

(** One constructor per request the hook builds, indexed by the type of
    its answer; after each the chain of builder calls it stands for. *)
Inductive Effect : Type -> Type :=
(** [from('workouts').insert({user_id, template_id, name, status}).select().single()] *)
| InsertWorkout (user_id template_id name : string) (status : WorkoutStatus)
    : Effect (PostgrestResponse Workout.t)
(** [from('workout_exercises').insert(rows).select('*, exercise:exercises(..)')] *)
| InsertWorkoutExercises (rows : list NewWorkoutExercise.t)
    : Effect (PostgrestResponse (list WorkoutExercise.t))
(** [from('workouts').select('*').eq('id', id).single()] *)
| SelectWorkout (id : string) : Effect (PostgrestResponse Workout.t)
(** [from('workout_exercises').select('*, exercise:exercises(..), sets:workout_sets(..)')
      .eq('workout_id', id).order('order_index')] *)
| SelectWorkoutExercises (workout_id : string)
    : Effect (PostgrestResponse (option (list WorkoutExercise.t)))
(** [from('workout_sets').insert({workout_exercise_id, ...setData}).select().single()] *)
| InsertSet (workout_exercise_id : string) (setData : NewWorkoutSet.t)
    : Effect (PostgrestResponse WorkoutSet.t)
(** [from('workout_sets').update(updates).eq('id', id).select().single()] *)
| UpdateSet (id : string) (updates : PartialWorkoutSet.t)
    : Effect (PostgrestResponse WorkoutSet.t)
(** [from('workout_sets').delete().eq('id', id)] *)
| DeleteSet (id : string) : Effect (PostgrestResponse unit)
(** [from('workout_exercises').update({exercise_id, is_substitution}).eq('id', id)
      .select('*, exercise:exercises(..)').single()] *)
| UpdateWorkoutExercise (id exercise_id : string) (is_substitution : bool)
    : Effect (PostgrestResponse WorkoutExercise.t)
(** [from('workouts').update({status, completed_at, notes}).eq('id', id).select().single()] *)
| UpdateWorkoutReturning (id : string) (status : WorkoutStatus)
    (completed_at : string) (notes : option string)
    : Effect (PostgrestResponse Workout.t)
(** [from('workouts').update({status, completed_at}).eq('id', id)] *)
| UpdateWorkout (id : string) (status : WorkoutStatus) (completed_at : string)
    : Effect (PostgrestResponse unit)
(** [from('workouts').select('id, workout_exercises!inner(id, exercise_id)')
      .eq('user_id', u).eq('status', 'completed')
      .eq('workout_exercises.exercise_id', e)
      .order('completed_at', { ascending: false }).limit(1).single()] *)
| SelectRecentCompletedWorkout (user_id exercise_id : string)
    : Effect (PostgrestResponse (option RecentWorkout.t))
(** [from('workout_sets').select('set_number, weight_kg, reps')
      .eq('workout_exercise_id', id).eq('is_warmup', false)
      .order('set_number', { ascending: true })] *)
| SelectWorkingSets (workout_exercise_id : string)
    : Effect (PostgrestResponse (option (list SetRow.t)))
(** [new Date().toISOString()] *)
| DateNowISO : Effect string.

(** A program that talks to the environment: it returns, or performs an
    effect and goes on with the answer. *)
Inductive Prog (R : Type) : Type :=
| Ret (r : R)
| Vis {X : Type} (e : Effect X) (k : X -> Prog R).
Arguments Ret {R} r.
Arguments Vis {R X} e k.

Fixpoint pbind {A B : Type} (p : Prog A) (f : A -> Prog B) : Prog B :=
  match p with
  | Ret a => f a
  | Vis e k => Vis e (fun x => pbind (k x) f)
  end.

(** A request with the type of its answer forgotten. *)
Definition Call : Type := { X : Type & Effect X }.
Definition call {X : Type} (e : Effect X) : Call := existT _ X e.

(** A request together with the answer it got, as recorded in a trace. *)
Definition Exchange : Type := { X : Type & (Effect X * X)%type }.
Definition exchange {X : Type} (e : Effect X) (x : X) : Exchange :=
  existT _ X (e, x).

Definition request (c : Exchange) : Call := call (fst (projT2 c)).

(** The requests of a trace, in order. *)
Definition requests (tr : list Exchange) : list Call := map request tr.

(** A backend: a state of its own and an answer to every effect. *)
Definition Handler (B : Type) : Type := forall X : Type, Effect X -> B -> X * B.

(** Running a program: its result, the final backend, and the exchanges
    with the backend, in order. *)
Fixpoint run {B R : Type} (h : Handler B) (p : Prog R) (b : B)
    : R * B * list Exchange :=
  match p with
  | Ret r => (r, b, [])
  | Vis e k =>
      let '(x, b1) := h _ e b in
      let '(r, b2, tr) := run h (k x) b1 in
      (r, b2, exchange e x :: tr)
  end.

(** Did the backend answer this exchange with an error? *)
Definition is_error {A : Type} (r : PostgrestResponse A) : bool :=
  match r with PgData _ => false | PgError _ => true end.

Definition refused (c : Exchange) : bool :=
  match c with
  | existT _ _ (e, x) =>
      match e in Effect X return X -> bool with
      | InsertWorkout _ _ _ _ => is_error
      | InsertWorkoutExercises _ => is_error
      | SelectWorkout _ => is_error
      | SelectWorkoutExercises _ => is_error
      | InsertSet _ _ => is_error
      | UpdateSet _ _ => is_error
      | DeleteSet _ => is_error
      | UpdateWorkoutExercise _ _ _ => is_error
      | UpdateWorkoutReturning _ _ _ _ => is_error
      | UpdateWorkout _ _ _ => is_error
      | SelectRecentCompletedWorkout _ _ => is_error
      | SelectWorkingSets _ => is_error
      | DateNowISO => fun _ => false
      end x
  end.

(** Is this exchange a set insert that the backend carried out? *)
Definition inserted_set (c : Exchange) : bool :=
  match c with
  | existT _ _ (e, x) =>
      match e in Effect X return X -> bool with
      | InsertSet _ _ => fun r => negb (is_error r)
      | _ => fun _ => false
      end x
  end.

(** Is this a request that removes or rewrites stored set rows? *)
Definition touches_sets (c : Call) : bool :=
  match c with
  | existT _ _ e =>
      match e with
      | InsertSet _ _ | UpdateSet _ _ | DeleteSet _ => true
      | _ => false
      end
  end.

(** Is this a request that writes to the database at all? *)
Definition is_write (c : Call) : bool :=
  match c with
  | existT _ _ e =>
      match e with
      | InsertWorkout _ _ _ _ | InsertWorkoutExercises _ | InsertSet _ _
      | UpdateSet _ _ | DeleteSet _ | UpdateWorkoutExercise _ _ _
      | UpdateWorkoutReturning _ _ _ _ | UpdateWorkout _ _ _ => true
      | _ => false
      end
  end.

(** How a statement list ends: normally with a value, or by a [throw]. *)
Inductive Completion (A : Type) : Type :=
| Normal (a : A)
| Abrupt (e : Thrown).
Arguments Normal {A} a.
Arguments Abrupt {A} e.

(** Code of the hook: it reads and replaces the React state, awaits
    requests, and may throw. *)
Definition Hook (A : Type) : Type :=
  UseWorkoutState -> Prog (Completion A * UseWorkoutState).

Definition ret {A : Type} (a : A) : Hook A := fun s => Ret (Normal a, s).

Definition bind {A B : Type} (c : Hook A) (f : A -> Hook B) : Hook B :=
  fun s =>
    pbind (c s)
      (fun r =>
         match r with
         | (Normal a, s1) => f a s1
         | (Abrupt e, s1) => Ret (Abrupt e, s1)
         end).

Declare Scope hook_scope.
Delimit Scope hook_scope with hook.
Notation "x <- c1 ;; c2" := (bind c1 (fun x => c2))
  (at level 61, c1 at next level, right associativity) : hook_scope.
Notation "c1 ;; c2" := (bind c1 (fun _ => c2))
  (at level 61, right associativity) : hook_scope.
Local Open Scope hook_scope.

Definition throw {A : Type} (e : Thrown) : Hook A := fun s => Ret (Abrupt e, s).

(** [await] of a request *)
Definition await {X : Type} (e : Effect X) : Hook X :=
  fun s => Vis e (fun x => Ret (Normal x, s)).

(** [setState(prev => f(prev))]; [setState(v)] is [setState(_ => v)]. *)
Definition setState (f : UseWorkoutState -> UseWorkoutState) : Hook unit :=
  fun s => Ret (Normal tt, f s).

(** Reading [state] *)
Definition getState : Hook UseWorkoutState := fun s => Ret (Normal s, s).

(** [try { body } catch (error) { handler }] *)
Definition try_catch {A : Type} (body : Hook A) (handler : Thrown -> Hook A)
    : Hook A :=
  fun s =>
    pbind (body s)
      (fun r =>
         match r with
         | (Normal a, s1) => Ret (Normal a, s1)
         | (Abrupt e, s1) => handler e s1
         end).

(** [const { data, error } = await ...; if (error) throw error] *)
Definition unwrap {A : Type} (r : PostgrestResponse A) : Hook A :=
  match r with
  | PgData d => ret d
  | PgError e => throw e
  end.

(** [error instanceof Error ? error.message : fallback] *)
Definition catch_message (error : Thrown) (fallback : string) : string :=
  if error.(instanceof_Error) then error.(message) else fallback.

(** [{ success, error, ...extra }]: what every mutation returns; [value] is
    the optional third field ([workoutId], [set] or [workout]). *)
Module Result.
Record t (A : Type) := mk {
  success : bool;
  error : option string;
  value : option A }.
Arguments mk {A} success error value.
Arguments success {A} t.
Arguments error {A} t.
Arguments value {A} t.
Definition fail {A : Type} (msg : string) : t A := mk false (Some msg) None.
Definition ok {A : Type} (v : option A) : t A := mk true None v.
End Result.

(** ** The operations of [useWorkout] *)

(** [startWorkout(template)]; [user] is the user of the auth context. *)
Definition startWorkout (user : option User.t)
    (template : WorkoutTemplateWithExercises.t) : Hook (Result.t string) :=
  match user with
  | None => ret (Result.fail "Not authenticated")
  | Some user =>
      setState (fun prev => mkState prev.(workout) prev.(exercises) true None) ;;
      try_catch
        (r <- await (InsertWorkout user.(User.id)
                       template.(WorkoutTemplateWithExercises.id)
                       template.(WorkoutTemplateWithExercises.name)
                       in_progress) ;;
         workout <- unwrap r ;;
         let workoutExercises :=
           map (fun te =>
                  NewWorkoutExercise.mk
                    workout.(Workout.id)
                    te.(TemplateExercise.exercise_id)
                    te.(TemplateExercise.order_index)
                    te.(TemplateExercise.id)
                    false)
               template.(WorkoutTemplateWithExercises.template_exercises) in
         r <- await (InsertWorkoutExercises workoutExercises) ;;
         exercises <- unwrap r ;;
         let exercisesWithTargets :=
           map (fun ex =>
                  let templateEx :=
                    find (fun te =>
                            te.(TemplateExercise.exercise_id)
                            =? ex.(WorkoutExercise.exercise_id))%string
                         template.(WorkoutTemplateWithExercises.template_exercises) in
                  WorkoutExercise.with_targets ex
                    (nullish (option_map TemplateExercise.target_sets templateEx) 3)
                    (match templateEx with
                     | Some te => te.(TemplateExercise.target_reps)
                     | None => None
                     end)
                    (match templateEx with
                     | Some te => te.(TemplateExercise.target_rpe)
                     | None => None
                     end)
                    (nullish (option_map TemplateExercise.rest_seconds templateEx) 90))
               exercises in
         setState (fun _ => mkState (Some workout) exercisesWithTargets false None) ;;
         ret (Result.ok (Some workout.(Workout.id))))
        (fun error =>
           let message := catch_message error "Failed to start workout" in
           setState (fun prev =>
                       mkState prev.(workout) prev.(exercises) false (Some message)) ;;
           ret (Result.fail message))
  end.

(** [resumeWorkout(workoutId)] *)
Definition resumeWorkout (workoutId : string) : Hook (Result.t unit) :=
  setState (fun prev => mkState prev.(workout) prev.(exercises) true None) ;;
  try_catch
    (r <- await (SelectWorkout workoutId) ;;
     workout <- unwrap r ;;
     r <- await (SelectWorkoutExercises workoutId) ;;
     exercises <- unwrap r ;;
     setState (fun _ => mkState (Some workout) (nullish exercises []) false None) ;;
     ret (Result.ok None))
    (fun error =>
       let message := catch_message error "Failed to resume workout" in
       setState (fun prev =>
                   mkState prev.(workout) prev.(exercises) false (Some message)) ;;
       ret (Result.fail message)).

(** [logSet(workoutExerciseId, setData)] *)
Definition logSet (workoutExerciseId : string) (setData : NewWorkoutSet.t)
    : Hook (Result.t WorkoutSet.t) :=
  state <- getState ;;
  match state.(workout) with
  | None => ret (Result.fail "No active workout")
  | Some _ =>
      try_catch
        (r <- await (InsertSet workoutExerciseId setData) ;;
         newSet <- unwrap r ;;
         setState (fun prev =>
           mkState prev.(workout)
             (map (fun ex =>
                     if (ex.(WorkoutExercise.id) =? workoutExerciseId)%string
                     then WorkoutExercise.with_sets ex
                            (Some (nullish ex.(WorkoutExercise.sets) [] ++ [newSet])%list)
                     else ex)
                  prev.(exercises))
             prev.(loading) prev.(error)) ;;
         ret (Result.ok (Some newSet)))
        (fun error => ret (Result.fail (catch_message error "Failed to log set")))
  end.

(** [updateSet(setId, updates)] *)
Definition updateSet (setId : string) (updates : PartialWorkoutSet.t)
    : Hook (Result.t unit) :=
  try_catch
    (r <- await (UpdateSet setId updates) ;;
     updatedSet <- unwrap r ;;
     setState (fun prev =>
       mkState prev.(workout)
         (map (fun ex =>
                 WorkoutExercise.with_sets ex
                   (option_map
                      (map (fun s =>
                              if (s.(WorkoutSet.id) =? setId)%string
                              then updatedSet else s))
                      ex.(WorkoutExercise.sets)))
              prev.(exercises))
         prev.(loading) prev.(error)) ;;
     ret (Result.ok None))
    (fun error => ret (Result.fail (catch_message error "Failed to update set"))).

(** [deleteSet(setId, workoutExerciseId)] *)
Definition deleteSet (setId workoutExerciseId : string) : Hook (Result.t unit) :=
  try_catch
    (r <- await (DeleteSet setId) ;;
     _ <- unwrap r ;;
     setState (fun prev =>
       mkState prev.(workout)
         (map (fun ex =>
                 if (ex.(WorkoutExercise.id) =? workoutExerciseId)%string
                 then WorkoutExercise.with_sets ex
                        (option_map
                           (filter (fun s => negb (s.(WorkoutSet.id) =? setId)%string))
                           ex.(WorkoutExercise.sets))
                 else ex)
              prev.(exercises))
         prev.(loading) prev.(error)) ;;
     ret (Result.ok None))
    (fun error => ret (Result.fail (catch_message error "Failed to delete set"))).

(** [swapExercise(workoutExerciseId, newExerciseId)] *)
Definition swapExercise (workoutExerciseId newExerciseId : string)
    : Hook (Result.t unit) :=
  try_catch
    (r <- await (UpdateWorkoutExercise workoutExerciseId newExerciseId true) ;;
     data <- unwrap r ;;
     setState (fun prev =>
       mkState prev.(workout)
         (map (fun ex =>
                 if (ex.(WorkoutExercise.id) =? workoutExerciseId)%string
                 then WorkoutExercise.with_sets data (Some [])
                 else ex)
              prev.(exercises))
         prev.(loading) prev.(error)) ;;
     ret (Result.ok None))
    (fun error => ret (Result.fail (catch_message error "Failed to swap exercise"))).

(** [notes || null] *)
Definition or_null (notes : option string) : option string :=
  match notes with
  | Some "" => None
  | Some n => Some n
  | None => None
  end.

(** [completeWorkout(notes?)] *)
Definition completeWorkout (notes : option string) : Hook (Result.t Workout.t) :=
  state <- getState ;;
  match state.(workout) with
  | None => ret (Result.fail "No active workout")
  | Some w =>
      try_catch
        (now <- await DateNowISO ;;
         r <- await (UpdateWorkoutReturning w.(Workout.id) completed now
                       (or_null notes)) ;;
         data <- unwrap r ;;
         let completedWorkout := data in
         setState (fun _ => mkState None [] false None) ;;
         ret (Result.ok (Some completedWorkout)))
        (fun error =>
           ret (Result.fail (catch_message error "Failed to complete workout")))
  end.

(** [abandonWorkout()] *)
Definition abandonWorkout : Hook (Result.t unit) :=
  state <- getState ;;
  match state.(workout) with
  | None => ret (Result.fail "No active workout")
  | Some w =>
      try_catch
        (now <- await DateNowISO ;;
         r <- await (UpdateWorkout w.(Workout.id) abandoned now) ;;
         _ <- unwrap r ;;
         setState (fun _ => mkState None [] false None) ;;
         ret (Result.ok None))
        (fun error =>
           ret (Result.fail (catch_message error "Failed to abandon workout")))
  end.

(** [getPreviousSets(exerciseId)].  The [catch] block logs to the console and
    returns the empty list. *)
Definition getPreviousSets (user : option User.t) (exerciseId : string)
    : Hook (list PreviousSetData.t) :=
  match user with
  | None => ret []
  | Some user =>
      try_catch
        (r <- await (SelectRecentCompletedWorkout user.(User.id) exerciseId) ;;
         match r with
         | PgError _ => ret []
         | PgData None => ret []
         | PgData (Some recentWorkout) =>
             let workoutExercise :=
               find (fun we =>
                       (we.(RecentWorkout.we_exercise_id) =? exerciseId)%string)
                    recentWorkout.(RecentWorkout.workout_exercises) in
             match workoutExercise with
             | None => ret []
             | Some workoutExercise =>
                 r <- await (SelectWorkingSets
                               workoutExercise.(RecentWorkout.we_id)) ;;
                 sets <- unwrap r ;;
                 ret (map (fun s =>
                             PreviousSetData.mk exerciseId
                               (nullish s.(SetRow.weight_kg) 0%Q)
                               (nullish s.(SetRow.reps) 0)
                               s.(SetRow.set_number))
                          (filter (fun s =>
                                     truthyQ s.(SetRow.weight_kg)
                                     && truthyZ s.(SetRow.reps))
                                  (nullish sets [])))
             end
         end)
        (fun _ => ret [])
  end.

(** What the state update of [logSet] does to one exercise. *)
Definition appendSet (workoutExerciseId : string) (newSet : WorkoutSet.t)
    (ex : WorkoutExercise.t) : WorkoutExercise.t :=
  if (ex.(WorkoutExercise.id) =? workoutExerciseId)%string
  then WorkoutExercise.with_sets ex
         (Some (nullish ex.(WorkoutExercise.sets) [] ++ [newSet])%list)
  else ex.

(** A caller that awaits one [logSet] after the other on the same slot. *)
Fixpoint logSets (workoutExerciseId : string) (calls : list NewWorkoutSet.t)
    : Hook (list (Result.t WorkoutSet.t)) :=
  match calls with
  | [] => ret []
  | setData :: rest =>
      r <- logSet workoutExerciseId setData ;;
      rs <- logSets workoutExerciseId rest ;;
      ret (r :: rs)
  end.

(** The set list the state holds for a slot: [ex.sets ?? []] of the exercise
    with that id. *)
Definition setsOf (workoutExerciseId : string) (state : UseWorkoutState)
    : list WorkoutSet.t :=
  match find (fun ex => (ex.(WorkoutExercise.id) =? workoutExerciseId)%string)
             state.(exercises) with
  | Some ex => nullish ex.(WorkoutExercise.sets) []
  | None => []
  end.

(** The row in the answer to a set insert that the backend carried out. *)
Definition answered_set (c : Exchange) : option WorkoutSet.t :=
  match c with
  | existT _ _ (e, x) =>
      match e in Effect X return X -> option WorkoutSet.t with
      | InsertSet _ _ =>
          fun r => match r with PgData s => Some s | PgError _ => None end
      | _ => fun _ => None
      end x
  end.

(** The rows the backend created, in the order of the trace. *)
Definition insertedSets (tr : list Exchange) : list WorkoutSet.t :=
  flat_map (fun c => match answered_set c with Some s => [s] | None => [] end) tr.

(** The sets created by the calls that succeeded, in call order. *)
Definition createdSets (rs : list (Result.t WorkoutSet.t)) : list WorkoutSet.t :=
  flat_map (fun r =>
              if r.(Result.success)
              then match r.(Result.value) with Some s => [s] | None => [] end
              else [])
           rs.

(** ** The set rows of [SetInputCard] *)

Module SetRowData.
Record t := mk {
  setNumber : Z;
  weight : string;
  reps : string;
  isWarmup : bool;
  isCompleted : bool;
  setId : option string;
  previousWeight : option Q;
  previousReps : option Z }.

(** [{ ...s, setNumber }] *)
Definition with_setNumber (s : t) (n : Z) : t :=
  mk n s.(weight) s.(reps) s.(isWarmup) s.(isCompleted) s.(setId)
     s.(previousWeight) s.(previousReps).
End SetRowData.

(** Truthiness of an optional string: present and not empty. *)
Definition truthyString (s : option string) : bool :=
  match s with
  | Some "" => false
  | Some _ => true
  | None => false
  end.

(** [arr.filter((x, i) => f(x, i))], the first element having index [i]. *)
Fixpoint filteri {A : Type} (f : A -> nat -> bool) (i : nat) (l : list A)
    : list A :=
  match l with
  | [] => []
  | x :: l' => if f x i then x :: filteri f (S i) l' else filteri f (S i) l'
  end.

(** [arr.map((x, i) => f(x, i))], the first element having index [i]. *)
Fixpoint mapi {A B : Type} (f : A -> nat -> B) (i : nat) (l : list A) : list B :=
  match l with
  | [] => []
  | x :: l' => f x i :: mapi f (S i) l'
  end.

(** Reading a property of [undefined]. *)
Definition TypeError_undefined : Thrown :=
  mkThrown "Cannot read property 'isCompleted' of undefined" true.

(** [handleDeleteSet(index)]; [sets] is the row list of the card and the
    result is the row list after [setSets]. *)
Definition handleDeleteSet (workoutExercise : WorkoutExercise.t) (index : nat)
    (sets : list SetRowData.t) : Hook (list SetRowData.t) :=
  match nth_error sets index with
  | None => throw TypeError_undefined
  | Some set =>
      (if set.(SetRowData.isCompleted) && truthyString set.(SetRowData.setId)
       then
         _ <- deleteSet (nullish set.(SetRowData.setId) "")
                workoutExercise.(WorkoutExercise.id) ;;
         ret tt
       else ret tt) ;;
      let newSets := filteri (fun _ i => negb (i =? index)%nat) 0%nat sets in
      ret (mapi (fun s i => SetRowData.with_setNumber s (Z.of_nat i + 1)) 0%nat
             newSets)
  end.

(** ** The countdown of [RestTimer] *)

Module RestTimer.

(** The two state cells of the component and the two props the countdown
    reads.  [visible] is [showRestTimer] of the workout screen, whose
    [onClose] sets it to [false]. *)
Record State := mk {
  visible : bool;
  duration : Z;
  remainingSeconds : Z;
  isPaused : bool }.

(** What the countdown does to the outside. *)
Inductive Signal := Vibrate | OnClose.

Inductive Event :=
| Tick                      (* one second passes *)
| PressPause                (* the pause / play button *)
| AdjustTime (delta : Z).   (* the -15s / +15s buttons *)

(** The timer as it opens: the reset effect has run. *)
Definition open (duration : Z) : State := mk true duration duration false.

(** The interval callback.  The interval exists only while the timer is
    visible and not paused. *)
Definition tick (s : State) : State * list Signal :=
  if negb s.(visible) || s.(isPaused) then (s, [])
  else if s.(remainingSeconds) <=? 1
       then (mk false s.(duration) 0 s.(isPaused), [Vibrate; OnClose])
       else (mk s.(visible) s.(duration) (s.(remainingSeconds) - 1) s.(isPaused),
             []).

(** [adjustTime(delta)] *)
Definition adjustTime (delta : Z) (s : State) : State :=
  mk s.(visible) s.(duration) (Math_max 0 (s.(remainingSeconds) + delta))
     s.(isPaused).

(** [setIsPaused(!isPaused)] *)
Definition togglePause (s : State) : State :=
  mk s.(visible) s.(duration) s.(remainingSeconds) (negb s.(isPaused)).

Definition step (s : State) (ev : Event) : State * list Signal :=
  match ev with
  | Tick => tick s
  | PressPause => (togglePause s, [])
  | AdjustTime delta => (adjustTime delta s, [])
  end.

(** The state after a sequence of events and everything signalled. *)
Fixpoint steps (s : State) (evs : list Event) : State * list Signal :=
  match evs with
  | [] => (s, [])
  | ev :: evs' =>
      let '(s1, out1) := step s ev in
      let '(s2, out2) := steps s1 evs' in
      (s2, out1 ++ out2)%list
  end.

End RestTimer.

(** ** An executable store

    A stand-in for the hosted database, used where a property speaks about
    the stored rows or needs the answers to be those of a database.  It
    keeps the three tables the hook writes and the exercise catalogue,
    hands out identifiers from a counter, and answers every effect by the
    meaning of its builder chain: [eq] filters rows, [order] sorts them,
    [limit(1)] keeps the first, and [single()] is an error unless exactly
    one row results, in which case a mutation is not applied.  Its clock
    stands still. *)

Module RefBackend.

Record Db := mk {
  workouts : list Workout.t;
  workout_exercises : list WorkoutExercise.t;
  workout_sets : list WorkoutSet.t;
  exercises : list Exercise.t;
  next_id : nat;
  now : string }.

(** The identifier made from a counter value: its decimal numeral. *)
Definition mk_id (n : nat) : string :=
  NilEmpty.string_of_uint (Nat.to_uint n).

(** The error of [single()]. *)
Definition single_error : PostgrestError :=
  mkThrown "JSON object requested, multiple (or no) rows returned" true.

Definition single {A : Type} (rows : list A) : PostgrestResponse A :=
  match rows with
  | [r] => PgData r
  | _ => PgError single_error
  end.

(** Stable insertion sort by a "comes no later than" test. *)
Fixpoint insert_by {A : Type} (leb : A -> A -> bool) (x : A) (l : list A)
    : list A :=
  match l with
  | [] => [x]
  | y :: l' => if leb x y then x :: l else y :: insert_by leb x l'
  end.

Fixpoint sort_by {A : Type} (leb : A -> A -> bool) (l : list A) : list A :=
  match l with
  | [] => []
  | x :: l' => insert_by leb x (sort_by leb l')
  end.

(** [exercise:exercises(..)]: the catalogue entry a row points to. *)
Definition join_exercise (db : Db) (row : WorkoutExercise.t) : WorkoutExercise.t :=
  WorkoutExercise.mk
    row.(WorkoutExercise.id) row.(WorkoutExercise.workout_id)
    row.(WorkoutExercise.exercise_id) row.(WorkoutExercise.order_index)
    row.(WorkoutExercise.template_exercise_id)
    row.(WorkoutExercise.is_substitution) row.(WorkoutExercise.notes)
    row.(WorkoutExercise.created_at)
    (find (fun e => (e.(Exercise.id) =? row.(WorkoutExercise.exercise_id))%string)
          db.(exercises))
    None None None None None.

(** [sets:workout_sets(..)]: the stored sets of a row. *)
Definition join_sets (db : Db) (row : WorkoutExercise.t) : WorkoutExercise.t :=
  WorkoutExercise.with_sets row
    (Some (filter (fun s => (s.(WorkoutSet.workout_exercise_id)
                             =? row.(WorkoutExercise.id))%string)
                  db.(workout_sets))).

Definition new_workout_exercise (db : Db) (r : NewWorkoutExercise.t) (i : nat)
    : WorkoutExercise.t :=
  WorkoutExercise.mk (mk_id (db.(next_id) + i))
    r.(NewWorkoutExercise.workout_id) r.(NewWorkoutExercise.exercise_id)
    r.(NewWorkoutExercise.order_index)
    (Some r.(NewWorkoutExercise.template_exercise_id))
    r.(NewWorkoutExercise.is_substitution) None db.(now)
    None None None None None None.

Definition new_set (db : Db) (workout_exercise_id : string)
    (d : NewWorkoutSet.t) : WorkoutSet.t :=
  WorkoutSet.mk (mk_id db.(next_id)) workout_exercise_id
    d.(NewWorkoutSet.set_number) d.(NewWorkoutSet.weight_kg)
    d.(NewWorkoutSet.reps) d.(NewWorkoutSet.rpe)
    (nullish d.(NewWorkoutSet.is_warmup) false)
    (nullish d.(NewWorkoutSet.is_failure) false)
    (nullish d.(NewWorkoutSet.is_dropset) false)
    d.(NewWorkoutSet.target_reps) db.(now) db.(now).

Definition patch_set (u : PartialWorkoutSet.t) (s : WorkoutSet.t) : WorkoutSet.t :=
  WorkoutSet.mk
    (nullish u.(PartialWorkoutSet.id) s.(WorkoutSet.id))
    (nullish u.(PartialWorkoutSet.workout_exercise_id)
             s.(WorkoutSet.workout_exercise_id))
    (nullish u.(PartialWorkoutSet.set_number) s.(WorkoutSet.set_number))
    (nullish u.(PartialWorkoutSet.weight_kg) s.(WorkoutSet.weight_kg))
    (nullish u.(PartialWorkoutSet.reps) s.(WorkoutSet.reps))
    (nullish u.(PartialWorkoutSet.rpe) s.(WorkoutSet.rpe))
    (nullish u.(PartialWorkoutSet.is_warmup) s.(WorkoutSet.is_warmup))
    (nullish u.(PartialWorkoutSet.is_failure) s.(WorkoutSet.is_failure))
    (nullish u.(PartialWorkoutSet.is_dropset) s.(WorkoutSet.is_dropset))
    (nullish u.(PartialWorkoutSet.target_reps) s.(WorkoutSet.target_reps))
    (nullish u.(PartialWorkoutSet.completed_at) s.(WorkoutSet.completed_at))
    (nullish u.(PartialWorkoutSet.created_at) s.(WorkoutSet.created_at)).

Definition patch_exercise (exercise_id : string) (is_substitution : bool)
    (r : WorkoutExercise.t) : WorkoutExercise.t :=
  WorkoutExercise.mk
    r.(WorkoutExercise.id) r.(WorkoutExercise.workout_id) exercise_id
    r.(WorkoutExercise.order_index) r.(WorkoutExercise.template_exercise_id)
    is_substitution r.(WorkoutExercise.notes) r.(WorkoutExercise.created_at)
    r.(WorkoutExercise.exercise) r.(WorkoutExercise.sets)
    r.(WorkoutExercise.targetSets) r.(WorkoutExercise.targetReps)
    r.(WorkoutExercise.targetRpe) r.(WorkoutExercise.restSeconds).

Definition patch_workout (status : WorkoutStatus) (completed_at : string)
    (notes : option string) (w : Workout.t) : Workout.t :=
  Workout.mk w.(Workout.id) w.(Workout.user_id) w.(Workout.template_id)
    w.(Workout.name) w.(Workout.started_at) (Some completed_at) status notes
    w.(Workout.created_at) w.(Workout.updated_at).

(** [update(...).eq('id', id)] on a table: patch the rows with that id. *)
Definition update_where {A : Type} (id_of : A -> string) (id : string)
    (patch : A -> A) (rows : list A) : list A :=
  map (fun r => if (id_of r =? id)%string then patch r else r) rows.

Definition has_id {A : Type} (id_of : A -> string) (id : string) (r : A) : bool :=
  (id_of r =? id)%string.

(** [order('completed_at', { ascending: false })]: later first, and a
    missing time before any time, as the database orders them. *)
Definition completed_not_before (a b : Workout.t) : bool :=
  match a.(Workout.completed_at), b.(Workout.completed_at) with
  | None, _ => true
  | Some _, None => false
  | Some x, Some y => (y <=? x)%string
  end.

Definition contains_exercise (db : Db) (exercise_id : string) (w : Workout.t)
    : bool :=
  existsb (fun we =>
             (we.(WorkoutExercise.workout_id) =? w.(Workout.id))%string
             && (we.(WorkoutExercise.exercise_id) =? exercise_id)%string)
          db.(workout_exercises).

(** The completed workouts of a user that contain an exercise. *)
Definition completed_with (db : Db) (user_id exercise_id : string)
    : list Workout.t :=
  filter (fun w =>
            (w.(Workout.user_id) =? user_id)%string
            && WorkoutStatus_eqb w.(Workout.status) completed
            && contains_exercise db exercise_id w)
         db.(workouts).

Definition recent_row (db : Db) (exercise_id : string) (w : Workout.t)
    : RecentWorkout.t :=
  RecentWorkout.mk w.(Workout.id)
    (map (fun we => RecentWorkout.mk_ref we.(WorkoutExercise.id)
                      we.(WorkoutExercise.exercise_id))
         (filter (fun we =>
                    (we.(WorkoutExercise.workout_id) =? w.(Workout.id))%string
                    && (we.(WorkoutExercise.exercise_id) =? exercise_id)%string)
                 db.(workout_exercises))).

(** The stored non-warmup sets of a slot, by ascending set number. *)
Definition working_sets (db : Db) (workout_exercise_id : string)
    : list WorkoutSet.t :=
  sort_by (fun a b => a.(WorkoutSet.set_number) <=? b.(WorkoutSet.set_number))
    (filter (fun s =>
               (s.(WorkoutSet.workout_exercise_id) =? workout_exercise_id)%string
               && negb s.(WorkoutSet.is_warmup))
            db.(workout_sets)).

Definition set_row (s : WorkoutSet.t) : SetRow.t :=
  SetRow.mk s.(WorkoutSet.set_number) s.(WorkoutSet.weight_kg) s.(WorkoutSet.reps).

Definition handle : Handler Db :=
  fun X e =>
    match e in Effect X return Db -> X * Db with
    | InsertWorkout user_id template_id name status => fun db =>
        let w := Workout.mk (mk_id db.(next_id)) user_id (Some template_id) name
                   db.(now) None status None db.(now) db.(now) in
        (PgData w,
         mk (db.(workouts) ++ [w]) db.(workout_exercises) db.(workout_sets)
            db.(exercises) (S db.(next_id)) db.(now))
    | InsertWorkoutExercises rows => fun db =>
        let news := mapi (new_workout_exercise db) 0%nat rows in
        (PgData (map (join_exercise db) news),
         mk db.(workouts) (db.(workout_exercises) ++ news) db.(workout_sets)
            db.(exercises) (db.(next_id) + length rows) db.(now))
    | SelectWorkout id => fun db =>
        (single (filter (has_id Workout.id id) db.(workouts)), db)
    | SelectWorkoutExercises workout_id => fun db =>
        (PgData
           (Some
              (map (fun r => join_sets db (join_exercise db r))
                 (sort_by
                    (fun a b => a.(WorkoutExercise.order_index)
                                <=? b.(WorkoutExercise.order_index))
                    (filter (fun r => (r.(WorkoutExercise.workout_id)
                                       =? workout_id)%string)
                            db.(workout_exercises))))),
         db)
    | InsertSet workout_exercise_id setData => fun db =>
        let s := new_set db workout_exercise_id setData in
        (PgData s,
         mk db.(workouts) db.(workout_exercises) (db.(workout_sets) ++ [s])
            db.(exercises) (S db.(next_id)) db.(now))
    | UpdateSet id updates => fun db =>
        match filter (has_id WorkoutSet.id id) db.(workout_sets) with
        | [s] =>
            (PgData (patch_set updates s),
             mk db.(workouts) db.(workout_exercises)
                (update_where WorkoutSet.id id (patch_set updates)
                   db.(workout_sets))
                db.(exercises) db.(next_id) db.(now))
        | _ => (PgError single_error, db)
        end
    | DeleteSet id => fun db =>
        (PgData tt,
         mk db.(workouts) db.(workout_exercises)
            (filter (fun s => negb (has_id WorkoutSet.id id s)) db.(workout_sets))
            db.(exercises) db.(next_id) db.(now))
    | UpdateWorkoutExercise id exercise_id is_substitution => fun db =>
        match filter (has_id WorkoutExercise.id id) db.(workout_exercises) with
        | [r] =>
            (PgData (join_exercise db (patch_exercise exercise_id is_substitution r)),
             mk db.(workouts)
                (update_where WorkoutExercise.id id
                   (patch_exercise exercise_id is_substitution)
                   db.(workout_exercises))
                db.(workout_sets) db.(exercises) db.(next_id) db.(now))
        | _ => (PgError single_error, db)
        end
    | UpdateWorkoutReturning id status completed_at notes => fun db =>
        match filter (has_id Workout.id id) db.(workouts) with
        | [w] =>
            (PgData (patch_workout status completed_at notes w),
             mk (update_where Workout.id id
                   (patch_workout status completed_at notes) db.(workouts))
                db.(workout_exercises) db.(workout_sets) db.(exercises)
                db.(next_id) db.(now))
        | _ => (PgError single_error, db)
        end
    | UpdateWorkout id status completed_at => fun db =>
        (PgData tt,
         mk (update_where Workout.id id
               (fun w => patch_workout status completed_at w.(Workout.notes) w)
               db.(workouts))
            db.(workout_exercises) db.(workout_sets) db.(exercises)
            db.(next_id) db.(now))
    | SelectRecentCompletedWorkout user_id exercise_id => fun db =>
        match sort_by completed_not_before (completed_with db user_id exercise_id) with
        | w :: _ => (PgData (Some (recent_row db exercise_id w)), db)
        | [] => (PgError single_error, db)
        end
    | SelectWorkingSets workout_exercise_id => fun db =>
        (PgData (Some (map set_row (working_sets db workout_exercise_id))), db)
    | DateNowISO => fun db => (db.(now), db)
    end.

End RefBackend.

(** ** The mutations as one family *)

Module Op.
Inductive t :=
| StartWorkout (user : option User.t) (template : WorkoutTemplateWithExercises.t)
| ResumeWorkout (workoutId : string)
| LogSet (workoutExerciseId : string) (setData : NewWorkoutSet.t)
| UpdateSet (setId : string) (updates : PartialWorkoutSet.t)
| DeleteSet (setId workoutExerciseId : string)
| SwapExercise (workoutExerciseId newExerciseId : string)
| CompleteWorkout (notes : option string)
| AbandonWorkout.
End Op.

(** The [success] and [error] fields of a result. *)
Definition outcome {A : Type} (r : Result.t A) : bool * option string :=
  (r.(Result.success), r.(Result.error)).

(** Calling a mutation and looking at [{ success, error }]. *)
Definition perform (op : Op.t) : Hook (bool * option string) :=
  match op with
  | Op.StartWorkout user template =>
      r <- startWorkout user template ;; ret (outcome r)
  | Op.ResumeWorkout workoutId =>
      r <- resumeWorkout workoutId ;; ret (outcome r)
  | Op.LogSet workoutExerciseId setData =>
      r <- logSet workoutExerciseId setData ;; ret (outcome r)
  | Op.UpdateSet setId updates =>
      r <- updateSet setId updates ;; ret (outcome r)
  | Op.DeleteSet setId workoutExerciseId =>
      r <- deleteSet setId workoutExerciseId ;; ret (outcome r)
  | Op.SwapExercise workoutExerciseId newExerciseId =>
      r <- swapExercise workoutExerciseId newExerciseId ;; ret (outcome r)
  | Op.CompleteWorkout notes =>
      r <- completeWorkout notes ;; ret (outcome r)
  | Op.AbandonWorkout =>
      r <- abandonWorkout ;; ret (outcome r)
  end.

(** The trace ends with its only refused exchange: the refused request was
    not sent again and nothing was asked after it. *)
Definition stops_at_refusal (tr : list Exchange) : bool :=
  match rev tr with
  | x :: before => refused x && negb (existsb refused before)
  | [] => false
  end.

(** The [error] of an answer, when it has one. *)
Definition error_of {A : Type} (r : PostgrestResponse A)
    : option PostgrestError :=
  match r with PgData _ => None | PgError e => Some e end.

(** The error the backend gave in this exchange, when it refused it. *)
Definition refusal_of (c : Exchange) : option PostgrestError :=
  match c with
  | existT _ _ (e, x) =>
      match e in Effect X return X -> option PostgrestError with
      | InsertWorkout _ _ _ _ => error_of
      | InsertWorkoutExercises _ => error_of
      | SelectWorkout _ => error_of
      | SelectWorkoutExercises _ => error_of
      | InsertSet _ _ => error_of
      | UpdateSet _ _ => error_of
      | DeleteSet _ => error_of
      | UpdateWorkoutExercise _ _ _ => error_of
      | UpdateWorkoutReturning _ _ _ _ => error_of
      | UpdateWorkout _ _ _ => error_of
      | SelectRecentCompletedWorkout _ _ => error_of
      | SelectWorkingSets _ => error_of
      | DateNowISO => fun _ => None
      end x
  end.

(** The error of the last exchange of a trace. *)
Definition last_refusal (tr : list Exchange) : option PostgrestError :=
  match rev tr with
  | x :: _ => refusal_of x
  | [] => None
  end.

(** The text each mutation reports when what it caught is no [Error]. *)
Definition fallback (op : Op.t) : string :=
  match op with
  | Op.StartWorkout _ _ => "Failed to start workout"
  | Op.ResumeWorkout _ => "Failed to resume workout"
  | Op.LogSet _ _ => "Failed to log set"
  | Op.UpdateSet _ _ => "Failed to update set"
  | Op.DeleteSet _ _ => "Failed to delete set"
  | Op.SwapExercise _ _ => "Failed to swap exercise"
  | Op.CompleteWorkout _ => "Failed to complete workout"
  | Op.AbandonWorkout => "Failed to abandon workout"
  end.

(** Do the two mutations that load a session keep the error in the state?
    [startWorkout] and [resumeWorkout] do; the other six only return it. *)
Definition keeps_error (op : Op.t) : bool :=
  match op with
  | Op.StartWorkout _ _ | Op.ResumeWorkout _ => true
  | _ => false
  end.

(** ** A backend that is out of reach: it refuses every request. *)

Module Offline.

Definition refusal : PostgrestError := mkThrown "Network request failed" true.

Definition handle : Handler unit :=
  fun X e =>
    match e in Effect X return unit -> X * unit with
    | InsertWorkout _ _ _ _ => fun u => (PgError refusal, u)
    | InsertWorkoutExercises _ => fun u => (PgError refusal, u)
    | SelectWorkout _ => fun u => (PgError refusal, u)
    | SelectWorkoutExercises _ => fun u => (PgError refusal, u)
    | InsertSet _ _ => fun u => (PgError refusal, u)
    | UpdateSet _ _ => fun u => (PgError refusal, u)
    | DeleteSet _ => fun u => (PgError refusal, u)
    | UpdateWorkoutExercise _ _ _ => fun u => (PgError refusal, u)
    | UpdateWorkoutReturning _ _ _ _ => fun u => (PgError refusal, u)
    | UpdateWorkout _ _ _ => fun u => (PgError refusal, u)
    | SelectRecentCompletedWorkout _ _ => fun u => (PgError refusal, u)
    | SelectWorkingSets _ => fun u => (PgError refusal, u)
    | DateNowISO => fun u => ("2024-03-01T18:30:00.000Z", u)
    end.

End Offline.

(** ** Sample data *)

Module Sample.

Definition user : User.t := User.mk "user-1".

Definition catalogue (id name : string) (g : MuscleGroup) : Exercise.t :=
  Exercise.mk id name None g [] barbell true None "2024-01-01T00:00:00.000Z".

Definition bench : Exercise.t := catalogue "bench" "Bench Press" chest.
Definition squat : Exercise.t := catalogue "squat" "Back Squat" quadriceps.
Definition row : Exercise.t := catalogue "row" "Barbell Row" back.

Definition planned (id exercise_id : string) (order_index : Z)
    : TemplateExercise.t :=
  TemplateExercise.mk id "tpl-1" exercise_id order_index 3 (Some 5) None 120
    None "2024-01-01T00:00:00.000Z" None.

(** A template of three exercises with three target sets each. *)
Definition template : WorkoutTemplateWithExercises.t :=
  WorkoutTemplateWithExercises.mk "tpl-1" "Full Body" None None (Some 45)
    "2024-01-01T00:00:00.000Z" "2024-01-01T00:00:00.000Z"
    [planned "te-1" "bench" 0; planned "te-2" "squat" 1; planned "te-3" "row" 2].

(** An empty store that knows the three exercises. *)
Definition db : RefBackend.Db :=
  RefBackend.mk [] [] [] [bench; squat; row] 0 "2024-03-01T18:30:00.000Z".

(** One set of 100 kg for 5 reps. *)
Definition set_100x5 (set_number : Z) : NewWorkoutSet.t :=
  NewWorkoutSet.mk set_number (Some 100%Q) (Some 5) None (Some false) None None
    (Some 5).

(** The session and the store after [startWorkout(template)]. *)
Definition started : UseWorkoutState * RefBackend.Db :=
  let '(_, st, db1, _) :=
    run RefBackend.handle (startWorkout (Some user) template initialState) db in
  (st, db1).

Definition session : UseWorkoutState := fst started.
Definition store : RefBackend.Db := snd started.

End Sample.

(** Runs on the sample data, used to exhibit the properties below on
    concrete input. *)
Module SampleRuns.

(** A set logged while the backend is out of reach. *)
Definition offline_logSet :=
  run Offline.handle
    (perform (Op.LogSet "1" (Sample.set_100x5 1)) Sample.session) tt.

End SampleRuns.

Module SampleRows.

(** The workout row of the sample session. *)
Definition workout0 : Workout.t :=
  Workout.mk "0" "user-1" (Some "tpl-1") "Full Body" "2024-03-01T18:30:00.000Z"
    None in_progress None "2024-03-01T18:30:00.000Z" "2024-03-01T18:30:00.000Z".

Definition now : string := "2024-03-01T18:30:00.000Z".

(** The stored row of the first slot of the sample session. *)
Definition slot1 : WorkoutExercise.t :=
  WorkoutExercise.mk "1" "0" "bench" 0 (Some "te-1") false None now None None
    None None None None.

(** A state that holds rows but no workout. *)
Definition inactive : UseWorkoutState :=
  mkState None Sample.session.(exercises) false None.

Definition no_updates : PartialWorkoutSet.t :=
  PartialWorkoutSet.mk None None None None None None None None None None None
    None.

(** A store in which set "7" exists. *)
Definition store_with_set : RefBackend.Db :=
  snd (RefBackend.handle _ (InsertSet "1" (Sample.set_100x5 1))
         (RefBackend.mk Sample.store.(RefBackend.workouts)
            Sample.store.(RefBackend.workout_exercises) [] 
            Sample.store.(RefBackend.exercises) 7 now)).

End SampleRows.

Module SampleSwap.

(** The sample session after two sets were logged on its first slot. *)
Definition logged : UseWorkoutState * RefBackend.Db :=
  let '(_, st, db1, _) :=
    run RefBackend.handle
      (logSets "1" [Sample.set_100x5 1; Sample.set_100x5 2] Sample.session)
      Sample.store in
  (st, db1).

Definition session : UseWorkoutState := fst logged.
Definition store : RefBackend.Db := snd logged.

(** The row the store returns when the first slot is swapped to squats. *)
Definition swapped_row : WorkoutExercise.t :=
  RefBackend.join_exercise store
    (RefBackend.patch_exercise "squat" true SampleRows.slot1).

End SampleSwap.

(** ** Deleting a set: helpers and sample *)

(** What the state update of [deleteSet] does to one exercise. *)
Definition removeSet (setId workoutExerciseId : string) (ex : WorkoutExercise.t)
    : WorkoutExercise.t :=
  if (ex.(WorkoutExercise.id) =? workoutExerciseId)%string
  then WorkoutExercise.with_sets ex
         (option_map (filter (fun s => negb (s.(WorkoutSet.id) =? setId)%string))
                     ex.(WorkoutExercise.sets))
  else ex.

(** The numbers [1..n]. *)
Definition one_to (n : nat) : list Z := map (fun i => Z.of_nat i + 1) (seq 0 n).

Module SampleDelete.

(** The sample session after three sets were logged on its first slot;
    the store gave them the ids "4", "5" and "6". *)
Definition logged : UseWorkoutState * RefBackend.Db :=
  let '(_, st, db1, _) :=
    run RefBackend.handle
      (logSets "1" [Sample.set_100x5 1; Sample.set_100x5 2; Sample.set_100x5 3]
         Sample.session)
      Sample.store in
  (st, db1).

Definition session : UseWorkoutState := fst logged.
Definition store : RefBackend.Db := snd logged.

Definition saved (setNumber : Z) (setId : string) : SetRowData.t :=
  SetRowData.mk setNumber "100" "5" false true (Some setId) None None.

(** The rows the card shows for that slot. *)
Definition rows : list SetRowData.t := [saved 1 "4"; saved 2 "5"; saved 3 "6"].

(** Pressing delete on the first row. *)
Definition deleted :=
  run RefBackend.handle
    (handleDeleteSet SampleRows.slot1 0 rows session) store.

Definition rows_after : list SetRowData.t :=
  match fst (fst (fst deleted)) with
  | Normal rows' => rows'
  | Abrupt _ => []
  end.

Definition session_after : UseWorkoutState := snd (fst (fst deleted)).

End SampleDelete.

(** What [startWorkout] adds to one returned row: the targets of the first
    template exercise with the same exercise, and an empty set list. *)
Definition withTargets (template : WorkoutTemplateWithExercises.t)
    (ex : WorkoutExercise.t) : WorkoutExercise.t :=
  let templateEx :=
    find (fun te =>
            te.(TemplateExercise.exercise_id) =? ex.(WorkoutExercise.exercise_id))%string
         template.(WorkoutTemplateWithExercises.template_exercises) in
  WorkoutExercise.with_targets ex
    (nullish (option_map TemplateExercise.target_sets templateEx) 3)
    (match templateEx with
     | Some te => te.(TemplateExercise.target_reps)
     | None => None
     end)
    (match templateEx with
     | Some te => te.(TemplateExercise.target_rpe)
     | None => None
     end)
    (nullish (option_map TemplateExercise.rest_seconds templateEx) 90).

(** The rows [startWorkout] asks the backend to insert. *)
Definition plannedRows (workout_id : string)
    (template : WorkoutTemplateWithExercises.t) : list NewWorkoutExercise.t :=
  map (fun te =>
         NewWorkoutExercise.mk workout_id
           te.(TemplateExercise.exercise_id)
           te.(TemplateExercise.order_index)
           te.(TemplateExercise.id)
           false)
      template.(WorkoutTemplateWithExercises.template_exercises).

(** The exercise list [startWorkout] puts in the state when the store of
    [RefBackend] is the backend: [db1] is the store after the workout row
    was inserted. *)
Definition startedExercises (template : WorkoutTemplateWithExercises.t)
    (db1 : RefBackend.Db) (workout_id : string) : list WorkoutExercise.t :=
  map (withTargets template)
    (map (RefBackend.join_exercise db1)
       (mapi (RefBackend.new_workout_exercise db1) 0%nat
          (plannedRows workout_id template))).

(** ** Previous sets: helpers and sample *)

(** Does a fetched row have a weight and a repetition count that count? *)
Definition usable (s : SetRow.t) : bool :=
  truthyQ s.(SetRow.weight_kg) && truthyZ s.(SetRow.reps).

(** The last step of [getPreviousSets]: drop the rows without weight or
    reps and keep the three fields of the others. *)
Definition previousSetData (exerciseId : string) (sets : list SetRow.t)
    : list PreviousSetData.t :=
  map (fun s =>
         PreviousSetData.mk exerciseId
           (nullish s.(SetRow.weight_kg) 0%Q)
           (nullish s.(SetRow.reps) 0)
           s.(SetRow.set_number))
      (filter usable sets).

(** The workout the first query of [getPreviousSets] finds in the store. *)
Definition most_recent (db : RefBackend.Db) (user_id exercise_id : string)
    : option Workout.t :=
  hd_error (RefBackend.sort_by RefBackend.completed_not_before
              (RefBackend.completed_with db user_id exercise_id)).

(** The first stored slot of a workout that holds an exercise. *)
Definition slot_of (db : RefBackend.Db) (w : Workout.t) (exercise_id : string)
    : option WorkoutExercise.t :=
  find (fun we =>
          (we.(WorkoutExercise.workout_id) =? w.(Workout.id))%string
          && (we.(WorkoutExercise.exercise_id) =? exercise_id)%string)
       db.(RefBackend.workout_exercises).

(** What [getPreviousSets] returns on the store, read off the tables. *)
Definition previous_in_store (db : RefBackend.Db) (user_id exercise_id : string)
    : list PreviousSetData.t :=
  match most_recent db user_id exercise_id with
  | None => []
  | Some w =>
      match slot_of db w exercise_id with
      | None => []
      | Some we =>
          previousSetData exercise_id
            (map RefBackend.set_row
               (RefBackend.working_sets db we.(WorkoutExercise.id)))
      end
  end.

Module SamplePrevious.

Definition finished (id completed_at : string) : Workout.t :=
  Workout.mk id "user-1" (Some "tpl-1") "Full Body" "2024-02-01T17:00:00.000Z"
    (Some completed_at) completed None "2024-02-01T17:00:00.000Z" completed_at.

Definition slot (id workout_id exercise_id : string) (order_index : Z)
    : WorkoutExercise.t :=
  WorkoutExercise.mk id workout_id exercise_id order_index None false None
    "2024-02-01T17:00:00.000Z" None None None None None None.

Definition logged (id slot_id : string) (set_number : Z) (weight : option Q)
    (reps : option Z) (is_warmup : bool) : WorkoutSet.t :=
  WorkoutSet.mk id slot_id set_number weight reps None is_warmup false false None
    "2024-02-01T17:10:00.000Z" "2024-02-01T17:10:00.000Z".

(** Two finished workouts of the user with the bench press; in the later
    one a warmup, two full sets stored out of order, and a third set
    without a weight. *)
Definition db : RefBackend.Db :=
  RefBackend.mk
    [finished "w-old" "2024-02-01T18:00:00.000Z";
     finished "w-new" "2024-02-08T18:00:00.000Z"]
    [slot "s-old" "w-old" "bench" 0;
     slot "s-new-squat" "w-new" "squat" 0;
     slot "s-new" "w-new" "bench" 1]
    [logged "a" "s-old" 1 (Some 90%Q) (Some 5) false;
     logged "b" "s-new" 1 (Some 40%Q) (Some 10) true;
     logged "c" "s-new" 2 (Some 100%Q) (Some 5) false;
     logged "d" "s-new" 1 (Some 95%Q) (Some 5) false;
     logged "e" "s-new" 3 None (Some 5) false]
    [Sample.bench; Sample.squat; Sample.row] 100 "2024-03-01T18:30:00.000Z".

(** The look-up for the bench press. *)
Definition looked_up :=
  run RefBackend.handle (getPreviousSets (Some Sample.user) "bench" initialState) db.

Definition result : list PreviousSetData.t :=
  match fst (fst (fst looked_up)) with
  | Normal r => r
  | Abrupt _ => []
  end.

End SamplePrevious.

Module SampleStats.

Definition done (id : string) (set_number : Z) (weight : option Q)
    (reps : option Z) (is_warmup : bool) : WorkoutSet.t :=
  WorkoutSet.mk id "1" set_number weight reps None is_warmup false false None
    "2024-03-01T18:40:00.000Z" "2024-03-01T18:40:00.000Z".

(** A state whose first slot holds a warmup, a set of 62.5 kg for 3 reps and
    a set without a weight, and whose second slot has no set list at all. *)
Definition state : UseWorkoutState :=
  mkState None
    [WorkoutExercise.with_sets SampleRows.slot1
       (Some [done "a" 1 (Some 40%Q) (Some 10) true;
              done "b" 1 (Some (125 # 2)%Q) (Some 3) false;
              done "c" 2 None (Some 5) false]);
     WorkoutExercise.with_sets SampleRows.slot1 None]
    false None.

(** One working set per weight and number of repetitions. *)
Definition one_set (weight : Q) (reps : Z) : UseWorkoutState :=
  mkState None
    [WorkoutExercise.with_sets SampleRows.slot1
       (Some [done "a" 1 (Some weight) (Some reps) false])]
    false None.

(** The double nearest to 11/6, which is a little less than 11/6. *)
Definition eleven_sixths : Q := 8256599316845909 # 4503599627370496.

(** Three repetitions with that weight: the product is a little less than
    5.5, and 5.5 is the double nearest to it. *)
Definition rounding : UseWorkoutState := one_set eleven_sixths 3.

End SampleStats.

(** ** Further helpers for the hook *)

(** What the state update of [updateSet] does to one exercise. *)
Definition replaceSet (setId : string) (updatedSet : WorkoutSet.t)
    (ex : WorkoutExercise.t) : WorkoutExercise.t :=
  WorkoutExercise.with_sets ex
    (option_map
       (map (fun s => if (s.(WorkoutSet.id) =? setId)%string then updatedSet else s))
       ex.(WorkoutExercise.sets)).

(** The number of exercises in the list that carry an id. *)
Definition slotsWithId (workoutExerciseId : string)
    (exs : list WorkoutExercise.t) : Z :=
  length_ (filter (fun ex => (ex.(WorkoutExercise.id) =? workoutExerciseId)%string)
             exs).

(** ** A backend that refuses chosen requests

    It answers the requests selected by [refuse] with an error and leaves
    the backend behind it alone; every other request goes through. *)

Module Refusing.

Definition refusal : PostgrestError := mkThrown "Network request failed" true.

(** The refusal of a request, for the requests that can be refused. *)
Definition refusal_of {X : Type} (e : Effect X) : option X :=
  match e in Effect X return option X with
  | InsertWorkout _ _ _ _ => Some (PgError refusal)
  | InsertWorkoutExercises _ => Some (PgError refusal)
  | SelectWorkout _ => Some (PgError refusal)
  | SelectWorkoutExercises _ => Some (PgError refusal)
  | InsertSet _ _ => Some (PgError refusal)
  | UpdateSet _ _ => Some (PgError refusal)
  | DeleteSet _ => Some (PgError refusal)
  | UpdateWorkoutExercise _ _ _ => Some (PgError refusal)
  | UpdateWorkoutReturning _ _ _ _ => Some (PgError refusal)
  | UpdateWorkout _ _ _ => Some (PgError refusal)
  | SelectRecentCompletedWorkout _ _ => Some (PgError refusal)
  | SelectWorkingSets _ => Some (PgError refusal)
  | DateNowISO => None
  end.

Definition handle {B : Type} (refuse : Call -> bool) (h : Handler B) : Handler B :=
  fun X e b =>
    if refuse (call e)
    then match refusal_of e with
         | Some x => (x, b)
         | None => h X e b
         end
    else h X e b.

(** Is this the insert of the exercise rows of a new workout? *)
Definition inserts_exercises (c : Call) : bool :=
  match c with
  | existT _ _ e =>
      match e with
      | InsertWorkoutExercises _ => true
      | _ => false
      end
  end.

End Refusing.

Module SampleUpdate.

(** A correction of weight and reps, nothing else. *)
Definition correction : PartialWorkoutSet.t :=
  PartialWorkoutSet.mk None None None (Some (Some (205 # 2)%Q)) (Some (Some 4))
    None None None None None None None.

(** The first logged set of the sample with the correction applied. *)
Definition corrected : WorkoutSet.t :=
  RefBackend.patch_set correction
    (RefBackend.new_set (RefBackend.mk [] [] [] [] 4 SampleRows.now) "1"
       (Sample.set_100x5 1)).

(** A warmup set of 40 kg for 10 reps. *)
Definition warmup : NewWorkoutSet.t :=
  NewWorkoutSet.mk 1 (Some 40%Q) (Some 10) None (Some true) None None None.

End SampleUpdate.

(** ** Numbers as text *)

Module Js.

(** [n.toString()] of an integer: its decimal numeral, with a minus sign
    when negative. *)
Definition Number_toString (n : Z) : string :=
  NilZero.string_of_int (Z.to_int n).

(** [n] copies of a character. *)
Fixpoint fill (n : nat) (c : ascii) : string :=
  match n with
  | O => ""
  | S n' => String c (fill n' c)
  end.

(** [s.padStart(targetLength, c)] for a one-character pad. *)
Definition padStart (targetLength : nat) (c : ascii) (s : string) : string :=
  fill (targetLength - String.length s) c ++ s.

(** The character of a decimal digit. *)
Definition digit (d : Z) : ascii := ascii_of_nat (48 + Z.to_nat d).

(** A number below one hundred written with exactly two digits. *)
Definition two_digits (n : Z) : string :=
  String (digit (n / 10)) (String (digit (n mod 10)) "").

End Js.

(** ** The texts of the clocks *)

(** [formatTime] of [RestTimer]: minutes and two-digit seconds. *)
Module RestTimerText.

Definition formatTime (seconds : Z) : string :=
  let mins := seconds / 60 in
  let secs := Z.rem seconds 60 in
  Js.Number_toString mins ++ ":" ++ Js.padStart 2 "0" (Js.Number_toString secs).

End RestTimerText.

(** ** The workout screen *)

Module ActiveWorkoutScreen.

(** [formatTime] of the elapsed-time display. *)
Definition formatTime (seconds : Z) : string :=
  let hrs := seconds / 3600 in
  let mins := Z.rem seconds 3600 / 60 in
  let secs := Z.rem seconds 60 in
  if 0 <? hrs
  then Js.Number_toString hrs ++ ":"
       ++ Js.padStart 2 "0" (Js.Number_toString mins) ++ ":"
       ++ Js.padStart 2 "0" (Js.Number_toString secs)
  else Js.Number_toString mins ++ ":" ++ Js.padStart 2 "0" (Js.Number_toString secs).

(** [handleNextExercise]: the new [currentExerciseIndex]. *)
Definition handleNextExercise (exercises : list WorkoutExercise.t)
    (currentExerciseIndex : Z) : Z :=
  if currentExerciseIndex <? length_ exercises - 1
  then currentExerciseIndex + 1
  else currentExerciseIndex.

(** [handlePreviousExercise] *)
Definition handlePreviousExercise (currentExerciseIndex : Z) : Z :=
  if 0 <? currentExerciseIndex
  then currentExerciseIndex - 1
  else currentExerciseIndex.

(** What moves the exercise pointer: the two buttons and the dots, one dot
    per exercise. *)
Inductive Press :=
| Next
| Previous
| Dot (index : nat).

Definition press (exercises : list WorkoutExercise.t) (currentExerciseIndex : Z)
    (p : Press) : Z :=
  match p with
  | Next => handleNextExercise exercises currentExerciseIndex
  | Previous => handlePreviousExercise currentExerciseIndex
  | Dot index => Z.of_nat index
  end.

(** A dot exists only for an exercise of the list. *)
Definition rendered (exercises : list WorkoutExercise.t) (p : Press) : Prop :=
  match p with
  | Dot index => (index < length exercises)%nat
  | _ => True
  end.

(** [exercises[currentExerciseIndex]] *)
Definition currentExercise (exercises : list WorkoutExercise.t)
    (currentExerciseIndex : Z) : option WorkoutExercise.t :=
  if currentExerciseIndex <? 0 then None
  else nth_error exercises (Z.to_nat currentExerciseIndex).

(** What the screen does to the outside. *)
Inductive UiEffect :=
| AlertNoSetsLogged                           (* offers to abandon *)
| SetShowFinishModal (visible : bool)
| NavigateReplaceSummary (workoutId : string) (* replace('WorkoutSummary') *)
| NavigatePopToTop
| AlertError (text : string).

(** [handleFinishWorkout] *)
Definition handleFinishWorkout (state : UseWorkoutState) : list UiEffect :=
  let stats := getWorkoutStats state in
  if stats.(totalSets) =? 0
  then [AlertNoSetsLogged]
  else [SetShowFinishModal true].


(** [error || fallback] *)
Definition or_else (error : option string) (fallback : string) : string :=
  match error with
  | Some "" => fallback
  | Some e => e
  | None => fallback
  end.


End ActiveWorkoutScreen.

Module SampleFinish.




End SampleFinish.

(** ** The set-input card

    The rest of [SetInputCard].  The card reads and writes numbers as text;
    [parseFloat], [parseInt] and the text of a fractional number are
    built-ins of the language and are taken as given: a parse that yields
    [NaN] is [None]. *)

Module SetInputCard.

Section Builtins.

Variable parseFloat : string -> option Q.
Variable parseInt : string -> option Z.
(** [q.toString()] of a weight *)
Variable Weight_toString : Q -> string.

(** The props of the card, with their defaults. *)
Definition targetSets (workoutExercise : WorkoutExercise.t) : Z :=
  nullish workoutExercise.(WorkoutExercise.targetSets) 3.

Definition targetReps (workoutExercise : WorkoutExercise.t) : option Z :=
  workoutExercise.(WorkoutExercise.targetReps).

Definition restSeconds (workoutExercise : WorkoutExercise.t) : Z :=
  nullish workoutExercise.(WorkoutExercise.restSeconds) 90.

(** [s || '0'] *)
Definition or_zero (s : string) : string :=
  match s with
  | "" => "0"
  | _ => s
  end.

(** [x?.toString() ?? fallback] *)
Definition weight_text (w : option Q) (fallback : string) : string :=
  match w with
  | Some q => Weight_toString q
  | None => fallback
  end.

Definition count_text (n : option Z) (fallback : string) : string :=
  match n with
  | Some z => Js.Number_toString z
  | None => fallback
  end.

(** The working sets the card starts from. *)
Definition workingSets (workoutExercise : WorkoutExercise.t) : list WorkoutSet.t :=
  filter (fun s => negb s.(WorkoutSet.is_warmup))
    (nullish workoutExercise.(WorkoutExercise.sets) []).

(** One turn of the loop of [loadData]: the row for set number [i]. *)
Definition initialRow (workoutExercise : WorkoutExercise.t)
    (prevSets : list PreviousSetData.t) (i : Z) : SetRowData.t :=
  let existingSet :=
    find (fun s => s.(WorkoutSet.set_number) =? i) (workingSets workoutExercise) in
  let prevSet := find (fun p => p.(PreviousSetData.set_number) =? i) prevSets in
  match existingSet with
  | Some existingSet =>
      SetRowData.mk i
        (weight_text existingSet.(WorkoutSet.weight_kg) "")
        (count_text existingSet.(WorkoutSet.reps) "")
        false true (Some existingSet.(WorkoutSet.id))
        (option_map PreviousSetData.weight_kg prevSet)
        (option_map PreviousSetData.reps prevSet)
  | None =>
      SetRowData.mk i
        (weight_text (option_map PreviousSetData.weight_kg prevSet) "")
        (count_text (option_map PreviousSetData.reps prevSet)
           (count_text (targetReps workoutExercise) ""))
        false false None
        (option_map PreviousSetData.weight_kg prevSet)
        (option_map PreviousSetData.reps prevSet)
  end.

(** The rows [loadData] builds: one for each number from 1 to
    [Math.max(targetSets, workingSets.length)]. *)
Definition initialSets (workoutExercise : WorkoutExercise.t)
    (prevSets : list PreviousSetData.t) : list SetRowData.t :=
  map (initialRow workoutExercise prevSets)
    (one_to (Z.to_nat (Math_max (targetSets workoutExercise)
                         (length_ (workingSets workoutExercise))))).

(** [loadData]: the previous sets are fetched, then the rows are built;
    the result is the new [previousSets] and [sets]. *)
Definition loadData (user : option User.t) (workoutExercise : WorkoutExercise.t)
    : Hook (list PreviousSetData.t * list SetRowData.t) :=
  prevSets <- getPreviousSets user workoutExercise.(WorkoutExercise.exercise_id) ;;
  ret (prevSets, initialSets workoutExercise prevSets).

(** [{ ...set, weight }] and [{ ...set, reps }] *)
Definition with_weight (s : SetRowData.t) (weight : string) : SetRowData.t :=
  SetRowData.mk s.(SetRowData.setNumber) weight s.(SetRowData.reps)
    s.(SetRowData.isWarmup) s.(SetRowData.isCompleted) s.(SetRowData.setId)
    s.(SetRowData.previousWeight) s.(SetRowData.previousReps).

Definition with_reps (s : SetRowData.t) (reps : string) : SetRowData.t :=
  SetRowData.mk s.(SetRowData.setNumber) s.(SetRowData.weight) reps
    s.(SetRowData.isWarmup) s.(SetRowData.isCompleted) s.(SetRowData.setId)
    s.(SetRowData.previousWeight) s.(SetRowData.previousReps).

(** [Math.max(0, x)] on a weight *)
Definition at_least_zero (x : Q) : Q := if Qle_bool 0 x then x else 0%Q.

(** [adjustWeight(index, delta)] *)
Definition adjustWeight (index : nat) (delta : Q) (sets : list SetRowData.t)
    : list SetRowData.t :=
  mapi (fun set i =>
          if (i =? index)%nat
          then with_weight set
                 (match parseFloat (or_zero set.(SetRowData.weight)) with
                  | Some w => Weight_toString (at_least_zero (Double.add w delta))
                  | None => "NaN"
                  end)
          else set)
       0%nat sets.

(** [adjustReps(index, delta)] *)
Definition adjustReps (index : nat) (delta : Z) (sets : list SetRowData.t)
    : list SetRowData.t :=
  mapi (fun set i =>
          if (i =? index)%nat
          then with_reps set
                 (match parseInt (or_zero set.(SetRowData.reps)) with
                  | Some r => Js.Number_toString (Math_max 0 (r + delta))
                  | None => "NaN"
                  end)
          else set)
       0%nat sets.

Inductive Field := weight_field | reps_field.

(** Is the character one of [0-9.]? *)
Definition allowed (c : ascii) : bool :=
  let n := nat_of_ascii c in
  ((48 <=? n)%nat && (n <=? 57)%nat) || (n =? 46)%nat.

(** [value.replace(/[^0-9.]/g, '')] *)
Fixpoint clean (value : string) : string :=
  match value with
  | EmptyString => EmptyString
  | String c rest => if allowed c then String c (clean rest) else clean rest
  end.

(** [updateSetValue(index, field, value)] *)
Definition updateSetValue (index : nat) (field : Field) (value : string)
    (sets : list SetRowData.t) : list SetRowData.t :=
  let cleanValue := clean value in
  mapi (fun set i =>
          if (i =? index)%nat
          then match field with
               | weight_field => with_weight set cleanValue
               | reps_field => with_reps set cleanValue
               end
          else set)
       0%nat sets.

(** [{ ...s, isCompleted: true, setId }] *)
Definition completed_with (s : SetRowData.t) (setId : string) : SetRowData.t :=
  SetRowData.mk s.(SetRowData.setNumber) s.(SetRowData.weight) s.(SetRowData.reps)
    s.(SetRowData.isWarmup) true (Some setId)
    s.(SetRowData.previousWeight) s.(SetRowData.previousReps).

(** [prev.map((s, i) => i === index ? { ...s, isCompleted: true, setId } : s)] *)
Definition markCompleted (index : nat) (setId : string)
    (prev : list SetRowData.t) : list SetRowData.t :=
  mapi (fun s i => if (i =? index)%nat then completed_with s setId else s)
    0%nat prev.

(** What a run of [handleSaveSet] leaves behind: the update it hands to
    [setSets] (the identity when it hands over none), the row whose spinner
    shows, and the rest times passed to [onSetComplete]. *)
Record Saved := mkSaved {
  setSets : list SetRowData.t -> list SetRowData.t;
  savingSet : option nat;
  onSetComplete : list Z }.

(** [{ weight_kg: weight, reps: reps }] *)
Definition weight_only (weight : Q) (reps : Z) : PartialWorkoutSet.t :=
  PartialWorkoutSet.mk None None None (Some (Some weight)) (Some (Some reps))
    None None None None None None None.

(** Reading [weight] of [undefined]. *)
Definition TypeError_weight : Thrown :=
  mkThrown "Cannot read property 'weight' of undefined" true.

(** The set [handleSaveSet] asks [logSet] to create for a row. *)
Definition newSetFor (workoutExercise : WorkoutExercise.t) (set : SetRowData.t)
    (weight : Q) (reps : Z) : NewWorkoutSet.t :=
  NewWorkoutSet.mk set.(SetRowData.setNumber) (Some weight) (Some reps) None
    (Some false) None None (targetReps workoutExercise).

(** [handleSaveSet(index)]; [sets] is the row list the card shows and
    [savingSet] the spinner state it starts from, which it only touches
    once the input has passed the checks. *)
Definition handleSaveSet (workoutExercise : WorkoutExercise.t) (index : nat)
    (sets : list SetRowData.t) (savingSet : option nat) : Hook Saved :=
  match nth_error sets index with
  | None => throw TypeError_weight
  | Some set =>
      match parseFloat set.(SetRowData.weight), parseInt set.(SetRowData.reps) with
      | Some weight, Some reps =>
          if Qle_bool weight 0 || (reps <=? 0)
          then ret (mkSaved (fun prev => prev) savingSet [])
          else
            if set.(SetRowData.isCompleted) && truthyString set.(SetRowData.setId)
            then
              _ <- updateSet (nullish set.(SetRowData.setId) "")
                     (weight_only weight reps) ;;
              ret (mkSaved (fun prev => prev) None [])
            else
              r <- logSet workoutExercise.(WorkoutExercise.id)
                     (newSetFor workoutExercise set weight reps) ;;
              match r.(Result.success), r.(Result.value) with
              | true, Some newSet =>
                  ret (mkSaved (markCompleted index newSet.(WorkoutSet.id)) None
                         [restSeconds workoutExercise])
              | _, _ => ret (mkSaved (fun prev => prev) None [])
              end
      | _, _ => ret (mkSaved (fun prev => prev) savingSet [])
      end
  end.

(** [arr[arr.length - 1]] *)
Definition last_of {A : Type} (l : list A) : option A :=
  match l with
  | [] => None
  | _ => nth_error l (length l - 1)
  end.

(** [addSet()]; [sets] is the row list the card shows, which is also the
    list the update of [setSets] is applied to. *)
Definition addSet (workoutExercise : WorkoutExercise.t)
    (previousSets : list PreviousSetData.t) (sets : list SetRowData.t)
    : list SetRowData.t :=
  let nextSetNumber := length_ sets + 1 in
  let prevSet :=
    match find (fun p => p.(PreviousSetData.set_number) =? nextSetNumber)
               previousSets with
    | Some p => Some p
    | None => last_of previousSets
    end in
  (sets ++
   [SetRowData.mk nextSetNumber
      (weight_text (option_map PreviousSetData.weight_kg prevSet)
         (nullish (option_map SetRowData.weight (last_of sets)) ""))
      (count_text (option_map PreviousSetData.reps prevSet)
         (count_text (targetReps workoutExercise) ""))
      false false None
      (option_map PreviousSetData.weight_kg prevSet)
      (option_map PreviousSetData.reps prevSet)])%list.

(** The edits of a row that need no backend. *)
Inductive Edit :=
| AdjustWeight (index : nat) (delta : Q)
| AdjustReps (index : nat) (delta : Z)
| UpdateSetValue (index : nat) (field : Field) (value : string).

Definition edit (e : Edit) (sets : list SetRowData.t) : list SetRowData.t :=
  match e with
  | AdjustWeight index delta => adjustWeight index delta sets
  | AdjustReps index delta => adjustReps index delta sets
  | UpdateSetValue index field value => updateSetValue index field value sets
  end.

Definition edited_index (e : Edit) : nat :=
  match e with
  | AdjustWeight index _ | AdjustReps index _ | UpdateSetValue index _ _ => index
  end.

(** The text of a field of a row. *)
Definition field_text (field : Field) (row : SetRowData.t) : string :=
  match field with
  | weight_field => row.(SetRowData.weight)
  | reps_field => row.(SetRowData.reps)
  end.

(** The rows are numbered 1, 2, ... in order. *)
Definition numbered (sets : list SetRowData.t) : Prop :=
  map SetRowData.setNumber sets = one_to (length sets).

End Builtins.

End SetInputCard.

(** Stand-ins for the built-ins, good for the text of whole numbers: used
    to run the card on sample rows. *)
Module SampleCard.

Definition parseInt (s : string) : option Z :=
  option_map Z.of_int (NilZero.int_of_string s).

Definition parseFloat (s : string) : option Q :=
  option_map inject_Z (parseInt s).

Definition Weight_toString (q : Q) : string := Js.Number_toString (Qfloor q).

(** The first slot of the sample session as the card gets it. *)
Definition slot : WorkoutExercise.t :=
  WorkoutExercise.with_targets SampleRows.slot1 3 (Some 5) None 120.

(** A row that was typed in and not saved yet. *)
Definition typed (setNumber : Z) (weight reps : string) : SetRowData.t :=
  SetRowData.mk setNumber weight reps false false None None None.

Definition rows : list SetRowData.t :=
  [typed 1 "100" "5"; typed 2 "100" ""; typed 3 "" ""].

(** The set the sample store creates for the first row. *)
Definition created : WorkoutSet.t :=
  RefBackend.new_set Sample.store "1" (Sample.set_100x5 1).

(** The first slot with the three sets of [SampleDelete] in it, as the
    card gets it when it is mounted again. *)
Definition resumed : WorkoutExercise.t :=
  WorkoutExercise.with_sets slot (Some (setsOf "1" SampleDelete.session)).

(** What saving a row that reads 100 and 5 sends for a set that exists. *)
Definition correction : PartialWorkoutSet.t :=
  PartialWorkoutSet.mk None None None (Some (Some 100%Q)) (Some (Some 5))
    None None None None None None None.

End SampleCard.

(** The card of the first slot, from the deletion of the first of its three
    saved rows ([SampleDelete]) on: a row is added and saved, and the card
    is mounted again. *)
Module SampleRenumber.

(** The store after the deletion. *)
Definition store_after : RefBackend.Db := snd (fst SampleDelete.deleted).

(** "Add Set" on the two rows that are left; there are no previous sets. *)
Definition rows_added : list SetRowData.t :=
  SetInputCard.addSet SampleCard.Weight_toString SampleCard.slot []
    SampleDelete.rows_after.

(** Saving the new row, the third. *)
Definition saved :=
  run RefBackend.handle
    (SetInputCard.handleSaveSet SampleCard.parseFloat SampleCard.parseInt
       SampleCard.slot 2 rows_added None SampleDelete.session_after)
    store_after.

Definition session_saved : UseWorkoutState := snd (fst (fst saved)).
Definition store_saved : RefBackend.Db := snd (fst saved).

Definition rows_saved : list SetRowData.t :=
  match fst (fst (fst saved)) with
  | Normal update => update.(SetInputCard.setSets) rows_added
  | Abrupt _ => rows_added
  end.

(** The slot as the session now holds it, and the rows the card builds for
    it when it is mounted again. *)
Definition slot_saved : WorkoutExercise.t :=
  WorkoutExercise.with_sets SampleCard.slot (Some (setsOf "1" session_saved)).

Definition remounted : list SetRowData.t :=
  SetInputCard.initialSets SampleCard.Weight_toString slot_saved [].

(** The id and the number of a set; the number, state and set of a row. *)
Definition numbered_set (s : WorkoutSet.t) : string * Z :=
  (s.(WorkoutSet.id), s.(WorkoutSet.set_number)).

Definition shown (r : SetRowData.t) : Z * bool * option string :=
  (r.(SetRowData.setNumber), r.(SetRowData.isCompleted), r.(SetRowData.setId)).

End SampleRenumber.

(** ** The exercise swap dialog

    [ExerciseSwapModal]: the filter chips, the list it shows and the swap
    itself.  [toLowerCase] and [trim] are built-ins of the language and are
    taken as given. *)

Module ExerciseSwapModal.

(** The string a muscle group is. *)
Definition MuscleGroup_text (m : MuscleGroup) : string :=
  match m with
  | chest => "chest"
  | back => "back"
  | front_delt => "front_delt"
  | side_delt => "side_delt"
  | rear_delt => "rear_delt"
  | biceps => "biceps"
  | triceps => "triceps"
  | forearms => "forearms"
  | quadriceps => "quadriceps"
  | hamstrings => "hamstrings"
  | glutes => "glutes"
  | calves => "calves"
  | core => "core"
  | traps => "traps"
  | lats => "lats"
  end.

(** The string a kind of equipment is. *)
Definition EquipmentType_text (e : EquipmentType) : string :=
  match e with
  | barbell => "barbell"
  | dumbbell => "dumbbell"
  | cable => "cable"
  | machine => "machine"
  | bodyweight => "bodyweight"
  | kettlebell => "kettlebell"
  | resistance_band => "resistance_band"
  | other => "other"
  end.

Record Group := mkGroup {
  label : string;
  muscles : list MuscleGroup }.

Definition MUSCLE_GROUPS : list Group :=
  [ mkGroup "Chest" [chest];
    mkGroup "Back" [back; lats; traps];
    mkGroup "Shoulders" [front_delt; side_delt; rear_delt];
    mkGroup "Arms" [biceps; triceps; forearms];
    mkGroup "Legs" [quadriceps; hamstrings; glutes; calves];
    mkGroup "Core" [core] ].

(** [muscles.includes(m)] *)
Definition includes (muscles : list MuscleGroup) (m : MuscleGroup) : bool :=
  existsb (fun x => (MuscleGroup_text x =? MuscleGroup_text m)%string) muscles.

(** [s.includes(query)] on strings *)
Definition String_includes (s query : string) : bool :=
  match index 0 query s with
  | Some _ => true
  | None => false
  end.

(** Truthiness of a string: not empty. *)
Definition truthy (s : string) : bool :=
  match s with
  | "" => false
  | _ => true
  end.

(** The first effect: what [selectedFilter] is after it ran. *)
Definition defaultFilter (visible : bool) (currentExercise : option Exercise.t)
    (selectedFilter : option string) : option string :=
  if visible
  then match currentExercise with
       | Some currentExercise =>
           let matchingGroup :=
             find (fun g =>
                     includes g.(muscles)
                       currentExercise.(Exercise.primary_muscle_group))
                  MUSCLE_GROUPS in
           option_map label matchingGroup
       | None => selectedFilter
       end
  else selectedFilter.

Section Builtins.

Variable toLowerCase : string -> string.
Variable trim : string -> string.

(** The test of the search. *)
Definition matches (query : string) (e : Exercise.t) : bool :=
  String_includes (toLowerCase e.(Exercise.name)) query
  || String_includes
       (toLowerCase (MuscleGroup_text e.(Exercise.primary_muscle_group))) query
  || String_includes
       (toLowerCase (EquipmentType_text e.(Exercise.equipment))) query.

(** The second effect: what it hands to [setFilteredExercises]. *)
Definition filteredExercises (exercises : list Exercise.t)
    (currentExercise : option Exercise.t) (selectedFilter : option string)
    (searchQuery : string) : list Exercise.t :=
  let filtered := exercises in
  let filtered :=
    match currentExercise with
    | Some currentExercise =>
        filter (fun e => negb (e.(Exercise.id) =? currentExercise.(Exercise.id))%string)
          filtered
    | None => filtered
    end in
  let filtered :=
    if truthyString selectedFilter
    then match find (fun g => (g.(label) =? nullish selectedFilter "")%string)
                    MUSCLE_GROUPS with
         | Some group =>
             filter (fun e =>
                       includes group.(muscles) e.(Exercise.primary_muscle_group))
               filtered
         | None => filtered
         end
    else filtered in
  let filtered :=
    if truthy (trim searchQuery)
    then
      let query := toLowerCase searchQuery in
      filter (matches query) filtered
    else filtered in
  filtered.

End Builtins.

(** What [handleSwap] does to the dialog. *)
Inductive Signal :=
| SetSwapping (swapping : bool)
| OnClose
| ConsoleError (error : option string).

(** [handleSwap(newExercise)] *)
Definition handleSwap (workoutExerciseId : option string)
    (newExercise : Exercise.t) : Hook (list Signal) :=
  if negb (truthyString workoutExerciseId)
  then ret []
  else
    r <- swapExercise (nullish workoutExerciseId "") newExercise.(Exercise.id) ;;
    ret ([SetSwapping true; SetSwapping false]
         ++ (if r.(Result.success) then [OnClose]
             else [ConsoleError r.(Result.error)]))%list.

End ExerciseSwapModal.

(** Stand-ins for the built-ins, good for text in ASCII, and a catalogue to
    run the dialog on. *)
Module SampleModal.

Definition lower (c : ascii) : ascii :=
  let n := nat_of_ascii c in
  if ((65 <=? n) && (n <=? 90))%nat then ascii_of_nat (n + 32) else c.

Fixpoint toLowerCase (s : string) : string :=
  match s with
  | EmptyString => EmptyString
  | String c rest => String (lower c) (toLowerCase rest)
  end.

Definition blank (c : ascii) : bool :=
  let n := nat_of_ascii c in
  ((n =? 32) || ((9 <=? n) && (n <=? 13)))%nat.

Fixpoint trimStart (s : string) : string :=
  match s with
  | EmptyString => EmptyString
  | String c rest => if blank c then trimStart rest else s
  end.

Fixpoint trimEnd (s : string) : string :=
  match s with
  | EmptyString => EmptyString
  | String c rest =>
      match trimEnd rest with
      | EmptyString => if blank c then EmptyString else String c EmptyString
      | rest' => String c rest'
      end
  end.

Definition trim (s : string) : string := trimEnd (trimStart s).

Definition incline : Exercise.t :=
  Sample.catalogue "incline" "Incline Bench Press" chest.

Definition pulldown : Exercise.t :=
  Sample.catalogue "pulldown" "Lat Pulldown" lats.

Definition exercises : list Exercise.t :=
  [Sample.row; Sample.squat; Sample.bench; incline; pulldown].

End SampleModal.

(** ** The summary of a workout

    The statistics block of [fetchWorkoutStats] in [WorkoutSummaryScreen]:
    what it computes from the exercise rows the first query returned, each
    with its exercise and its sets. *)

Module WorkoutSummaryScreen.

(** [{ weight: s.weight_kg, reps: s.reps }] *)
Record BestSet := mkBest {
  weight : option Q;
  reps : option Z }.

Record ExerciseStats := mkExercise {
  name : string;
  sets : Z;
  bestSet : option BestSet }.

Record WorkoutStats := mkStats {
  totalSets : Z;
  totalVolume : Z;
  exerciseCount : Z;
  exercises : list ExerciseStats }.

(** [(s.weight_kg ?? 0) * (s.reps ?? 0)] *)
Definition volume (s : WorkoutSet.t) : Q :=
  Double.mul (nullish s.(WorkoutSet.weight_kg) 0%Q)
    (inject_Z (nullish s.(WorkoutSet.reps) 0)).

(** The variables the loop over the working sets assigns. *)
Record Loop := mkLoop {
  loop_totalVolume : Q;
  loop_bestSet : option BestSet;
  loop_bestVolume : Q }.

(** One turn of [workingSets.forEach]. *)
Definition visit (acc : Loop) (s : WorkoutSet.t) : Loop :=
  let volume := volume s in
  let totalVolume := Double.add acc.(loop_totalVolume) volume in
  if negb (Qle_bool volume acc.(loop_bestVolume))
  then mkLoop totalVolume
         (Some (mkBest s.(WorkoutSet.weight_kg) s.(WorkoutSet.reps))) volume
  else mkLoop totalVolume acc.(loop_bestSet) acc.(loop_bestVolume).

(** The callback of [exercises.map]: it adds to [totalSets] and
    [totalVolume] and returns the line of the exercise. *)
Definition exerciseStat (totals : Z * Q) (we : WorkoutExercise.t)
    : (Z * Q) * ExerciseStats :=
  let workingSets :=
    filter (fun s => negb s.(WorkoutSet.is_warmup))
      (nullish we.(WorkoutExercise.sets) []) in
  let totalSets := fst totals + length_ workingSets in
  let loop := fold_left visit workingSets (mkLoop (snd totals) None 0) in
  ((totalSets, loop.(loop_totalVolume)),
   mkExercise
     (match we.(WorkoutExercise.exercise) with
      | Some e => e.(Exercise.name)
      | None => "Unknown"
      end)
     (length_ workingSets)
     loop.(loop_bestSet)).

(** [exercises.map(we => ...)], the totals threaded through the calls. *)
Fixpoint exerciseStats (totals : Z * Q) (exercises : list WorkoutExercise.t)
    : (Z * Q) * list ExerciseStats :=
  match exercises with
  | [] => (totals, [])
  | we :: rest =>
      let '(totals1, line) := exerciseStat totals we in
      let '(totals2, lines) := exerciseStats totals1 rest in
      (totals2, line :: lines)
  end.

(** The statistics handed to [setStats], without the times and the
    personal records. *)
Definition calculate (exercises : list WorkoutExercise.t) : WorkoutStats :=
  let '((totalSets, totalVolume), exerciseStats) :=
    exerciseStats (0, 0%Q) exercises in
  mkStats totalSets (Math_round totalVolume) (length_ exercises) exerciseStats.

End WorkoutSummaryScreen.

(** A slot whose sets have the volumes 500, 600, 600 and, as a warm-up,
    800. *)
Module SampleSummary.

Definition set (id : string) (weight : Q) (reps : Z) (is_warmup : bool)
    : WorkoutSet.t :=
  WorkoutSet.mk id "1" 1 (Some weight) (Some reps) None is_warmup false false
    None SampleRows.now SampleRows.now.

Definition slot : WorkoutExercise.t :=
  WorkoutExercise.with_sets SampleRows.slot1
    (Some [set "a" 100 5 false; set "b" 60 10 false; set "c" 120 5 false;
           set "d" 100 8 true]).

(** 50.4 kg for 7 in one exercise, 80.8 kg for 8 and 135.1 kg for 3 in the
    next. *)
Definition uneven : list WorkoutExercise.t :=
  [WorkoutExercise.with_sets SampleRows.slot1
     (Some [set "a" (504 # 10) 7 false]);
   WorkoutExercise.with_sets SampleRows.slot1
     (Some [set "b" (808 # 10) 8 false; set "c" (1351 # 10) 3 false])].

(** 32.3 kg for 15, then 96.9 kg for 5: the doubles give a little less than
    484.5 for the first and 484.5 for the second. *)
Definition close : WorkoutExercise.t :=
  WorkoutExercise.with_sets SampleRows.slot1
    (Some [set "a" (323 # 10) 15 false; set "b" (969 # 10) 5 false]).

End SampleSummary.

(** ** Starting a workout from the template screen

    [handleStartWorkout] and [doStartWorkout] of [TemplateDetailScreen]. *)

Module TemplateDetailScreen.

Inductive UiEffect :=
| AlertWorkoutInProgress
| SetStarting (starting : bool)
| NavigateReplaceActiveWorkout (workoutId : string)
| AlertError (message : string).

(** The button pressed on the alert "Workout in Progress". *)
Inductive Button := ContinueCurrent | StartNew.

(** [isActive] of the context: [!!state.workout] *)
Definition isActive (state : UseWorkoutState) : bool :=
  match state.(workout) with
  | Some _ => true
  | None => false
  end.

(** [doStartWorkout()] *)
Definition doStartWorkout (user : option User.t)
    (template : option WorkoutTemplateWithExercises.t) : Hook (list UiEffect) :=
  match template with
  | None => ret []
  | Some template =>
      r <- startWorkout user template ;;
      ret ([SetStarting true; SetStarting false]
           ++ (if r.(Result.success) && truthyString r.(Result.value)
               then [NavigateReplaceActiveWorkout (nullish r.(Result.value) "")]
               else [AlertError
                       (ActiveWorkoutScreen.or_else r.(Result.error)
                          "Failed to start workout")]))%list
  end.

(** [handleStartWorkout()], with the button the user presses should the
    alert come up. *)
Definition handleStartWorkout (user : option User.t)
    (template : option WorkoutTemplateWithExercises.t) (button : Button)
    : Hook (list UiEffect) :=
  match template with
  | None => ret []
  | Some _ =>
      state <- getState ;;
      if isActive state
      then
        effects <- match button with
                   | StartNew => doStartWorkout user template
                   | ContinueCurrent => ret []
                   end ;;
        ret (AlertWorkoutInProgress :: effects)
      else doStartWorkout user template
  end.

End TemplateDetailScreen.

(** Does the request change a stored workout row? *)
Definition updates_workout (c : Call) : bool :=
  match c with
  | existT _ _ e =>
      match e with
      | UpdateWorkoutReturning _ _ _ _ | UpdateWorkout _ _ _ => true
      | _ => false
      end
  end.

(** * Properties *)

(** ** Doubles *)

Section DoubleFacts.

Import Double.

Lemma two_not_0 : ~ (2 == 0)%Q.
Proof. discriminate. Qed.

Lemma pow2_pos (k : Z) : (0 < pow2 k)%Q.
Proof. apply Qpower_0_lt. reflexivity. Qed.

Lemma pow2_not_0 (k : Z) : ~ (pow2 k == 0)%Q.
Proof. intros H. pose proof (pow2_pos k) as Hp. rewrite H in Hp. discriminate Hp. Qed.

Lemma pow2_add (a b : Z) : (pow2 (a + b) == pow2 a * pow2 b)%Q.
Proof. apply Qpower_plus, two_not_0. Qed.

Lemma pow2_sub (a b : Z) : (pow2 (a - b) == pow2 a / pow2 b)%Q.
Proof. apply Qpower_minus, two_not_0. Qed.

Lemma pow2_lt (a b : Z) : a < b -> (pow2 a < pow2 b)%Q.
Proof. intros H. apply Qpower_lt_compat_l; [exact H|reflexivity]. Qed.

Lemma pow2_le (a b : Z) : a <= b -> (pow2 a <= pow2 b)%Q.
Proof. intros H. apply Qpower_le_compat_l; [exact H|discriminate]. Qed.

Lemma pow2_Z (n : Z) : 0 <= n -> (pow2 n == inject_Z (2 ^ n))%Q.
Proof. intros H. unfold pow2. rewrite Zpower_Qpower by exact H. reflexivity. Qed.

(** The binade of a number is unique. *)
Lemma binade_unique (v : Q) (e e' : Z) :
  (pow2 e <= v)%Q -> (v < pow2 (e + 1))%Q ->
  (pow2 e' <= v)%Q -> (v < pow2 (e' + 1))%Q -> e = e'.
Proof.
  intros H1 H2 H3 H4.
  assert (Ha : e < e' + 1).
  { apply (Qpower_lt_compat_l_inv 2); [|reflexivity].
    apply (Qle_lt_trans _ v); assumption. }
  assert (Hb : e' < e + 1).
  { apply (Qpower_lt_compat_l_inv 2); [|reflexivity].
    apply (Qle_lt_trans _ v); assumption. }
  lia.
Qed.

Lemma Qabs_frac (x : Q) : Qabs x = (Z.abs (Qnum x) # Qden x).
Proof. destruct x as [n d]. reflexivity. Qed.

Lemma ilog2_spec (x : Q) :
  ~ (x == 0)%Q ->
  (pow2 (ilog2 x) <= Qabs x)%Q /\ (Qabs x < pow2 (ilog2 x + 1))%Q.
Proof.
  intros Hx. unfold ilog2.
  set (n := Z.abs (Qnum x)). set (d := Qden x).
  assert (Hn : 0 < n).
  { subst n. destruct x as [[|p|p] d']; cbn; try lia.
    exfalso. apply Hx. reflexivity. }
  set (a := Z.log2 n). set (b := Z.log2 (Z.pos d)).
  destruct (Z.log2_spec n Hn) as [Ha1 Ha2]. fold a in Ha1, Ha2.
  destruct (Z.log2_spec (Z.pos d) eq_refl) as [Hb1 Hb2]. fold b in Hb1, Hb2.
  assert (Ha0 : 0 <= a) by apply Z.log2_nonneg.
  assert (Hb0 : 0 <= b) by apply Z.log2_nonneg.
  rewrite Qabs_frac. fold n d. clearbody a b n d.
  assert (Hhi : (n # d < pow2 (a - b + 1))%Q).
  { replace (a - b + 1) with ((a + 1) - b) by lia.
    rewrite pow2_sub, !pow2_Z by lia.
    apply Qlt_shift_div_l.
    - rewrite <- pow2_Z by lia. apply pow2_pos.
    - unfold Qlt, Qmult, inject_Z. cbn. rewrite Pos.mul_1_r.
      assert (0 < 2 ^ b) by (apply Z.pow_pos_nonneg; lia).
      nia. }
  assert (Hlo : (pow2 (a - b - 1) <= n # d)%Q).
  { replace (a - b - 1) with (a - (b + 1)) by lia.
    rewrite pow2_sub, !pow2_Z by lia.
    apply Qle_shift_div_r.
    - rewrite <- pow2_Z by lia. apply pow2_pos.
    - unfold Qle, Qmult, inject_Z. cbn. rewrite Pos.mul_1_r.
      assert (0 < 2 ^ a) by (apply Z.pow_pos_nonneg; lia).
      assert (H1 : 2 ^ a * Z.pos d <= n * Z.pos d) by nia.
      assert (H2 : n * Z.pos d <= n * 2 ^ (b + 1)) by nia.
      lia. }
  destruct (Qle_bool (pow2 (a - b)) (n # d)) eqn:Htest.
  - apply Qle_bool_iff in Htest. split; assumption.
  - split; [exact Hlo|].
    replace (a - b - 1 + 1) with (a - b) by lia.
    apply Qnot_le_lt. intros H. apply Qle_bool_iff in H. congruence.
Qed.

Lemma round_even_cases (y : Q) :
  round_even y = Qfloor y \/ round_even y = Qfloor y + 1.
Proof.
  unfold round_even.
  destruct (y - inject_Z (Qfloor y) ?= 1 # 2)%Q; [|auto|auto].
  destruct (Z.even (Qfloor y)); auto.
Qed.

Lemma round_even_comp (x y : Q) : (x == y)%Q -> round_even x = round_even y.
Proof.
  intros H. unfold round_even. rewrite (Qfloor_comp _ _ H).
  assert (Hc : (x - inject_Z (Qfloor y) ?= 1 # 2)%Q
               = (y - inject_Z (Qfloor y) ?= 1 # 2)%Q).
  { apply Qcompare_comp; [rewrite H|]; reflexivity. }
  rewrite Hc. reflexivity.
Qed.

Lemma round_even_Z (m : Z) : round_even (inject_Z m) = m.
Proof.
  unfold round_even. rewrite Qfloor_Z.
  assert (Hc : (inject_Z m - inject_Z m ?= 1 # 2)%Q = Lt).
  { apply Qlt_alt. setoid_replace (inject_Z m - inject_Z m)%Q with 0%Q by ring.
    reflexivity. }
  rewrite Hc. reflexivity.
Qed.

Lemma round_even_bound (y : Q) (N : Z) :
  (Qabs y < inject_Z N)%Q -> Z.abs (round_even y) <= N.
Proof.
  intros H. apply Qabs_Qlt_condition in H. destruct H as [Hlo Hhi].
  pose proof (Qfloor_le y) as H1. pose proof (Qlt_floor y) as H2.
  assert (Hf1 : Qfloor y < N).
  { rewrite Zlt_Qlt. apply (Qle_lt_trans _ y); assumption. }
  assert (Hf2 : - N < Qfloor y + 1).
  { rewrite Zlt_Qlt. rewrite inject_Z_opp.
    apply (Qlt_trans _ y); assumption. }
  destruct (round_even_cases y) as [-> | ->]; lia.
Qed.

Lemma Qred_canonical (x : Q) : Qred (Qred x) = Qred x.
Proof. apply Qred_complete, Qred_correct. Qed.

Lemma round_comp (x y : Q) : (x == y)%Q -> round x = round y.
Proof. intros H. unfold round. rewrite (Qred_complete _ _ H). reflexivity. Qed.

Lemma round_0 : round 0 = 0%Q.
Proof. reflexivity. Qed.

Lemma nearest_canonical (x : Q) : Qred (nearest x) = nearest x.
Proof.
  unfold nearest. destruct (Qeq_bool x 0); [reflexivity|apply Qred_canonical].
Qed.

Lemma round_canonical (x : Q) : Qred (round x) = round x.
Proof. apply nearest_canonical. Qed.

(** What [nearest] computes for a number that is not zero. *)
Lemma nearest_value (x : Q) :
  ~ (x == 0)%Q ->
  (nearest x
   == inject_Z (round_even (x / pow2 (ulp_exponent x))) * pow2 (ulp_exponent x))%Q.
Proof.
  intros Hx. unfold nearest.
  destruct (Qeq_bool x 0) eqn:H0; [apply Qeq_bool_eq in H0; contradiction|].
  apply Qred_correct.
Qed.

Lemma Qabs_scaled (m q : Z) :
  (Qabs (inject_Z m * pow2 q) == inject_Z (Z.abs m) * pow2 q)%Q.
Proof.
  rewrite Qabs_Qmult. rewrite (Qabs_pos (pow2 q)) by (apply Qlt_le_weak, pow2_pos).
  unfold Qabs, inject_Z. reflexivity.
Qed.

Lemma ilog2_scaled (x : Q) (m q : Z) :
  (x == inject_Z m * pow2 q)%Q -> m <> 0 ->
  ilog2 x = Z.log2 (Z.abs m) + q.
Proof.
  intros Hx Hm.
  assert (Hx0 : ~ (x == 0)%Q).
  { rewrite Hx. intros H. apply Qmult_integral in H. destruct H as [H|H].
    - apply Hm. unfold Qeq, inject_Z in H. cbn in H. lia.
    - exact (pow2_not_0 q H). }
  destruct (ilog2_spec x Hx0) as [H1 H2].
  assert (Hpos : 0 < Z.abs m) by lia.
  destruct (Z.log2_spec (Z.abs m) Hpos) as [L1 L2].
  assert (HL : 0 <= Z.log2 (Z.abs m)) by apply Z.log2_nonneg.
  apply (binade_unique (Qabs x)); try assumption.
  - rewrite Hx, Qabs_scaled, pow2_add, (pow2_Z _ HL).
    apply Qmult_le_compat_r; [|apply Qlt_le_weak, pow2_pos].
    rewrite <- Zle_Qle. exact L1.
  - rewrite Hx, Qabs_scaled.
    replace (Z.log2 (Z.abs m) + q + 1) with (Z.succ (Z.log2 (Z.abs m)) + q) by lia.
    rewrite pow2_add, (pow2_Z (Z.succ (Z.log2 (Z.abs m)))) by lia.
    apply Qmult_lt_compat_r; [apply pow2_pos|].
    rewrite <- Zlt_Qlt. exact L2.
Qed.

(** A double is rounded to itself. *)
Lemma round_exact (x : Q) : representable x -> (round x == x)%Q.
Proof.
  intros (m & q & Hx & Hm & Hq).
  assert (Hr : (Qred x == inject_Z m * pow2 q)%Q) by (rewrite Qred_correct; exact Hx).
  unfold round. rewrite <- (Qred_correct x) at 2.
  generalize dependent (Qred x). clear x Hx. intros x Hx.
  destruct (Z.eq_dec m 0) as [->|Hm0].
  - assert (H0 : (x == 0)%Q) by (rewrite Hx; ring).
    unfold nearest. rewrite (proj2 (Qeq_bool_iff x 0) H0). symmetry. exact H0.
  - assert (Hx0 : ~ (x == 0)%Q).
    { rewrite Hx. intros H. apply Qmult_integral in H. destruct H as [H|H].
      - apply Hm0. unfold Qeq, inject_Z in H. cbn in H. lia.
      - exact (pow2_not_0 q H). }
    rewrite (nearest_value x Hx0).
    unfold ulp_exponent. rewrite (ilog2_scaled x m q Hx Hm0).
    set (L := Z.log2 (Z.abs m)).
    assert (HL : L < 53).
    { subst L. apply Z.log2_lt_pow2; lia. }
    set (q' := Z.max (L + q - 52) (-1074)).
    assert (Hq' : q' <= q) by lia.
    assert (Hy : (x / pow2 q' == inject_Z (m * 2 ^ (q - q')))%Q).
    { rewrite Hx, inject_Z_mult, <- pow2_Z by lia.
      rewrite pow2_sub. field. apply pow2_not_0. }
    rewrite (round_even_comp _ _ Hy), round_even_Z.
    rewrite Hx, inject_Z_mult, <- pow2_Z by lia.
    rewrite pow2_sub. field. apply pow2_not_0.
Qed.

(** What rounding returns is a double. *)
Lemma round_representable (x : Q) : representable (round x).
Proof.
  unfold round. generalize (Qred x). clear x. intros x.
  destruct (Qeq_bool x 0) eqn:H0.
  - unfold nearest. rewrite H0. exists 0, 0. split; [ring|]. split; [reflexivity|lia].
  - assert (Hx0 : ~ (x == 0)%Q).
    { intros H. apply Qeq_bool_iff in H. congruence. }
    destruct (ilog2_spec x Hx0) as [_ Hhi].
    set (q := ulp_exponent x).
    assert (Hq : ilog2 x + 1 <= q + 53) by (subst q; unfold ulp_exponent; lia).
    assert (Hq2 : -1074 <= q) by (subst q; unfold ulp_exponent; lia).
    assert (Hy : (Qabs (x / pow2 q) < inject_Z (2 ^ 53))%Q).
    { unfold Qdiv. rewrite Qabs_Qmult, Qabs_Qinv.
      rewrite (Qabs_pos (pow2 q)) by (apply Qlt_le_weak, pow2_pos).
      apply Qlt_shift_div_r; [apply pow2_pos|].
      rewrite <- pow2_Z, <- pow2_add by lia.
      apply (Qlt_le_trans _ _ _ Hhi). apply pow2_le. lia. }
    pose proof (round_even_bound _ _ Hy) as Hr.
    set (r := round_even (x / pow2 q)) in *.
    assert (Hval : (nearest x == inject_Z r * pow2 q)%Q) by apply (nearest_value x Hx0).
    clearbody r.
    destruct (Z.eq_dec (Z.abs r) (2 ^ 53)) as [Hmax|Hlt].
    + assert (Hcases : r = 2 ^ 53 \/ r = - 2 ^ 53) by lia.
      assert (Hhalf : (pow2 (q + 1) == 2 * pow2 q)%Q).
      { rewrite Z.add_comm, pow2_add. unfold pow2 at 1. rewrite Qpower_1_r.
        reflexivity. }
      destruct Hcases as [-> | ->].
      * exists (2 ^ 52), (q + 1). split; [|split; [reflexivity|lia]].
        rewrite Hval, Hhalf.
        change (inject_Z (2 ^ 53)) with (inject_Z (2 ^ 52) * 2)%Q. ring.
      * exists (- 2 ^ 52), (q + 1). split; [|split; [reflexivity|lia]].
        rewrite Hval, Hhalf.
        change (inject_Z (- 2 ^ 53)) with (inject_Z (- 2 ^ 52) * 2)%Q. ring.
    + exists r, q. split; [exact Hval|]. split; [lia|exact Hq2].
Qed.

Lemma round_idem (x : Q) : round (round x) = round x.
Proof.
  rewrite <- (round_canonical (round x)), <- (round_canonical x).
  apply Qred_complete. rewrite round_canonical.
  apply round_exact, round_representable.
Qed.

Lemma add_0_r (a : Q) : add a 0 = round a.
Proof.
  unfold add. rewrite round_0.
  rewrite (round_comp (round a + 0) (round a)) by ring.
  apply round_idem.
Qed.

Lemma add_0_l (a : Q) : add 0 a = round a.
Proof.
  unfold add. rewrite round_0.
  rewrite (round_comp (0 + round a) (round a)) by ring.
  apply round_idem.
Qed.

Lemma add_double (a b : Q) : round (add a b) = add a b.
Proof. apply round_idem. Qed.

Lemma mul_double (a b : Q) : round (mul a b) = mul a b.
Proof. apply round_idem. Qed.

Lemma mul_0_l (a b : Q) : (a == 0)%Q -> mul a b = 0%Q.
Proof.
  intros H. unfold mul. rewrite (round_comp a 0 H), round_0.
  rewrite (round_comp (0 * round b) 0) by ring. reflexivity.
Qed.

Lemma mul_0_r (a b : Q) : (b == 0)%Q -> mul a b = 0%Q.
Proof.
  intros H. unfold mul. rewrite (round_comp b 0 H), round_0.
  rewrite (round_comp (round a * 0) 0) by ring. reflexivity.
Qed.

(** *** Sums and products that are exact *)

Lemma on_grid_comp (k : Z) (x y : Q) : (x == y)%Q -> on_grid k x -> on_grid k y.
Proof. intros H [m Hm]. exists m. rewrite <- H. exact Hm. Qed.

Lemma on_grid_0 (k : Z) : on_grid k 0.
Proof. exists 0. ring. Qed.

Lemma on_grid_add (k : Z) (x y : Q) :
  on_grid k x -> on_grid k y -> on_grid k (x + y).
Proof.
  intros [m Hm] [n Hn]. exists (m + n).
  rewrite Hm, Hn, inject_Z_plus. ring.
Qed.

Lemma on_grid_mul_Z (k : Z) (x : Q) (r : Z) :
  on_grid k x -> on_grid k (x * inject_Z r).
Proof.
  intros [m Hm]. exists (m * r). rewrite Hm, inject_Z_mult. ring.
Qed.

(** A multiple of [2^-k] below [2^(53-k)] is a double. *)
Lemma grid_representable (k : Z) (x : Q) :
  k <= 1074 -> on_grid k x -> (Qabs x * pow2 k < pow2 53)%Q -> representable x.
Proof.
  intros Hk [m Hm] Hb. exists m, (- k). split; [exact Hm|]. split; [|lia].
  rewrite Hm, Qabs_scaled in Hb.
  assert (Hone : (pow2 (- k) * pow2 k == 1)%Q).
  { rewrite <- pow2_add. replace (- k + k) with 0 by lia. reflexivity. }
  setoid_replace (inject_Z (Z.abs m) * pow2 (- k) * pow2 k)%Q
    with (inject_Z (Z.abs m)) in Hb
    by (rewrite <- Qmult_assoc, Hone; ring).
  rewrite (pow2_Z 53) in Hb by lia.
  rewrite <- Zlt_Qlt in Hb. exact Hb.
Qed.

Lemma round_grid (k : Z) (x : Q) :
  k <= 1074 -> on_grid k x -> (Qabs x * pow2 k < pow2 53)%Q -> (round x == x)%Q.
Proof. intros Hk Hg Hb. apply round_exact, (grid_representable k); assumption. Qed.

Lemma Qabs_scale_le (k : Z) (x y : Q) :
  (Qabs x <= Qabs y)%Q -> (Qabs x * pow2 k <= Qabs y * pow2 k)%Q.
Proof. intros H. apply Qmult_le_compat_r; [exact H|apply Qlt_le_weak, pow2_pos]. Qed.

Lemma add_exact (k : Z) (x y : Q) :
  k <= 1074 -> on_grid k x -> on_grid k y ->
  ((Qabs x + Qabs y) * pow2 k < pow2 53)%Q ->
  (add x y == x + y)%Q.
Proof.
  intros Hk Hx Hy Hb.
  assert (Hpk : (0 <= pow2 k)%Q) by apply Qlt_le_weak, pow2_pos.
  assert (Hbx : (Qabs x * pow2 k < pow2 53)%Q).
  { apply (Qle_lt_trans _ ((Qabs x + Qabs y) * pow2 k)); [|exact Hb].
    apply Qmult_le_compat_r; [|exact Hpk].
    rewrite <- (Qplus_0_r (Qabs x)) at 1.
    apply Qplus_le_r, Qabs_nonneg. }
  assert (Hby : (Qabs y * pow2 k < pow2 53)%Q).
  { apply (Qle_lt_trans _ ((Qabs x + Qabs y) * pow2 k)); [|exact Hb].
    apply Qmult_le_compat_r; [|exact Hpk].
    rewrite <- (Qplus_0_l (Qabs y)) at 1.
    apply Qplus_le_l, Qabs_nonneg. }
  unfold add.
  rewrite (round_comp (round x + round y) (x + y)).
  - apply (round_grid k); [exact Hk|apply on_grid_add; assumption|].
    apply (Qle_lt_trans _ ((Qabs x + Qabs y) * pow2 k)); [|exact Hb].
    apply Qmult_le_compat_r; [apply Qabs_triangle|exact Hpk].
  - rewrite (round_grid k x), (round_grid k y) by assumption. reflexivity.
Qed.

Lemma mul_exact (k : Z) (w : Q) (r : Z) :
  k <= 1074 -> on_grid k w ->
  (Qabs (w * inject_Z r) * pow2 k < pow2 53)%Q ->
  (mul w (inject_Z r) == w * inject_Z r)%Q.
Proof.
  intros Hk Hw Hb.
  destruct (Z.eq_dec r 0) as [->|Hr].
  { rewrite mul_0_r by reflexivity. ring. }
  destruct (Qeq_dec w 0) as [Hw0|Hw0].
  { rewrite mul_0_l by exact Hw0. rewrite Hw0. ring. }
  assert (Hpk : (0 <= pow2 k)%Q) by apply Qlt_le_weak, pow2_pos.
  assert (Hr1 : (1 <= Qabs (inject_Z r))%Q).
  { unfold Qabs, inject_Z, Qle. cbn. lia. }
  assert (Hw1 : (Qabs w * pow2 k < pow2 53)%Q).
  { apply (Qle_lt_trans _ (Qabs (w * inject_Z r) * pow2 k)); [|exact Hb].
    apply Qmult_le_compat_r; [|exact Hpk].
    rewrite Qabs_Qmult. rewrite <- (Qmult_1_r (Qabs w)) at 1.
    apply Qmult_le_compat_nonneg.
    - split; [apply Qabs_nonneg|apply Qle_refl].
    - split; [discriminate|exact Hr1]. }
  assert (Hrr : representable (inject_Z r)).
  { exists r, 0. split; [unfold pow2; rewrite Qpower_0_r; ring|]. split; [|lia].
    destruct Hw as [m Hm].
    assert (Hm0 : m <> 0).
    { intros ->. apply Hw0. rewrite Hm. ring. }
    rewrite Hm in Hb.
    setoid_replace (inject_Z m * pow2 (- k) * inject_Z r)%Q
      with (inject_Z (m * r) * pow2 (- k))%Q in Hb
      by (rewrite inject_Z_mult; ring).
    rewrite Qabs_scaled in Hb.
    assert (Hone : (pow2 (- k) * pow2 k == 1)%Q).
    { rewrite <- pow2_add. replace (- k + k) with 0 by lia. reflexivity. }
    setoid_replace (inject_Z (Z.abs (m * r)) * pow2 (- k) * pow2 k)%Q
      with (inject_Z (Z.abs (m * r))) in Hb
      by (rewrite <- Qmult_assoc, Hone; ring).
    rewrite (pow2_Z 53) in Hb by lia.
    rewrite <- Zlt_Qlt in Hb. rewrite Z.abs_mul in Hb. nia. }
  unfold mul.
  rewrite (round_comp (round w * round (inject_Z r)) (w * inject_Z r)).
  - apply (round_grid k); [exact Hk|apply on_grid_mul_Z; exact Hw|exact Hb].
  - rewrite (round_grid k w), (round_exact _ Hrr) by assumption. reflexivity.
Qed.

(** A sum of multiples of [2^-k] whose absolute values add up to less than
    [2^(53-k)] is exact. *)
Lemma fold_add_exact (k : Z) (l : list Q) :
  k <= 1074 ->
  forall acc,
    on_grid k acc -> Forall (on_grid k) l ->
    ((Qabs acc + fold_right (fun x s => Qabs x + s) 0 l) * pow2 k < pow2 53)%Q ->
    (fold_left add l acc == acc + fold_right Qplus 0 l)%Q.
Proof.
  intros Hk. induction l as [|x l IH]; intros acc Hacc Hl Hb; cbn [fold_left fold_right].
  - ring.
  - inversion Hl as [|? ? Hx Hl']; subst.
    cbn [fold_right] in Hb.
    assert (Hpk : (0 <= pow2 k)%Q) by apply Qlt_le_weak, pow2_pos.
    assert (Hrest : (0 <= fold_right (fun x s => Qabs x + s) 0 l)%Q).
    { clear. induction l as [|y l IH]; cbn; [discriminate|].
      apply (Qle_trans _ (0 + 0)); [discriminate|].
      apply Qplus_le_compat; [apply Qabs_nonneg|exact IH]. }
    assert (Hstep : (add acc x == acc + x)%Q).
    { apply (add_exact k); try assumption.
      eapply Qle_lt_trans; [|exact Hb]. apply Qmult_le_compat_r; [|exact Hpk].
      setoid_replace (Qabs acc + (Qabs x + fold_right (fun x s => Qabs x + s) 0 l))%Q
        with (Qabs acc + Qabs x + fold_right (fun x s => Qabs x + s) 0 l)%Q by ring.
      apply (Qle_trans _ (Qabs acc + Qabs x + 0)); [rewrite Qplus_0_r; apply Qle_refl|].
      apply Qplus_le_r. exact Hrest. }
    rewrite IH.
    + rewrite Hstep. ring.
    + apply (on_grid_comp k (acc + x)); [symmetry; exact Hstep|].
      apply on_grid_add; assumption.
    + exact Hl'.
    + eapply Qle_lt_trans; [|exact Hb]. apply Qmult_le_compat_r; [|exact Hpk].
      rewrite Hstep.
      setoid_replace (Qabs acc + (Qabs x + fold_right (fun x s => Qabs x + s) 0 l))%Q
        with (Qabs acc + Qabs x + fold_right (fun x s => Qabs x + s) 0 l)%Q by ring.
      apply Qplus_le_l, Qabs_triangle.
Qed.

End DoubleFacts.

(** ** Statistics *)

Section Stats.

Lemma length_app_Z {A : Type} (l1 l2 : list A) :
  length_ (l1 ++ l2) = length_ l1 + length_ l2.
Proof. unfold length_. rewrite length_app. lia. Qed.

Lemma workingSetCount_all_sets (ex : WorkoutExercise.t) :
  workingSetCount ex
  = length_ (filter is_working (nullish ex.(WorkoutExercise.sets) [])).
Proof.
  unfold workingSetCount.
  destruct (WorkoutExercise.sets ex) as [sets|]; reflexivity.
Qed.

Lemma totalSets_fold (exs : list WorkoutExercise.t) :
  forall acc,
    fold_left (fun acc ex => acc + workingSetCount ex) exs acc
    = acc + spec_totalSets exs.
Proof.
  unfold spec_totalSets, all_sets.
  induction exs as [|ex exs IH]; intros acc; simpl.
  - unfold length_. simpl. lia.
  - rewrite IH, filter_app, length_app_Z, workingSetCount_all_sets. lia.
Qed.

Lemma Qsum_app (l1 l2 : list Q) : (Qsum (l1 ++ l2) == Qsum l1 + Qsum l2)%Q.
Proof.
  induction l1 as [|x l1 IH]; simpl.
  - ring.
  - rewrite IH. ring.
Qed.

(** The test of the code and the test of the specification differ only
    on sets whose product is zero. *)
Lemma setVolume_double (s : WorkoutSet.t) :
  setVolume s = if is_working s then double_setVolume s else 0%Q.
Proof.
  unfold setVolume, double_setVolume, is_working, truthyQ, truthyZ.
  destruct (WorkoutSet.is_warmup s); cbn [negb andb]; [reflexivity|].
  destruct (WorkoutSet.weight_kg s) as [w|]; cbn [andb]; [|reflexivity].
  destruct (Qeq_bool w 0) eqn:Hw; cbn [negb andb].
  - apply Qeq_bool_eq in Hw.
    destruct (WorkoutSet.reps s) as [r|]; [|reflexivity].
    symmetry. apply mul_0_l. exact Hw.
  - destruct (WorkoutSet.reps s) as [r|]; [|reflexivity].
    destruct (Z.eqb_spec r 0) as [->|_]; cbn [negb]; [|reflexivity].
    symmetry. apply mul_0_r. reflexivity.
Qed.

(** Adding the zero of a set that does not count changes nothing. *)
Lemma setAcc_fold (sets : list WorkoutSet.t) :
  forall acc : Q,
    Double.round acc = acc ->
    fold_left (fun setAcc s => Double.add setAcc (setVolume s)) sets acc
    = fold_left Double.add (map double_setVolume (filter is_working sets)) acc.
Proof.
  induction sets as [|s sets IH]; intros acc Hacc; cbn [fold_left filter map].
  - reflexivity.
  - rewrite setVolume_double. destruct (is_working s); cbn [map fold_left].
    + apply IH, add_double.
    + rewrite add_0_r, Hacc. apply IH, Hacc.
Qed.

Lemma totalVolume_fold (exs : list WorkoutExercise.t) :
  forall acc : Q,
    fold_left
      (fun acc ex =>
         Double.add acc
           (nullish
              (option_map
                 (fun sets =>
                    fold_left (fun setAcc s => Double.add setAcc (setVolume s))
                      sets 0%Q)
                 ex.(WorkoutExercise.sets))
              0%Q))
      exs acc
    = fold_left Double.add
        (map (fun ex =>
                Double.sum
                  (map double_setVolume
                     (filter is_working (nullish ex.(WorkoutExercise.sets) []))))
             exs)
        acc.
Proof.
  induction exs as [|ex exs IH]; intros acc; cbn [fold_left map]; [reflexivity|].
  rewrite IH. f_equal. f_equal.
  destruct (WorkoutExercise.sets ex) as [sets|]; cbn [option_map nullish];
    [|reflexivity].
  apply setAcc_fold. reflexivity.
Qed.

Lemma Math_round_nearest (x : Q) : nearest_integer x (Math_round x).
Proof.
  unfold nearest_integer, Math_round.
  pose proof (Qfloor_le (x + (1 # 2))) as Hlo.
  pose proof (Qlt_floor (x + (1 # 2))) as Hhi.
  rewrite inject_Z_plus in Hhi.
  split.
  - apply (Qplus_le_l _ _ (1 # 2)).
    setoid_replace (inject_Z (Qfloor (x + (1 # 2))) - (1 # 2) + (1 # 2))%Q
      with (inject_Z (Qfloor (x + (1 # 2)))) by ring.
    exact Hlo.
  - apply (Qplus_lt_l _ _ (1 # 2)).
    setoid_replace (inject_Z (Qfloor (x + (1 # 2))) + (1 # 2) + (1 # 2))%Q
      with (inject_Z (Qfloor (x + (1 # 2))) + inject_Z 1)%Q by ring.
    exact Hhi.
Qed.

Lemma Math_round_comp (x y : Q) : (x == y)%Q -> Math_round x = Math_round y.
Proof. intros H. unfold Math_round. now rewrite H. Qed.

(** What the code computes is the rounded sum of doubles. *)
Lemma totalVolume_round (exs : list WorkoutExercise.t) (st : UseWorkoutState) :
  exercises st = exs ->
  totalVolume (getWorkoutStats st) = Math_round (double_volume exs).
Proof.
  intros <-. unfold getWorkoutStats, double_volume, Double.sum.
  cbn [totalVolume]. rewrite totalVolume_fold. reflexivity.
Qed.

(** *** When the doubles are exact *)

Lemma Qsum_abs_nonneg {A : Type} (g : A -> Q) (l : list A) :
  (0 <= Qsum (map (fun a => Qabs (g a)) l))%Q.
Proof.
  induction l as [|a l IH]; cbn; [discriminate|].
  apply (Qle_trans _ (0 + 0)); [discriminate|].
  apply Qplus_le_compat; [apply Qabs_nonneg|exact IH].
Qed.

Lemma Qabs_Qsum {A : Type} (g : A -> Q) (l : list A) :
  (Qabs (Qsum (map g l)) <= Qsum (map (fun a => Qabs (g a)) l))%Q.
Proof.
  induction l as [|a l IH]; cbn; [discriminate|].
  apply (Qle_trans _ _ _ (Qabs_triangle _ _)).
  apply Qplus_le_r. exact IH.
Qed.

Lemma on_grid_Qsum {A : Type} (k : Z) (g : A -> Q) (l : list A) :
  (forall a, In a l -> Double.on_grid k (g a)) ->
  Double.on_grid k (Qsum (map g l)).
Proof.
  induction l as [|a l IH]; intros H; cbn.
  - apply on_grid_0.
  - apply on_grid_add; [apply H; left; reflexivity|].
    apply IH. intros b Hb. apply H. right. exact Hb.
Qed.

(** A sum of doubles whose terms are, up to what they are worth, multiples
    of [2^-k] with absolute values adding up to less than [2^(53-k)]. *)
Lemma fold_add_map_exact {A : Type} (k : Z) (f g : A -> Q) (B : Q) (l : list A) :
  k <= 1074 ->
  (B * Double.pow2 k < Double.pow2 53)%Q ->
  forall acc,
    Double.on_grid k acc ->
    (forall a, In a l -> (f a == g a)%Q /\ Double.on_grid k (g a)) ->
    (Qabs acc + Qsum (map (fun a => Qabs (g a)) l) <= B)%Q ->
    (fold_left Double.add (map f l) acc == acc + Qsum (map g l))%Q.
Proof.
  intros Hk HB.
  assert (Hpk : (0 <= Double.pow2 k)%Q) by apply Qlt_le_weak, pow2_pos.
  induction l as [|a l IH]; intros acc Hacc Hl Hb; cbn [map fold_left Qsum].
  - ring.
  - cbn [map Qsum] in Hb.
    destruct (Hl a (or_introl eq_refl)) as [Hfa Hga].
    pose proof (Qsum_abs_nonneg g l) as Hrest.
    assert (Hfa' : Double.add acc (f a) = Double.add acc (g a)).
    { unfold Double.add. rewrite (round_comp (f a) (g a) Hfa). reflexivity. }
    assert (Hstep : (Double.add acc (g a) == acc + g a)%Q).
    { apply (add_exact k); try assumption.
      eapply Qle_lt_trans; [|exact HB].
      apply Qmult_le_compat_r; [|exact Hpk].
      apply (Qle_trans _ (Qabs acc
                          + (Qabs (g a) + Qsum (map (fun a => Qabs (g a)) l))));
        [|exact Hb].
      setoid_replace (Qabs acc + (Qabs (g a) + Qsum (map (fun a => Qabs (g a)) l)))%Q
        with (Qabs acc + Qabs (g a) + Qsum (map (fun a => Qabs (g a)) l))%Q by ring.
      apply (Qle_trans _ (Qabs acc + Qabs (g a) + 0));
        [rewrite Qplus_0_r; apply Qle_refl|].
      apply Qplus_le_r. exact Hrest. }
    rewrite Hfa', IH.
    + rewrite Hstep. ring.
    + apply (on_grid_comp k (acc + g a)); [symmetry; exact Hstep|].
      apply on_grid_add; assumption.
    + intros b Hb'. apply Hl. right. exact Hb'.
    + apply (Qle_trans _ (Qabs acc
                          + (Qabs (g a) + Qsum (map (fun a => Qabs (g a)) l))));
        [|exact Hb].
      rewrite Hstep.
      setoid_replace (Qabs acc + (Qabs (g a) + Qsum (map (fun a => Qabs (g a)) l)))%Q
        with (Qabs acc + Qabs (g a) + Qsum (map (fun a => Qabs (g a)) l))%Q by ring.
      apply Qplus_le_l, Qabs_triangle.
Qed.

Lemma member_le_Qsum {A : Type} (g : A -> Q) (l : list A) (a : A) :
  In a l -> (Qabs (g a) <= Qsum (map (fun a => Qabs (g a)) l))%Q.
Proof.
  induction l as [|b l IH]; intros Hin; [destruct Hin|]. cbn.
  destruct Hin as [->|Hin].
  - apply (Qle_trans _ (Qabs (g a) + 0)); [rewrite Qplus_0_r; apply Qle_refl|].
    apply Qplus_le_r, Qsum_abs_nonneg.
  - apply (Qle_trans _ (0 + Qsum (map (fun a => Qabs (g a)) l)));
      [rewrite Qplus_0_l; apply IH, Hin|].
    apply Qplus_le_l, Qabs_nonneg.
Qed.

(** The double product of a set is its exact product when the weight is on
    the grid and the product is small enough. *)
Lemma double_setVolume_exact (k : Z) (s : WorkoutSet.t) :
  k <= 1074 ->
  Double.on_grid k (nullish s.(WorkoutSet.weight_kg) 0%Q) ->
  (Qabs (spec_setVolume s) * Double.pow2 k < Double.pow2 53)%Q ->
  (double_setVolume s == spec_setVolume s)%Q
  /\ Double.on_grid k (spec_setVolume s).
Proof.
  unfold double_setVolume, spec_setVolume. intros Hk Hw Hb.
  destruct (WorkoutSet.weight_kg s) as [w|];
    [destruct (WorkoutSet.reps s) as [r|]|]; cbn [nullish] in Hw.
  - split; [apply (mul_exact k); assumption|apply on_grid_mul_Z; exact Hw].
  - split; [reflexivity|apply on_grid_0].
  - split; [reflexivity|apply on_grid_0].
Qed.

Lemma filter_flat_map_sets (exs : list WorkoutExercise.t) :
  filter is_working (all_sets exs)
  = flat_map (fun ex => filter is_working (nullish ex.(WorkoutExercise.sets) []))
      exs.
Proof.
  unfold all_sets. induction exs as [|ex exs IH]; cbn; [reflexivity|].
  rewrite filter_app, IH. reflexivity.
Qed.

Lemma Qsum_flat_map {A C : Type} (g : C -> Q) (w : A -> list C) (l : list A) :
  (Qsum (map g (flat_map w l)) == Qsum (map (fun a => Qsum (map g (w a))) l))%Q.
Proof.
  induction l as [|a l IH]; cbn; [reflexivity|].
  rewrite map_app, Qsum_app, IH. reflexivity.
Qed.

(** The working sets of the state, exercise by exercise, when
    [exact_volume] holds: every product is exact and on the grid. *)
Lemma exact_volume_sets (k : Z) (exs : list WorkoutExercise.t) :
  exact_volume k exs ->
  forall s, In s (filter is_working (all_sets exs)) ->
    (double_setVolume s == spec_setVolume s)%Q
    /\ Double.on_grid k (spec_setVolume s).
Proof.
  intros (Hk & Hgrid & Hb) s Hs.
  assert (Hpk : (0 <= Double.pow2 k)%Q) by apply Qlt_le_weak, pow2_pos.
  apply double_setVolume_exact; [exact Hk| |].
  - rewrite Forall_forall in Hgrid. apply Hgrid, Hs.
  - eapply Qle_lt_trans; [|exact Hb].
    apply Qmult_le_compat_r; [|exact Hpk].
    apply (member_le_Qsum spec_setVolume _ s Hs).
Qed.

Lemma inner_le_total {A C : Type} (g : C -> Q) (w : A -> list C) (l : list A)
    (a : A) :
  In a l ->
  (Qsum (map (fun c => Qabs (g c)) (w a))
   <= Qsum (map (fun c => Qabs (g c)) (flat_map w l)))%Q.
Proof.
  induction l as [|b l IH]; intros Hin; [destruct Hin|].
  cbn [flat_map]. rewrite map_app, Qsum_app.
  destruct Hin as [->|Hin].
  - apply (Qle_trans _ (Qsum (map (fun c => Qabs (g c)) (w a)) + 0));
      [rewrite Qplus_0_r; apply Qle_refl|].
    apply Qplus_le_r, Qsum_abs_nonneg.
  - apply (Qle_trans _ (0 + Qsum (map (fun c => Qabs (g c)) (flat_map w l))));
      [rewrite Qplus_0_l; apply IH, Hin|].
    apply Qplus_le_l, Qsum_abs_nonneg.
Qed.

Lemma outer_le_total {A C : Type} (g : C -> Q) (w : A -> list C) (l : list A) :
  (Qsum (map (fun a => Qabs (Qsum (map g (w a)))) l)
   <= Qsum (map (fun c => Qabs (g c)) (flat_map w l)))%Q.
Proof.
  induction l as [|a l IH]; cbn [flat_map map Qsum]; [discriminate|].
  rewrite map_app, Qsum_app.
  apply Qplus_le_compat; [apply Qabs_Qsum|exact IH].
Qed.

(** Under [exact_volume] the double sum of the code is the exact sum. *)
Lemma double_volume_exact (k : Z) (exs : list WorkoutExercise.t) :
  exact_volume k exs -> (double_volume exs == spec_volume exs)%Q.
Proof.
  intros Hexact. pose proof (exact_volume_sets k exs Hexact) as Hsets.
  destruct Hexact as (Hk & _ & Hb).
  unfold double_volume, spec_volume, Double.sum.
  unfold abs_volume in Hb. rewrite filter_flat_map_sets in *.
  set (W := fun ex : WorkoutExercise.t =>
              filter is_working (nullish ex.(WorkoutExercise.sets) [])) in *.
  assert (Hin : forall ex s, In ex exs -> In s (W ex) -> In s (flat_map W exs)).
  { intros ex s Hex Hs. apply in_flat_map. exists ex. split; assumption. }
  assert (Hinner : forall ex, In ex exs ->
            (fold_left Double.add (map double_setVolume (W ex)) 0
             == Qsum (map spec_setVolume (W ex)))%Q
            /\ Double.on_grid k (Qsum (map spec_setVolume (W ex)))).
  { intros ex Hex. split.
    - rewrite (fold_add_map_exact k double_setVolume spec_setVolume _ (W ex) Hk Hb).
      + ring.
      + apply on_grid_0.
      + intros s Hs. apply Hsets. apply (Hin ex); assumption.
      + change (Qabs 0) with 0%Q. rewrite Qplus_0_l.
        apply (inner_le_total spec_setVolume W exs ex Hex).
    - apply on_grid_Qsum. intros s Hs. apply Hsets. apply (Hin ex); assumption. }
  rewrite (fold_add_map_exact k _ (fun ex => Qsum (map spec_setVolume (W ex)))
             _ exs Hk Hb).
  - rewrite Qsum_flat_map. ring.
  - apply on_grid_0.
  - exact Hinner.
  - change (Qabs 0) with 0%Q. rewrite Qplus_0_l.
    apply outer_le_total.
Qed.

End Stats.

(** C2, as stated, fails: the code multiplies and adds doubles.  With one
    set of three repetitions whose weight is the double nearest to 11/6 the
    sum of weight times reps is a little less than 5.5, so that 5 is the
    integer nearest to it, and [getWorkoutStats] answers 6: the product of
    the doubles is rounded to 5.5 first. *)
Lemma volume_rounds_in_doubles :
  Double.round SampleStats.eleven_sixths = SampleStats.eleven_sixths
  /\ (spec_volume SampleStats.rounding.(exercises)
      == 24769797950537727 # 4503599627370496)%Q
  /\ (spec_volume SampleStats.rounding.(exercises) < 11 # 2)%Q
  /\ nearest_integer (spec_volume SampleStats.rounding.(exercises)) 5
  /\ totalVolume (getWorkoutStats SampleStats.rounding) = 6
  /\ ~ nearest_integer (spec_volume SampleStats.rounding.(exercises))
         (totalVolume (getWorkoutStats SampleStats.rounding)).
Proof.
  assert (Hv : totalVolume (getWorkoutStats SampleStats.rounding) = 6)
    by (vm_compute; reflexivity).
  split; [vm_compute; reflexivity|].
  split; [vm_compute; reflexivity|].
  split; [vm_compute; reflexivity|].
  split; [split; vm_compute; [discriminate|reflexivity]|].
  split; [exact Hv|].
  rewrite Hv. intros [Hlo _]. vm_compute in Hlo. apply Hlo. reflexivity.
Qed.

(** C2, amended.  For every state, [getWorkoutStats] gives as [totalSets]
    the number of non-warmup sets over all exercises, and as [totalVolume]
    [Math.round] of the sum of weight times reps over the non-warmup sets
    that have both, the products and the sum taken in doubles, set after set
    within an exercise and then exercise after exercise.  That is the
    integer nearest to the exact sum whenever the doubles are exact: when
    every weight is a multiple of [2^-k] and the absolute products add up to
    less than [2^(53-k)].  The function looks only at the exercise list of
    the state, and being a function it changes nothing. *)
Theorem getWorkoutStats_spec (state : UseWorkoutState) :
  totalSets (getWorkoutStats state) = spec_totalSets state.(exercises)
  /\ totalVolume (getWorkoutStats state)
     = Math_round (double_volume state.(exercises))
  /\ nearest_integer (double_volume state.(exercises))
       (totalVolume (getWorkoutStats state))
  /\ (forall k,
        exact_volume k state.(exercises) ->
        totalVolume (getWorkoutStats state)
        = Math_round (spec_volume state.(exercises))
        /\ nearest_integer (spec_volume state.(exercises))
             (totalVolume (getWorkoutStats state)))
  /\ getWorkoutStats state
     = getWorkoutStats (mkState None state.(exercises) false None).
Proof.
  assert (Hv := totalVolume_round state.(exercises) state eq_refl).
  split; [unfold getWorkoutStats; simpl; rewrite totalSets_fold; lia|].
  split; [exact Hv|].
  split; [rewrite Hv; apply Math_round_nearest|].
  split; [|reflexivity].
  intros k Hexact.
  assert (Hs : totalVolume (getWorkoutStats state)
               = Math_round (spec_volume state.(exercises))).
  { rewrite Hv. apply Math_round_comp, (double_volume_exact k), Hexact. }
  split; [exact Hs|]. rewrite Hs. apply Math_round_nearest.
Qed.

(** Weights in half kilos: the volume of 187.5 kg is exact and rounded up. *)
Lemma getWorkoutStats_spec_witness :
  exact_volume 1 SampleStats.state.(exercises)
  /\ totalVolume (getWorkoutStats SampleStats.state) = 188
  /\ nearest_integer (spec_volume SampleStats.state.(exercises))
       (totalVolume (getWorkoutStats SampleStats.state)).
Proof.
  assert (Hexact : exact_volume 1 SampleStats.state.(exercises)).
  { split; [lia|]. split; [|vm_compute; reflexivity].
    repeat constructor.
    - exists 125. vm_compute. reflexivity.
    - exists 0. vm_compute. reflexivity. }
  split; [exact Hexact|]. split; [vm_compute; reflexivity|].
  exact (proj2 (proj1 (proj2 (proj2 (proj2
           (getWorkoutStats_spec SampleStats.state)))) 1 Hexact)).
Defined.

(** Two working sets are counted, 187.5 kg of volume is rounded up. *)
Example getWorkoutStats_sample :
  getWorkoutStats SampleStats.state = mkStats 2 188 2 1.
Proof. vm_compute. reflexivity. Qed.

(** 32.3 kg for 15 repetitions: the double nearest to 32.3 times 15 is
    rounded to 484.49999999999994, and the volume is 484. *)
Example getWorkoutStats_32_3_by_15 :
  totalVolume (getWorkoutStats (SampleStats.one_set (323 # 10) 15)) = 484
  /\ (Double.mul (323 # 10) 15 == 8523414138519551 # 17592186044416)%Q.
Proof. split; vm_compute; reflexivity. Qed.

(** ** Running hook code *)

Section Running.

Context {B : Type} (h : Handler B).

Lemma run_pbind {A R : Type} (p : Prog A) (f : A -> Prog R) (b : B) :
  run h (pbind p f) b
  = let '(a, b1, tr1) := run h p b in
    let '(r, b2, tr2) := run h (f a) b1 in
    (r, b2, (tr1 ++ tr2)%list).
Proof.
  revert b. induction p as [a|X e k IH]; intros b; simpl.
  - destruct (run h (f a) b) as [[r b2] tr2]. reflexivity.
  - destruct (h X e b) as [x b1]. rewrite IH.
    destruct (run h (k x) b1) as [[a b2] tr1].
    destruct (run h (f a) b2) as [[r b3] tr2]. reflexivity.
Qed.

(** One [logSet], by the answer of the backend. *)
Lemma logSet_run (workoutExerciseId : string) (setData : NewWorkoutSet.t)
    (st : UseWorkoutState) (b : B) :
  run h (logSet workoutExerciseId setData st) b
  = match st.(workout) with
    | None => (Normal (Result.fail "No active workout"), st, b, [])
    | Some _ =>
        match h _ (InsertSet workoutExerciseId setData) b with
        | (PgData newSet, b1) =>
            (Normal (Result.ok (Some newSet)),
             mkState st.(workout)
               (map (fun ex =>
                       if (ex.(WorkoutExercise.id) =? workoutExerciseId)%string
                       then WorkoutExercise.with_sets ex
                              (Some (nullish ex.(WorkoutExercise.sets) []
                                     ++ [newSet])%list)
                       else ex)
                    st.(exercises))
               st.(loading) st.(error),
             b1,
             [exchange (InsertSet workoutExerciseId setData) (PgData newSet)])
        | (PgError e, b1) =>
            (Normal (Result.fail (catch_message e "Failed to log set")),
             st, b1,
             [exchange (InsertSet workoutExerciseId setData) (PgError e)])
        end
    end.
Proof.
  destruct st as [[w|] exs l err]; simpl; [|reflexivity].
  destruct (h _ (InsertSet workoutExerciseId setData) b) as [[newSet|e] b1];
    reflexivity.
Qed.

End Running.

(** ** Logging sets *)

Section LogSet.

Context {B : Type} (h : Handler B).

Lemma appendSet_id weid newSet ex :
  WorkoutExercise.id (appendSet weid newSet ex) = WorkoutExercise.id ex.
Proof.
  unfold appendSet.
  destruct (WorkoutExercise.id ex =? weid)%string; reflexivity.
Qed.

Lemma find_map_id (f : WorkoutExercise.t -> WorkoutExercise.t) (key : string)
    (exs : list WorkoutExercise.t) :
  (forall ex, WorkoutExercise.id (f ex) = WorkoutExercise.id ex) ->
  find (fun ex => (ex.(WorkoutExercise.id) =? key)%string) (map f exs)
  = option_map f
      (find (fun ex => (ex.(WorkoutExercise.id) =? key)%string) exs).
Proof.
  intros Hid. induction exs as [|ex exs IH]; simpl; [reflexivity|].
  rewrite Hid.
  destruct (WorkoutExercise.id ex =? key)%string; [reflexivity|exact IH].
Qed.

Lemma setsOf_append_same weid newSet st :
  find (fun ex => (ex.(WorkoutExercise.id) =? weid)%string) st.(exercises)
    <> None ->
  setsOf weid
    (mkState st.(workout) (map (appendSet weid newSet) st.(exercises))
       st.(loading) st.(error))
  = (setsOf weid st ++ [newSet])%list.
Proof.
  unfold setsOf. simpl. intros Hfind.
  rewrite (find_map_id _ _ _ (appendSet_id weid newSet)).
  destruct (find _ (exercises st)) as [ex|] eqn:Hex; [|congruence].
  apply find_some in Hex. destruct Hex as [_ Hid].
  simpl. unfold appendSet. rewrite Hid. reflexivity.
Qed.

Lemma setsOf_append_other weid newSet other st :
  other <> weid ->
  setsOf other
    (mkState st.(workout) (map (appendSet weid newSet) st.(exercises))
       st.(loading) st.(error))
  = setsOf other st.
Proof.
  unfold setsOf. simpl. intros Hne.
  rewrite (find_map_id _ _ _ (appendSet_id weid newSet)).
  destruct (find _ (exercises st)) as [ex|] eqn:Hex; [|reflexivity].
  apply find_some in Hex. destruct Hex as [_ Hid].
  apply String.eqb_eq in Hid.
  simpl. unfold appendSet.
  destruct (String.eqb_spec (WorkoutExercise.id ex) weid) as [Heq|_];
    [congruence|reflexivity].
Qed.

Lemma find_append_some weid newSet st :
  find (fun ex => (ex.(WorkoutExercise.id) =? weid)%string) st.(exercises)
    <> None ->
  find (fun ex => (ex.(WorkoutExercise.id) =? weid)%string)
    (map (appendSet weid newSet) st.(exercises)) <> None.
Proof.
  intros Hfind. rewrite (find_map_id _ _ _ (appendSet_id weid newSet)).
  destruct (find _ (exercises st)); [discriminate|congruence].
Qed.

Lemma logSets_run (weid : string) (calls : list NewWorkoutSet.t) :
  forall (st : UseWorkoutState) (b : B),
    st.(workout) <> None ->
    find (fun ex => (ex.(WorkoutExercise.id) =? weid)%string) st.(exercises)
      <> None ->
    exists rs st' b' tr,
      run h (logSets weid calls st) b = (Normal rs, st', b', tr)
      /\ requests tr = map (fun d => call (InsertSet weid d)) calls
      /\ setsOf weid st' = (setsOf weid st ++ createdSets rs)%list
      /\ length (createdSets rs) = length (filter inserted_set tr)
      /\ (forall other, other <> weid -> setsOf other st' = setsOf other st)
      /\ st'.(workout) = st.(workout)
      /\ createdSets rs = insertedSets tr
      /\ map (fun r => r.(Result.value)) rs = map answered_set tr
      /\ map (fun r => r.(Result.success)) rs = map inserted_set tr.
Proof.
  induction calls as [|d calls IH]; intros st b Hactive Hfind.
  - exists [], st, b, []. simpl. rewrite app_nil_r. repeat split; reflexivity.
  - cbn [logSets]. unfold bind at 1. rewrite run_pbind, logSet_run.
    destruct (workout st) as [w|] eqn:Hw; [|congruence].
    destruct (h _ (InsertSet weid d) b) as [[newSet|e] b1] eqn:Hh.
    + fold (appendSet weid newSet).
      set (st1 := mkState (Some w) (map (appendSet weid newSet) (exercises st))
                    (loading st) (error st)).
      destruct (IH st1 b1)
        as (rs & st' & b' & tr & Hrun & Hreq & Hsets & Hsucc & Hother & Hwk
            & Hrows & Hvalues & Hflags).
      { discriminate. }
      { apply find_append_some. exact Hfind. }
      exists (Result.ok (Some newSet) :: rs), st', b',
             (exchange (InsertSet weid d) (PgData newSet) :: tr).
      unfold bind. rewrite run_pbind, Hrun. simpl. rewrite app_nil_r.
      split; [reflexivity|]. split.
      { unfold requests in *. cbn [map]. now rewrite Hreq. }
      split.
      { rewrite Hsets. subst st1. rewrite <- Hw.
        rewrite setsOf_append_same by exact Hfind.
        now rewrite <- app_assoc. }
      split; [simpl; now rewrite Hsucc|].
      split.
      { intros other Hne. rewrite Hother by exact Hne.
        subst st1. rewrite <- Hw. now apply setsOf_append_other. }
      split; [exact Hwk|].
      split; [unfold insertedSets in *; cbn; now rewrite Hrows|].
      split; [now rewrite Hvalues|now rewrite Hflags].
    + destruct (IH st b1)
        as (rs & st' & b' & tr & Hrun & Hreq & Hsets & Hsucc & Hother & Hwk
            & Hrows & Hvalues & Hflags).
      { congruence. }
      { exact Hfind. }
      exists (Result.fail (catch_message e "Failed to log set") :: rs), st', b',
             (exchange (InsertSet weid d) (PgError e) :: tr).
      unfold bind. rewrite run_pbind, Hrun. simpl. rewrite app_nil_r.
      split; [reflexivity|]. split.
      { unfold requests in *. cbn [map]. now rewrite Hreq. }
      split; [exact Hsets|]. split; [exact Hsucc|]. split; [exact Hother|].
      split; [congruence|].
      split; [unfold insertedSets in *; cbn; exact Hrows|].
      split; [now rewrite Hvalues|now rewrite Hflags].
Qed.

End LogSet.

Example sample_session_ids :
  map WorkoutExercise.id Sample.session.(exercises) = ["1"; "2"; "3"]
  /\ option_map Workout.id Sample.session.(workout) = Some "0".
Proof. vm_compute. split; reflexivity. Qed.

(** C1.  In an active session, for every backend and every sequence of
    [logSet] calls on a slot of the session: every call sends one insert
    (equal calls send equal inserts, none is merged) and returns the row the
    backend answered with, or a failure when the backend refused; the set
    list of the slot ends as the list it was followed by the rows the
    backend created, in the order of the calls, so it grows by one per
    insert the backend carried out and by nothing on a refusal; the lists of
    the other slots stay as they were.  With no active workout [logSet]
    fails with 'No active workout', sends nothing and leaves the state as it
    is, whatever exercises the state holds. *)
Theorem logSet_list_grows_by_inserts {B : Type} (h : Handler B) (b : B)
    (w : Workout.t) (exs : list WorkoutExercise.t) (l : bool)
    (err : option string) (weid : string) (calls : list NewWorkoutSet.t)
    (d : NewWorkoutSet.t) :
  (find (fun ex => (ex.(WorkoutExercise.id) =? weid)%string) exs <> None ->
   exists rs st' b' tr,
     run h (logSets weid calls (mkState (Some w) exs l err)) b
     = (Normal rs, st', b', tr)
     /\ requests tr = map (fun d => call (InsertSet weid d)) calls
     /\ map (fun r => r.(Result.success)) rs = map inserted_set tr
     /\ map (fun r => r.(Result.value)) rs = map answered_set tr
     /\ createdSets rs = insertedSets tr
     /\ setsOf weid st'
        = (setsOf weid (mkState (Some w) exs l err) ++ insertedSets tr)%list
     /\ length (insertedSets tr) = length (filter inserted_set tr)
     /\ length (setsOf weid st')
        = (length (setsOf weid (mkState (Some w) exs l err))
           + length (filter inserted_set tr))%nat
     /\ (forall other, other <> weid ->
         setsOf other st' = setsOf other (mkState (Some w) exs l err)))
  /\ run h (logSet weid d (mkState None exs l err)) b
     = (Normal (Result.fail "No active workout"), mkState None exs l err, b, []).
Proof.
  split; [|reflexivity]. intros Hfind.
  destruct (logSets_run h weid calls (mkState (Some w) exs l err) b)
    as (rs & st' & b' & tr & Hrun & Hreq & Hsets & Hlen & Hother & _
        & Hrows & Hvalues & Hflags).
  { discriminate. }
  { exact Hfind. }
  exists rs, st', b', tr.
  split; [exact Hrun|]. split; [exact Hreq|]. split; [exact Hflags|].
  split; [exact Hvalues|]. split; [exact Hrows|].
  split; [rewrite <- Hrows; exact Hsets|].
  split; [rewrite <- Hrows; exact Hlen|].
  split; [|exact Hother].
  rewrite Hsets, length_app, Hlen. reflexivity.
Qed.

(** The same set logged twice on the first slot of the sample session: two
    inserts, two rows, and the slot holds the two rows the store created. *)
Lemma logSet_list_grows_by_inserts_witness :
  find (fun ex => (ex.(WorkoutExercise.id) =? "1")%string)
       Sample.session.(exercises) <> None
  /\ (exists rs st' b' tr,
         run RefBackend.handle
           (logSets "1" [Sample.set_100x5 1; Sample.set_100x5 1] Sample.session)
           Sample.store
         = (Normal rs, st', b', tr)
         /\ setsOf "1" st' = insertedSets tr
         /\ map WorkoutSet.id (insertedSets tr) = ["4"; "5"]
         /\ length (filter inserted_set tr) = 2%nat).
Proof.
  assert (Hfind :
    find (fun ex => (ex.(WorkoutExercise.id) =? "1")%string)
         Sample.session.(exercises) <> None) by (vm_compute; discriminate).
  split; [exact Hfind|].
  destruct (proj1 (logSet_list_grows_by_inserts RefBackend.handle Sample.store
              (Workout.mk "0" "user-1" (Some "tpl-1") "Full Body"
                 "2024-03-01T18:30:00.000Z" None in_progress None
                 "2024-03-01T18:30:00.000Z" "2024-03-01T18:30:00.000Z")
              Sample.session.(exercises) false None "1"
              [Sample.set_100x5 1; Sample.set_100x5 1] (Sample.set_100x5 1)) Hfind)
    as (rs & st' & b' & tr & Hrun & _ & _ & _ & _ & Hsets & _).
  exists rs, st', b', tr.
  change (mkState _ (exercises Sample.session) false None) with Sample.session
    in Hrun, Hsets.
  split; [exact Hrun|]. split; [exact Hsets|].
  vm_compute in Hrun. inversion Hrun; subst. vm_compute. split; reflexivity.
Defined.

(** ** Failures *)

(** Case analysis on the answer of the backend to the next request. *)
Ltac answer h :=
  match goal with
  | |- context [h ?X DateNowISO ?b] =>
      let now := fresh "now" in
      let b1 := fresh "b" in
      destruct (h X DateNowISO b) as [now b1]
  | |- context [h ?X ?e ?b] =>
      let d := fresh "data" in
      let e1 := fresh "e" in
      let b1 := fresh "b" in
      destruct (h X e b) as [[d|e1] b1]
  end; cbn.

(** C4.  Whatever the backend and the state, when one of the eight mutations
    meets a refused request it completes normally (nothing is thrown) with
    [success] false and an error string.  The string is the message of the
    error the backend gave in the refused exchange when that error is an
    [Error], and the fallback text of the mutation otherwise.  The workout
    and the exercise list it holds are the ones it held before;
    [startWorkout] and [resumeWorkout] also put the string in the [error]
    of the state and end loading, the other six leave the state as it was.
    The refused exchange is the last of the trace and the only refused one:
    nothing is sent again. *)
Theorem mutation_failure_reported {B : Type} (h : Handler B) (b : B)
    (op : Op.t) (st : UseWorkoutState)
    (c : Completion (bool * option string)) (st' : UseWorkoutState) (b' : B)
    (tr : list Exchange) :
  run h (perform op st) b = (c, st', b', tr) ->
  existsb refused tr = true ->
  (exists e : PostgrestError,
     last_refusal tr = Some e
     /\ c = Normal (false,
                    Some (if e.(instanceof_Error) then e.(message)
                          else fallback op))
     /\ st' = (if keeps_error op
               then mkState st.(workout) st.(exercises) false
                      (Some (if e.(instanceof_Error) then e.(message)
                             else fallback op))
               else st))
  /\ (exists msg, c = Normal (false, Some msg))
  /\ st'.(workout) = st.(workout)
  /\ st'.(exercises) = st.(exercises)
  /\ stops_at_refusal tr = true.
Proof.
  destruct st as [wk exs l err].
  destruct op as [[u|] t| | | | | | |]; cbn;
    try (destruct wk as [w|]; cbn);
    repeat answer h;
    intros Hrun; inversion Hrun; subst; cbn; intros Href;
    try discriminate;
    (split; [eexists; repeat split
            |split; [eexists; reflexivity|repeat split]]).
Qed.

Lemma mutation_failure_reported_witness :
  existsb refused (snd SampleRuns.offline_logSet) = true
  /\ last_refusal (snd SampleRuns.offline_logSet) = Some Offline.refusal
  /\ fst (fst (fst SampleRuns.offline_logSet))
     = Normal (false, Some "Network request failed")
  /\ snd (fst (fst SampleRuns.offline_logSet)) = Sample.session
  /\ stops_at_refusal (snd SampleRuns.offline_logSet) = true.
Proof.
  split; [reflexivity|].
  destruct (mutation_failure_reported Offline.handle tt
              (Op.LogSet "1" (Sample.set_100x5 1)) Sample.session
              (fst (fst (fst SampleRuns.offline_logSet)))
              (snd (fst (fst SampleRuns.offline_logSet)))
              (snd (fst SampleRuns.offline_logSet))
              (snd SampleRuns.offline_logSet) eq_refl eq_refl)
    as [[e [He [Hc Hst]]] [_ [_ [_ Hstop]]]].
  assert (Some e = Some Offline.refusal) as Heq
    by (rewrite <- He; reflexivity).
  injection Heq as ->.
  split; [reflexivity|]. split; [exact Hc|]. split; [exact Hst|exact Hstop].
Defined.

(** ** Closing a session *)

Lemma update_where_ids {A : Type} (id_of : A -> string) (id : string)
    (patch : A -> A) (rows : list A) :
  (forall r, id_of (patch r) = id_of r) ->
  map id_of (RefBackend.update_where id_of id patch rows) = map id_of rows.
Proof.
  intros Hid. unfold RefBackend.update_where. rewrite map_map.
  apply map_ext. intros r. destruct (id_of r =? id)%string; [apply Hid|reflexivity].
Qed.

Lemma update_where_patched {A : Type} (id_of : A -> string) (id : string)
    (patch : A -> A) (P : A -> Prop) (rows : list A) :
  (forall r, P (patch r)) ->
  Forall (fun r => id_of r = id -> P r)
    (RefBackend.update_where id_of id patch rows).
Proof.
  intros Hpatch. unfold RefBackend.update_where.
  apply Forall_map, Forall_forall. intros r _.
  destruct (String.eqb_spec (id_of r) id) as [_|Hne]; [|contradiction].
  intros _. apply Hpatch.
Qed.

(** C6.  In an active session, when the backend carries out the update,
    [completeWorkout] has asked for status 'completed' and the current time
    as [completed_at] on the row of the held workout, returns success with
    the updated row, and leaves the state cleared: no workout, no exercises.
    [abandonWorkout] does the same with status 'abandoned'.  With no active
    workout both fail with 'No active workout' and send nothing.  On the
    store the two requests leave every row with the id of the workout with
    the new status and the time as [completed_at], and the table with the
    ids it had. *)
Theorem close_workout_clears_state {B : Type} (h : Handler B) (b b1 b2 b3 : B)
    (w : Workout.t) (exs : list WorkoutExercise.t) (l : bool)
    (err : option string) (notes : option string) (now : string)
    (data : Workout.t) (db : RefBackend.Db) (row : Workout.t) :
  h _ DateNowISO b = (now, b1) ->
  h _ (UpdateWorkoutReturning w.(Workout.id) completed now (or_null notes)) b1
    = (PgData data, b2) ->
  h _ (UpdateWorkout w.(Workout.id) abandoned now) b1 = (PgData tt, b3) ->
  filter (RefBackend.has_id Workout.id w.(Workout.id)) db.(RefBackend.workouts)
    = [row] ->
  run h (completeWorkout notes (mkState (Some w) exs l err)) b
  = (Normal (Result.ok (Some data)), mkState None [] false None, b2,
     [exchange DateNowISO now;
      exchange (UpdateWorkoutReturning w.(Workout.id) completed now (or_null notes))
               (PgData data)])
  /\ run h (abandonWorkout (mkState (Some w) exs l err)) b
     = (Normal (Result.ok None), mkState None [] false None, b3,
        [exchange DateNowISO now;
         exchange (UpdateWorkout w.(Workout.id) abandoned now) (PgData tt)])
  /\ run h (completeWorkout notes (mkState None exs l err)) b
     = (Normal (Result.fail "No active workout"), mkState None exs l err, b, [])
  /\ run h (abandonWorkout (mkState None exs l err)) b
     = (Normal (Result.fail "No active workout"), mkState None exs l err, b, [])
  /\ (exists db',
         RefBackend.handle _
           (UpdateWorkoutReturning w.(Workout.id) completed now (or_null notes)) db
         = (PgData (RefBackend.patch_workout completed now (or_null notes) row), db')
         /\ Forall (fun r => r.(Workout.id) = w.(Workout.id) ->
                             r.(Workout.status) = completed
                             /\ r.(Workout.completed_at) = Some now)
              db'.(RefBackend.workouts)
         /\ map Workout.id db'.(RefBackend.workouts)
            = map Workout.id db.(RefBackend.workouts))
  /\ (exists db',
         RefBackend.handle _ (UpdateWorkout w.(Workout.id) abandoned now) db
         = (PgData tt, db')
         /\ Forall (fun r => r.(Workout.id) = w.(Workout.id) ->
                             r.(Workout.status) = abandoned
                             /\ r.(Workout.completed_at) = Some now)
              db'.(RefBackend.workouts)
         /\ map Workout.id db'.(RefBackend.workouts)
            = map Workout.id db.(RefBackend.workouts)).
Proof.
  intros Hnow Hcomplete Habandon Hrow.
  split; [cbn; rewrite Hnow; cbn; rewrite Hcomplete; reflexivity|].
  split; [cbn; rewrite Hnow; cbn; rewrite Habandon; reflexivity|].
  split; [reflexivity|]. split; [reflexivity|]. split.
  - cbn. rewrite Hrow. eexists. split; [reflexivity|]. cbn. split.
    + apply update_where_patched. intros r. split; reflexivity.
    + apply update_where_ids. reflexivity.
  - cbn. eexists. split; [reflexivity|]. cbn. split.
    + apply (update_where_patched Workout.id (Workout.id w)
               (fun w0 => RefBackend.patch_workout abandoned now (Workout.notes w0) w0)
               (fun r => Workout.status r = abandoned
                         /\ Workout.completed_at r = Some now)).
      intros r. split; reflexivity.
    + apply update_where_ids. reflexivity.
Qed.

(** The sample session completed with empty notes, on the store. *)
Lemma close_workout_clears_state_witness :
  RefBackend.handle _ DateNowISO Sample.store = (SampleRows.now, Sample.store)
  /\ fst (RefBackend.handle _
            (UpdateWorkoutReturning "0" completed SampleRows.now (or_null (Some "")))
            Sample.store)
     = PgData (RefBackend.patch_workout completed SampleRows.now None
                 SampleRows.workout0)
  /\ fst (RefBackend.handle _ (UpdateWorkout "0" abandoned SampleRows.now)
            Sample.store)
     = PgData tt
  /\ filter (RefBackend.has_id Workout.id "0") Sample.store.(RefBackend.workouts)
     = [SampleRows.workout0]
  /\ snd (fst (fst (run RefBackend.handle
                      (completeWorkout (Some "") Sample.session) Sample.store)))
     = mkState None [] false None.
Proof.
  split; [reflexivity|]. split; [reflexivity|]. split; [reflexivity|].
  split; [reflexivity|].
  change Sample.session
    with (mkState (Some SampleRows.workout0) Sample.session.(exercises) false None)
    at 1.
  rewrite (proj1 (close_workout_clears_state RefBackend.handle
                    Sample.store Sample.store
                    (snd (RefBackend.handle _
                            (UpdateWorkoutReturning "0" completed SampleRows.now None)
                            Sample.store))
                    (snd (RefBackend.handle _
                            (UpdateWorkout "0" abandoned SampleRows.now)
                            Sample.store))
                    SampleRows.workout0 Sample.session.(exercises) false None
                    (Some "") SampleRows.now
                    (RefBackend.patch_workout completed SampleRows.now None
                       SampleRows.workout0)
                    Sample.store SampleRows.workout0
                    eq_refl eq_refl eq_refl eq_refl)).
  reflexivity.
Defined.

(** ** Mutations without a session *)

(** C10.  While no workout is held, [updateSet], [deleteSet] and
    [swapExercise] still send their request and, when the backend carries it
    out, return success with no error; [logSet], [completeWorkout] and
    [abandonWorkout] fail with 'No active workout' and send nothing.
    [resumeWorkout] and, for a signed-in user, [startWorkout] send their
    first request as well. *)
Theorem no_session_precondition {B : Type} (h : Handler B) (b b1 b2 b3 : B)
    (exs : list WorkoutExercise.t) (l : bool) (err : option string)
    (setId workoutExerciseId newExerciseId workoutId : string)
    (updates : PartialWorkoutSet.t) (updatedSet : WorkoutSet.t)
    (data : WorkoutExercise.t) (setData : NewWorkoutSet.t)
    (notes : option string) (user : User.t)
    (template : WorkoutTemplateWithExercises.t) :
  h _ (UpdateSet setId updates) b = (PgData updatedSet, b1) ->
  h _ (DeleteSet setId) b = (PgData tt, b2) ->
  h _ (UpdateWorkoutExercise workoutExerciseId newExerciseId true) b
    = (PgData data, b3) ->
  (exists st',
      run h (updateSet setId updates (mkState None exs l err)) b
      = (Normal (Result.mk true None None), st', b1,
         [exchange (UpdateSet setId updates) (PgData updatedSet)]))
  /\ (exists st',
         run h (deleteSet setId workoutExerciseId (mkState None exs l err)) b
         = (Normal (Result.mk true None None), st', b2,
            [exchange (DeleteSet setId) (PgData tt)]))
  /\ (exists st',
         run h (swapExercise workoutExerciseId newExerciseId
                  (mkState None exs l err)) b
         = (Normal (Result.mk true None None), st', b3,
            [exchange (UpdateWorkoutExercise workoutExerciseId newExerciseId true)
                      (PgData data)]))
  /\ run h (logSet workoutExerciseId setData (mkState None exs l err)) b
     = (Normal (Result.mk false (Some "No active workout") None),
        mkState None exs l err, b, [])
  /\ run h (completeWorkout notes (mkState None exs l err)) b
     = (Normal (Result.mk false (Some "No active workout") None),
        mkState None exs l err, b, [])
  /\ run h (abandonWorkout (mkState None exs l err)) b
     = (Normal (Result.mk false (Some "No active workout") None),
        mkState None exs l err, b, [])
  /\ (exists tr,
         requests (snd (run h (resumeWorkout workoutId (mkState None exs l err)) b))
         = call (SelectWorkout workoutId) :: tr)
  /\ (exists tr,
         requests (snd (run h (startWorkout (Some user) template
                                 (mkState None exs l err)) b))
         = call (InsertWorkout user.(User.id)
                   template.(WorkoutTemplateWithExercises.id)
                   template.(WorkoutTemplateWithExercises.name) in_progress)
           :: tr).
Proof.
  intros Hupdate Hdelete Hswap.
  repeat split.
  - eexists. cbn. rewrite Hupdate. reflexivity.
  - eexists. cbn. rewrite Hdelete. reflexivity.
  - eexists. cbn. rewrite Hswap. reflexivity.
  - cbn. repeat answer h; eexists; reflexivity.
  - cbn. repeat answer h; eexists; reflexivity.
Qed.

Lemma no_session_precondition_witness :
  fst (RefBackend.handle _ (UpdateSet "7" SampleRows.no_updates)
         SampleRows.store_with_set)
  = PgData (RefBackend.new_set
              (RefBackend.mk [] [] [] [] 7 SampleRows.now) "1"
              (Sample.set_100x5 1))
  /\ fst (RefBackend.handle _ (DeleteSet "7") SampleRows.store_with_set) = PgData tt
  /\ fst (RefBackend.handle _ (UpdateWorkoutExercise "1" "squat" true)
            SampleRows.store_with_set)
     = PgData (RefBackend.join_exercise SampleRows.store_with_set
                 (RefBackend.patch_exercise "squat" true SampleRows.slot1))
  /\ fst (fst (fst (run RefBackend.handle
                      (swapExercise "1" "squat" SampleRows.inactive)
                      SampleRows.store_with_set)))
     = Normal (Result.mk true None None)
  /\ fst (fst (fst (run RefBackend.handle
                      (logSet "1" (Sample.set_100x5 1) SampleRows.inactive)
                      SampleRows.store_with_set)))
     = Normal (Result.mk false (Some "No active workout") None).
Proof.
  split; [reflexivity|]. split; [reflexivity|]. split; [reflexivity|].
  pose proof
    (no_session_precondition RefBackend.handle SampleRows.store_with_set
       (snd (RefBackend.handle _ (UpdateSet "7" SampleRows.no_updates)
               SampleRows.store_with_set))
       (snd (RefBackend.handle _ (DeleteSet "7") SampleRows.store_with_set))
       (snd (RefBackend.handle _ (UpdateWorkoutExercise "1" "squat" true)
               SampleRows.store_with_set))
       Sample.session.(exercises) false None "7" "1" "squat" "0"
       SampleRows.no_updates
       (RefBackend.new_set (RefBackend.mk [] [] [] [] 7 SampleRows.now) "1"
          (Sample.set_100x5 1))
       (RefBackend.join_exercise SampleRows.store_with_set
          (RefBackend.patch_exercise "squat" true SampleRows.slot1))
       (Sample.set_100x5 1) None Sample.user Sample.template
       eq_refl eq_refl eq_refl)
    as (_ & _ & [st' Hswap] & Hlog & _).
  split.
  - unfold SampleRows.inactive. rewrite Hswap. reflexivity.
  - unfold SampleRows.inactive. rewrite Hlog. reflexivity.
Defined.

(** ** Swapping an exercise *)

Section Swap.

Lemma nth_error_map_slot {A : Type} (f : A -> A) (l : list A) (i : nat) (x : A) :
  nth_error l i = Some x -> nth_error (map f l) i = Some (f x).
Proof. intros H. rewrite nth_error_map, H. reflexivity. Qed.

End Swap.

(** C5.  For every backend and every state, when the backend carries out
    the update, [swapExercise] has sent that one request and no other (in
    particular none that inserts, rewrites or deletes set rows), and the
    exercise list keeps its length and order: every slot with the given id
    now holds the returned row with an empty set list (it agrees with the
    returned row on every field but [sets], which is the empty list), every
    other slot is what it was.  Run on the store, where the id names one
    row, the hook ends with the slot of that id holding the new exercise
    reference, [is_substitution] set, the catalogue entry of the new
    exercise, and the id, workout, [order_index], template reference, notes
    and creation time of the stored row, with no sets; the returned row is
    the stored row patched in the same way; the table of slots keeps its ids
    and the table of sets is untouched. *)
Theorem swapExercise_replaces_in_place {B : Type} (h : Handler B) (b b1 : B)
    (st : UseWorkoutState) (workoutExerciseId newExerciseId : string)
    (data : WorkoutExercise.t) (db : RefBackend.Db) (row : WorkoutExercise.t) :
  h _ (UpdateWorkoutExercise workoutExerciseId newExerciseId true) b
    = (PgData data, b1) ->
  filter (RefBackend.has_id WorkoutExercise.id workoutExerciseId)
         db.(RefBackend.workout_exercises) = [row] ->
  (exists st',
      run h (swapExercise workoutExerciseId newExerciseId st) b
      = (Normal (Result.ok None), st', b1,
         [exchange (UpdateWorkoutExercise workoutExerciseId newExerciseId true)
                   (PgData data)])
      /\ st'.(workout) = st.(workout)
      /\ length st'.(exercises) = length st.(exercises)
      /\ (forall i ex,
             nth_error st.(exercises) i = Some ex ->
             nth_error st'.(exercises) i
             = Some (if (ex.(WorkoutExercise.id) =? workoutExerciseId)%string
                     then WorkoutExercise.with_sets data (Some [])
                     else ex))
      /\ (WorkoutExercise.with_sets data (Some [])).(WorkoutExercise.sets) = Some []
      /\ (forall i ex,
             nth_error st.(exercises) i = Some ex ->
             ex.(WorkoutExercise.id) = workoutExerciseId ->
             exists slot,
               nth_error st'.(exercises) i = Some slot
               /\ WorkoutExercise.same_but_sets slot data
               /\ slot.(WorkoutExercise.sets) = Some [])
      /\ (forall i ex,
             nth_error st.(exercises) i = Some ex ->
             ex.(WorkoutExercise.id) <> workoutExerciseId ->
             nth_error st'.(exercises) i = Some ex))
  /\ forallb (fun c => negb (touches_sets c))
       (requests (snd (run h (swapExercise workoutExerciseId newExerciseId st) b)))
     = true
  /\ (exists stored db' st',
         RefBackend.handle _
           (UpdateWorkoutExercise workoutExerciseId newExerciseId true) db
         = (PgData stored, db')
         /\ stored.(WorkoutExercise.id) = workoutExerciseId
         /\ stored.(WorkoutExercise.exercise_id) = newExerciseId
         /\ stored.(WorkoutExercise.is_substitution) = true
         /\ stored.(WorkoutExercise.order_index) = row.(WorkoutExercise.order_index)
         /\ map WorkoutExercise.id db'.(RefBackend.workout_exercises)
            = map WorkoutExercise.id db.(RefBackend.workout_exercises)
         /\ db'.(RefBackend.workout_sets) = db.(RefBackend.workout_sets)
         /\ run RefBackend.handle
              (swapExercise workoutExerciseId newExerciseId st) db
            = (Normal (Result.ok None), st', db',
               [exchange
                  (UpdateWorkoutExercise workoutExerciseId newExerciseId true)
                  (PgData stored)])
         /\ (forall i ex,
                nth_error st.(exercises) i = Some ex ->
                ex.(WorkoutExercise.id) = workoutExerciseId ->
                exists slot,
                  nth_error st'.(exercises) i = Some slot
                  /\ slot.(WorkoutExercise.id) = workoutExerciseId
                  /\ slot.(WorkoutExercise.exercise_id) = newExerciseId
                  /\ slot.(WorkoutExercise.is_substitution) = true
                  /\ slot.(WorkoutExercise.exercise)
                     = find (fun e => (e.(Exercise.id) =? newExerciseId)%string)
                         db.(RefBackend.exercises)
                  /\ slot.(WorkoutExercise.workout_id)
                     = row.(WorkoutExercise.workout_id)
                  /\ slot.(WorkoutExercise.order_index)
                     = row.(WorkoutExercise.order_index)
                  /\ slot.(WorkoutExercise.template_exercise_id)
                     = row.(WorkoutExercise.template_exercise_id)
                  /\ slot.(WorkoutExercise.notes) = row.(WorkoutExercise.notes)
                  /\ slot.(WorkoutExercise.created_at)
                     = row.(WorkoutExercise.created_at)
                  /\ slot.(WorkoutExercise.sets) = Some [])
         /\ (forall i ex,
                nth_error st.(exercises) i = Some ex ->
                ex.(WorkoutExercise.id) <> workoutExerciseId ->
                nth_error st'.(exercises) i = Some ex)).
Proof.
  intros Hanswer Hrow.
  destruct st as [wk exs l err].
  assert (Hslots : forall d i ex,
             nth_error exs i = Some ex ->
             nth_error
               (map (fun ex => if (WorkoutExercise.id ex =? workoutExerciseId)%string
                               then WorkoutExercise.with_sets d (Some []) else ex)
                    exs) i
             = Some (if (ex.(WorkoutExercise.id) =? workoutExerciseId)%string
                     then WorkoutExercise.with_sets d (Some []) else ex)).
  { intros d i ex Hi.
    apply (nth_error_map_slot
             (fun ex => if (WorkoutExercise.id ex =? workoutExerciseId)%string
                        then WorkoutExercise.with_sets d (Some []) else ex)).
    exact Hi. }
  assert (Hin : In row (filter (RefBackend.has_id WorkoutExercise.id workoutExerciseId)
                          (RefBackend.workout_exercises db)))
    by (rewrite Hrow; left; reflexivity).
  apply filter_In in Hin. destruct Hin as [_ Hid].
  apply String.eqb_eq in Hid.
  split; [|split].
  - eexists. cbn. rewrite Hanswer. cbn.
    split; [reflexivity|]. cbn.
    split; [reflexivity|]. split; [apply length_map|].
    split; [apply Hslots|]. split; [reflexivity|]. split.
    + intros i ex Hi Hex. eexists. split.
      * pose proof (Hslots data i ex Hi) as Hs.
        apply String.eqb_eq in Hex. rewrite Hex in Hs. exact Hs.
      * split; [|reflexivity]. cbv [WorkoutExercise.same_but_sets]. cbn.
        repeat split.
    + intros i ex Hi Hex. pose proof (Hslots data i ex Hi) as Hs.
      apply String.eqb_neq in Hex. rewrite Hex in Hs. exact Hs.
  - cbn. rewrite Hanswer. reflexivity.
  - cbn -[WorkoutExercise.with_sets]. rewrite Hrow.
    eexists. eexists. eexists. split; [reflexivity|].
    cbn -[WorkoutExercise.with_sets].
    split; [exact Hid|]. split; [reflexivity|]. split; [reflexivity|].
    split; [reflexivity|].
    split; [apply update_where_ids; reflexivity|].
    split; [reflexivity|]. split; [reflexivity|]. split.
    + intros i ex Hi Hex. eexists. split.
      * pose proof (Hslots (RefBackend.join_exercise db
                              (RefBackend.patch_exercise newExerciseId true row))
                      i ex Hi) as Hs.
        apply String.eqb_eq in Hex. rewrite Hex in Hs. exact Hs.
      * cbn. repeat split. exact Hid.
    + intros i ex Hi Hex.
      pose proof (Hslots (RefBackend.join_exercise db
                            (RefBackend.patch_exercise newExerciseId true row))
                    i ex Hi) as Hs.
      apply String.eqb_neq in Hex. rewrite Hex in Hs. exact Hs.
Qed.

(** The bench press of the sample session, with two logged sets, swapped for
    squats: the slot holds the squat at its old place with no sets, the
    store still has both rows. *)
Lemma swapExercise_replaces_in_place_witness :
  RefBackend.handle _ (UpdateWorkoutExercise "1" "squat" true) SampleSwap.store
  = (PgData SampleSwap.swapped_row,
     snd (RefBackend.handle _ (UpdateWorkoutExercise "1" "squat" true)
            SampleSwap.store))
  /\ filter (RefBackend.has_id WorkoutExercise.id "1")
       SampleSwap.store.(RefBackend.workout_exercises) = [SampleRows.slot1]
  /\ length (setsOf "1" SampleSwap.session) = 2%nat
  /\ (exists st',
         run RefBackend.handle (swapExercise "1" "squat" SampleSwap.session)
           SampleSwap.store
         = (Normal (Result.ok None), st',
            snd (RefBackend.handle _ (UpdateWorkoutExercise "1" "squat" true)
                   SampleSwap.store),
            [exchange (UpdateWorkoutExercise "1" "squat" true)
                      (PgData SampleSwap.swapped_row)])
         /\ (exists slot,
                nth_error st'.(exercises) 0 = Some slot
                /\ slot.(WorkoutExercise.id) = "1"
                /\ slot.(WorkoutExercise.exercise_id) = "squat"
                /\ slot.(WorkoutExercise.is_substitution) = true
                /\ slot.(WorkoutExercise.order_index) = 0
                /\ slot.(WorkoutExercise.sets) = Some [])
         /\ length (RefBackend.workout_sets
                      (snd (RefBackend.handle _
                              (UpdateWorkoutExercise "1" "squat" true)
                              SampleSwap.store))) = 2%nat).
Proof.
  assert (H1 :
    RefBackend.handle _ (UpdateWorkoutExercise "1" "squat" true) SampleSwap.store
    = (PgData SampleSwap.swapped_row,
       snd (RefBackend.handle _ (UpdateWorkoutExercise "1" "squat" true)
              SampleSwap.store))) by reflexivity.
  assert (H2 :
    filter (RefBackend.has_id WorkoutExercise.id "1")
      SampleSwap.store.(RefBackend.workout_exercises) = [SampleRows.slot1])
    by reflexivity.
  split; [exact H1|]. split; [exact H2|]. split; [reflexivity|].
  destruct (swapExercise_replaces_in_place RefBackend.handle SampleSwap.store _
              SampleSwap.session "1" "squat" _ SampleSwap.store SampleRows.slot1
              H1 H2)
    as [_ [_ (stored & db' & st' & Hh & _ & _ & _ & _ & _ & _ & Hrun & Hlocal & _)]].
  rewrite H1 in Hh. injection Hh as <- <-.
  exists st'. split; [exact Hrun|].
  split; [|reflexivity].
  destruct (Hlocal 0%nat
              (WorkoutExercise.mk "1" "0" "bench" 0 (Some "te-1") false None
                 SampleRows.now (Some Sample.bench)
                 (Some [RefBackend.new_set
                          (RefBackend.mk [] [] [] [] 4 SampleRows.now) "1"
                          (Sample.set_100x5 1);
                        RefBackend.new_set
                          (RefBackend.mk [] [] [] [] 5 SampleRows.now) "1"
                          (Sample.set_100x5 2)])
                 (Some 3) (Some 5) None (Some 120))
              eq_refl eq_refl)
    as (slot & Hslot & Hi & He & Hs & _ & _ & Ho & _ & _ & _ & Hsets).
  exists slot. repeat split; assumption.
Defined.

(** ** The rest timer *)

Section RestTimerFacts.

Import RestTimer.

Lemma step_nonneg (s : State) (ev : Event) :
  0 <= s.(remainingSeconds) -> 0 <= (fst (step s ev)).(remainingSeconds).
Proof.
  intros H. destruct ev as [| |delta]; cbn.
  - unfold tick.
    destruct (negb (visible s) || isPaused s); cbn; [exact H|].
    destruct (Z.leb_spec (remainingSeconds s) 1); cbn; lia.
  - exact H.
  - unfold Math_max. lia.
Qed.

Lemma steps_nonneg (evs : list Event) :
  forall s, 0 <= s.(remainingSeconds) ->
            0 <= (fst (steps s evs)).(remainingSeconds).
Proof.
  induction evs as [|ev evs IH]; intros s H; cbn; [exact H|].
  pose proof (step_nonneg s ev H) as H1.
  destruct (step s ev) as [s1 out1]. cbn in H1.
  specialize (IH s1 H1).
  destruct (steps s1 evs) as [s2 out2]. exact IH.
Qed.

End RestTimerFacts.

(** C8, as stated, fails: a timer opened with ten seconds and taken to zero
    by the -15s button is visible and not paused, yet its next tick does not
    take one second off: zero stays zero. *)
Lemma tick_at_zero_takes_nothing_off :
  RestTimer.steps (RestTimer.open 10) [RestTimer.AdjustTime (-15)]
  = (RestTimer.mk true 10 0 false, [])
  /\ RestTimer.tick (RestTimer.mk true 10 0 false)
     = (RestTimer.mk false 10 0 false, [RestTimer.Vibrate; RestTimer.OnClose])
  /\ (fst (RestTimer.tick (RestTimer.mk true 10 0 false))).(RestTimer.remainingSeconds)
     <> (RestTimer.mk true 10 0 false).(RestTimer.remainingSeconds) - 1.
Proof. repeat split. discriminate. Qed.

(** C8, amended.  For every non-negative starting duration and every
    sequence of ticks, pause toggles and adjustments, the remaining seconds
    are never negative and no adjustment makes them so; a tick while paused
    changes nothing and signals nothing; a tick of the running timer takes
    exactly one second off while at least one is left and leaves zero at
    zero; and the tick that finds one second or none left sets the value to
    zero and signals completion by vibrating and closing, while a tick that
    finds more signals nothing. *)
Theorem rest_timer_countdown (d : Z) (evs : list RestTimer.Event) :
  0 <= d ->
  let s := fst (RestTimer.steps (RestTimer.open d) evs) in
  0 <= s.(RestTimer.remainingSeconds)
  /\ (forall delta, 0 <= (RestTimer.adjustTime delta s).(RestTimer.remainingSeconds))
  /\ (s.(RestTimer.isPaused) = true -> RestTimer.tick s = (s, []))
  /\ (s.(RestTimer.visible) = true -> s.(RestTimer.isPaused) = false ->
      1 <= s.(RestTimer.remainingSeconds) ->
      (fst (RestTimer.tick s)).(RestTimer.remainingSeconds)
      = s.(RestTimer.remainingSeconds) - 1)
  /\ (s.(RestTimer.visible) = true -> s.(RestTimer.isPaused) = false ->
      s.(RestTimer.remainingSeconds) = 0 ->
      (fst (RestTimer.tick s)).(RestTimer.remainingSeconds) = 0)
  /\ (s.(RestTimer.visible) = true -> s.(RestTimer.isPaused) = false ->
      s.(RestTimer.remainingSeconds) <= 1 ->
      RestTimer.tick s
      = (RestTimer.mk false s.(RestTimer.duration) 0 false,
         [RestTimer.Vibrate; RestTimer.OnClose]))
  /\ (s.(RestTimer.visible) = true -> s.(RestTimer.isPaused) = false ->
      1 < s.(RestTimer.remainingSeconds) ->
      snd (RestTimer.tick s) = []).
Proof.
  intros Hd s.
  assert (Hs : 0 <= s.(RestTimer.remainingSeconds))
    by (apply steps_nonneg; exact Hd).
  clearbody s. destruct s as [v dur rem p]. cbn in Hs.
  unfold RestTimer.tick, RestTimer.adjustTime, Math_max. cbn.
  repeat split.
  - exact Hs.
  - intros delta. lia.
  - intros ->. rewrite orb_true_r. reflexivity.
  - intros -> -> Hrem. cbn. destruct (Z.leb_spec rem 1); cbn; lia.
  - intros -> -> ->. reflexivity.
  - intros -> -> Hrem. cbn. destruct (Z.leb_spec rem 1); [reflexivity|lia].
  - intros -> -> Hrem. cbn. destruct (Z.leb_spec rem 1); [lia|reflexivity].
Qed.

(** Ninety seconds, running for two ticks, then paused: 88 seconds are
    left and a further tick changes nothing. *)
Lemma rest_timer_countdown_witness :
  0 <= 90
  /\ fst (RestTimer.steps (RestTimer.open 90)
            [RestTimer.Tick; RestTimer.Tick; RestTimer.PressPause])
     = RestTimer.mk true 90 88 true
  /\ 0 <= (fst (RestTimer.steps (RestTimer.open 90)
                  [RestTimer.Tick; RestTimer.Tick; RestTimer.PressPause]))
            .(RestTimer.remainingSeconds)
  /\ RestTimer.tick
       (fst (RestTimer.steps (RestTimer.open 90)
               [RestTimer.Tick; RestTimer.Tick; RestTimer.PressPause]))
     = (fst (RestTimer.steps (RestTimer.open 90)
               [RestTimer.Tick; RestTimer.Tick; RestTimer.PressPause]), []).
Proof.
  assert (Hd : 0 <= 90) by lia.
  destruct (rest_timer_countdown 90
              [RestTimer.Tick; RestTimer.Tick; RestTimer.PressPause] Hd)
    as (Hnonneg & _ & Hpaused & _).
  split; [exact Hd|]. split; [reflexivity|]. split; [exact Hnonneg|].
  apply Hpaused. reflexivity.
Defined.

(** ** Deleting a set *)

Section DeleteSet.

Context {B : Type} (h : Handler B).

Lemma removeSet_id setId weid ex :
  WorkoutExercise.id (removeSet setId weid ex) = WorkoutExercise.id ex.
Proof.
  unfold removeSet. destruct (WorkoutExercise.id ex =? weid)%string; reflexivity.
Qed.

Lemma setsOf_remove_same setId weid st :
  setsOf weid
    (mkState st.(workout) (map (removeSet setId weid) st.(exercises))
       st.(loading) st.(error))
  = filter (fun s => negb (s.(WorkoutSet.id) =? setId)%string) (setsOf weid st).
Proof.
  unfold setsOf. simpl.
  rewrite (find_map_id _ _ _ (removeSet_id setId weid)).
  destruct (find _ (exercises st)) as [ex|] eqn:Hex; [|reflexivity].
  apply find_some in Hex. destruct Hex as [_ Hid].
  simpl. unfold removeSet. rewrite Hid. simpl.
  destruct (WorkoutExercise.sets ex); reflexivity.
Qed.

Lemma setsOf_remove_other setId weid other st :
  other <> weid ->
  setsOf other
    (mkState st.(workout) (map (removeSet setId weid) st.(exercises))
       st.(loading) st.(error))
  = setsOf other st.
Proof.
  unfold setsOf. simpl. intros Hne.
  rewrite (find_map_id _ _ _ (removeSet_id setId weid)).
  destruct (find _ (exercises st)) as [ex|] eqn:Hex; [|reflexivity].
  apply find_some in Hex. destruct Hex as [_ Hid].
  apply String.eqb_eq in Hid.
  simpl. unfold removeSet.
  destruct (String.eqb_spec (WorkoutExercise.id ex) weid) as [Heq|_];
    [congruence|reflexivity].
Qed.

(** One [deleteSet], by the answer of the backend. *)
Lemma deleteSet_run (setId weid : string) (st : UseWorkoutState) (b : B) :
  run h (deleteSet setId weid st) b
  = match h _ (DeleteSet setId) b with
    | (PgData u, b1) =>
        (Normal (Result.ok None),
         mkState st.(workout) (map (removeSet setId weid) st.(exercises))
           st.(loading) st.(error),
         b1, [exchange (DeleteSet setId) (PgData u)])
    | (PgError e, b1) =>
        (Normal (Result.fail (catch_message e "Failed to delete set")),
         st, b1, [exchange (DeleteSet setId) (PgError e)])
    end.
Proof.
  destruct st as [wk exs l err]. cbn.
  destruct (h _ (DeleteSet setId) b) as [[u|e] b1]; reflexivity.
Qed.

Lemma filteri_drop_length {A : Type} (index : nat) (l : list A) :
  forall k,
    (k <= index < k + length l)%nat ->
    S (length (filteri (fun _ i => negb (i =? index)%nat) k l)) = length l.
Proof.
  induction l as [|x l IH]; intros k Hk; cbn in *; [lia|].
  destruct (Nat.eqb_spec k index) as [->|Hne]; cbn.
  - clear IH Hk. f_equal.
    assert (Hall : forall (l : list A) k, (index < k)%nat ->
              length (filteri (fun _ i => negb (i =? index)%nat) k l) = length l).
    { clear. induction l as [|y l IH]; intros k Hk; cbn; [reflexivity|].
      destruct (Nat.eqb_spec k index) as [->|_]; [lia|].
      cbn. f_equal. apply IH. lia. }
    apply Hall. lia.
  - f_equal. apply IH. lia.
Qed.

Lemma mapi_length {A C : Type} (f : A -> nat -> C) (l : list A) :
  forall k, length (mapi f k l) = length l.
Proof.
  induction l as [|x l IH]; intros k; cbn; [reflexivity|].
  f_equal. apply IH.
Qed.

Lemma mapi_setNumber (rows : list SetRowData.t) :
  forall k,
    map SetRowData.setNumber
      (mapi (fun s i => SetRowData.with_setNumber s (Z.of_nat i + 1)) k rows)
    = map (fun i => Z.of_nat i + 1) (seq k (length rows)).
Proof.
  induction rows as [|r rows IH]; intros k; cbn; [reflexivity|].
  f_equal. apply IH.
Qed.

(** [handleDeleteSet] on a row that exists: whatever the backend says,
    the rows that remain are numbered from one. *)
Lemma handleDeleteSet_rows (workoutExercise : WorkoutExercise.t) (index : nat)
    (sets : list SetRowData.t) (st : UseWorkoutState) (b : B) :
  (index < length sets)%nat ->
  exists rows' st' b' tr,
    run h (handleDeleteSet workoutExercise index sets st) b
    = (Normal rows', st', b', tr)
    /\ S (length rows') = length sets
    /\ map SetRowData.setNumber rows' = one_to (length rows').
Proof.
  intros Hlt. unfold handleDeleteSet.
  destruct (nth_error sets index) as [set|] eqn:Hset;
    [|apply nth_error_None in Hset; lia].
  set (rows' := mapi (fun s i => SetRowData.with_setNumber s (Z.of_nat i + 1)) 0%nat
                  (filteri (fun _ i => negb (i =? index)%nat) 0%nat sets)).
  assert (Hlen : S (length rows') = length sets).
  { subst rows'. rewrite mapi_length. apply filteri_drop_length. lia. }
  assert (Hnum : map SetRowData.setNumber rows' = one_to (length rows')).
  { unfold one_to. subst rows'. rewrite mapi_setNumber, mapi_length.
    reflexivity. }
  destruct (SetRowData.isCompleted set && truthyString (SetRowData.setId set)).
  - unfold bind. rewrite !run_pbind. rewrite deleteSet_run.
    destruct (h _ (DeleteSet _) b) as [[u|e] b1]; cbn;
      do 4 eexists; (split; [reflexivity|split; assumption]).
  - cbn. do 4 eexists. split; [reflexivity|split; assumption].
Qed.

End DeleteSet.

(** What a deletion does on each side, for every backend and state.
    Deleting a row of the card that exists leaves the rows that remain
    numbered 1..N, whatever the backend answers.  In the list the session
    holds for the slot, a [deleteSet] the backend carried out removes the
    sets with the given id and keeps every other set as it was, set number
    included; the lists of the other slots are not touched. *)
Lemma deletion_on_both_sides {B : Type} (h : Handler B) (b : B)
    (st : UseWorkoutState) (workoutExercise : WorkoutExercise.t) (index : nat)
    (sets : list SetRowData.t) (setId workoutExerciseId : string) :
  ((index < length sets)%nat ->
   exists rows' st' b' tr,
     run h (handleDeleteSet workoutExercise index sets st) b
     = (Normal rows', st', b', tr)
     /\ S (length rows') = length sets
     /\ map SetRowData.setNumber rows' = one_to (length rows'))
  /\ (forall b1,
         h _ (DeleteSet setId) b = (PgData tt, b1) ->
         exists st',
           run h (deleteSet setId workoutExerciseId st) b
           = (Normal (Result.ok None), st', b1,
              [exchange (DeleteSet setId) (PgData tt)])
           /\ setsOf workoutExerciseId st'
              = filter (fun s => negb (s.(WorkoutSet.id) =? setId)%string)
                  (setsOf workoutExerciseId st)
           /\ (forall other, other <> workoutExerciseId ->
               setsOf other st' = setsOf other st)).
Proof.
  split.
  - intros Hlt. apply handleDeleteSet_rows. exact Hlt.
  - intros b1 Hanswer. eexists. rewrite deleteSet_run, Hanswer.
    split; [reflexivity|]. split.
    + apply setsOf_remove_same.
    + intros other Hne. apply setsOf_remove_other. exact Hne.
Qed.

(** C3.  The code does not do what the claim says of the session-level
    list.  A slot holds the saved sets 1, 2, 3 (ids 4, 5, 6) and the first
    row of its card is deleted.  The rows of the card are renumbered 1, 2,
    but [deleteSet] only drops the set: the sets the session holds, and the
    rows of the store, stay numbered 2, 3.  The card goes on from its own
    numbers: "Add Set" makes a row numbered 3, saving it inserts a second
    set numbered 3, and the session and the store then hold the numbers
    2, 3, 3.  Mounted again, the card looks the sets up by number: row 1
    shows as not saved, rows 2 and 3 show the sets 5 and 6, and the set
    just saved (id 7) is on no row. *)
Theorem deleteSet_leaves_set_numbers :
  map SampleRenumber.numbered_set (setsOf "1" SampleDelete.session)
  = [("4", 1); ("5", 2); ("6", 3)]
  /\ map SampleRenumber.shown SampleDelete.rows
     = [(1, true, Some "4"); (2, true, Some "5"); (3, true, Some "6")]
  /\ requests (snd SampleDelete.deleted) = [call (DeleteSet "4")]
  /\ map SampleRenumber.shown SampleDelete.rows_after
     = [(1, true, Some "5"); (2, true, Some "6")]
  /\ map SampleRenumber.numbered_set (setsOf "1" SampleDelete.session_after)
     = [("5", 2); ("6", 3)]
  /\ map WorkoutSet.set_number (setsOf "1" SampleDelete.session_after)
     <> one_to 2
  /\ map SampleRenumber.numbered_set
       SampleRenumber.store_after.(RefBackend.workout_sets)
     = [("5", 2); ("6", 3)]
  /\ map SampleRenumber.shown SampleRenumber.rows_added
     = [(1, true, Some "5"); (2, true, Some "6"); (3, false, None)]
  /\ requests (snd SampleRenumber.saved)
     = [call (InsertSet "1"
                (NewWorkoutSet.mk 3 (Some 100%Q) (Some 5) None (Some false)
                   None None (Some 5)))]
  /\ map SampleRenumber.shown SampleRenumber.rows_saved
     = [(1, true, Some "5"); (2, true, Some "6"); (3, true, Some "7")]
  /\ map SampleRenumber.numbered_set (setsOf "1" SampleRenumber.session_saved)
     = [("5", 2); ("6", 3); ("7", 3)]
  /\ map SampleRenumber.numbered_set
       SampleRenumber.store_saved.(RefBackend.workout_sets)
     = [("5", 2); ("6", 3); ("7", 3)]
  /\ map SampleRenumber.shown SampleRenumber.remounted
     = [(1, false, None); (2, true, Some "5"); (3, true, Some "6")]
  /\ ~ In (Some "7") (map SetRowData.setId SampleRenumber.remounted).
Proof.
  assert (Hafter :
    map WorkoutSet.set_number (setsOf "1" SampleDelete.session_after) = [2; 3])
    by reflexivity.
  assert (Hshown :
    map SetRowData.setId SampleRenumber.remounted = [None; Some "5"; Some "6"])
    by reflexivity.
  repeat match goal with |- _ /\ _ => split end; try reflexivity.
  - rewrite Hafter. discriminate.
  - rewrite Hshown. cbn. intros [H|[H|[H|[]]]]; discriminate.
Qed.

(** ** Starting a workout on the store *)

Section StartThenLog.

Lemma mk_id_inj (a b : nat) : RefBackend.mk_id a = RefBackend.mk_id b -> a = b.
Proof.
  unfold RefBackend.mk_id. intros H.
  apply (f_equal NilEmpty.uint_of_string) in H.
  rewrite !NilEmpty.usu in H. injection H as H.
  apply (f_equal Nat.of_uint) in H.
  now rewrite !DecimalNat.Unsigned.of_to in H.
Qed.

Lemma map_mapi {A C D : Type} (g : C -> D) (f : A -> nat -> C) (l : list A) :
  forall k, map g (mapi f k l) = mapi (fun x i => g (f x i)) k l.
Proof.
  induction l as [|x l IH]; intros k; cbn; [reflexivity|].
  f_equal. apply IH.
Qed.

Lemma mapi_no_index {A C : Type} (g : A -> C) (l : list A) :
  forall k, mapi (fun x _ => g x) k l = map g l.
Proof.
  induction l as [|x l IH]; intros k; cbn; [reflexivity|].
  f_equal. apply IH.
Qed.

Lemma mapi_index_only {A C : Type} (g : nat -> C) (l : list A) :
  forall k, mapi (fun _ i => g i) k l = map g (seq k (length l)).
Proof.
  induction l as [|x l IH]; intros k; cbn; [reflexivity|].
  f_equal. apply IH.
Qed.

Variable user : User.t.
Variable template : WorkoutTemplateWithExercises.t.
Variable db : RefBackend.Db.

(** The exercise list [startWorkout] ends with, given the store after its
    first insert and the id of the new workout. *)
Lemma startWorkout_on_store :
  exists w db1 db2 tr,
    run RefBackend.handle (startWorkout (Some user) template initialState) db
    = (Normal (Result.ok (Some w.(Workout.id))),
       mkState (Some w)
         (map (withTargets template)
            (map (RefBackend.join_exercise db1)
               (mapi (RefBackend.new_workout_exercise db1) 0%nat
                  (plannedRows w.(Workout.id) template))))
         false None,
       db2, tr)
    /\ w.(Workout.status) = in_progress
    /\ w.(Workout.user_id) = user.(User.id)
    /\ db2.(RefBackend.next_id)
       = (db1.(RefBackend.next_id)
          + length template.(WorkoutTemplateWithExercises.template_exercises))%nat.
Proof.
  do 4 eexists. split; [reflexivity|]. cbn.
  split; [reflexivity|]. split; [reflexivity|].
  unfold plannedRows. rewrite length_map. reflexivity.
Qed.

Variable db1 : RefBackend.Db.
Variable workout_id : string.


Lemma started_exercise_ids :
  map WorkoutExercise.exercise_id (startedExercises template db1 workout_id)
  = map TemplateExercise.exercise_id
      template.(WorkoutTemplateWithExercises.template_exercises).
Proof.
  unfold startedExercises, plannedRows.
  rewrite !map_map, map_mapi. cbn.
  rewrite mapi_no_index, map_map. reflexivity.
Qed.

Lemma started_template_ids :
  map WorkoutExercise.template_exercise_id (startedExercises template db1 workout_id)
  = map (fun te => Some te.(TemplateExercise.id))
      template.(WorkoutTemplateWithExercises.template_exercises).
Proof.
  unfold startedExercises, plannedRows.
  rewrite !map_map, map_mapi. cbn.
  rewrite mapi_no_index, map_map. reflexivity.
Qed.

Lemma started_ids :
  map WorkoutExercise.id (startedExercises template db1 workout_id)
  = map (fun i => RefBackend.mk_id (db1.(RefBackend.next_id) + i))
      (seq 0 (length template.(WorkoutTemplateWithExercises.template_exercises))).
Proof.
  unfold startedExercises, plannedRows.
  rewrite !map_map, map_mapi. cbn.
  rewrite (mapi_index_only
             (fun i => RefBackend.mk_id (RefBackend.next_id db1 + i))).
  rewrite length_map. reflexivity.
Qed.

Lemma started_sets_empty :
  Forall (fun ex => ex.(WorkoutExercise.sets) = Some []) (startedExercises template db1 workout_id).
Proof.
  unfold startedExercises. apply Forall_map, Forall_forall.
  intros ex _. reflexivity.
Qed.

Lemma started_targets (n : Z) :
  Forall (fun te => te.(TemplateExercise.target_sets) = n)
    template.(WorkoutTemplateWithExercises.template_exercises) ->
  Forall (fun ex => ex.(WorkoutExercise.targetSets) = Some n) (startedExercises template db1 workout_id).
Proof.
  intros Hall.
  assert (Hids := started_exercise_ids).
  unfold startedExercises in *.
  set (rows := map (RefBackend.join_exercise db1) _) in *.
  clearbody rows. rewrite map_map in Hids.
  apply Forall_map, Forall_forall. intros ex Hex.
  unfold withTargets. cbn.
  destruct (find _ _) as [te|] eqn:Hfind.
  - apply find_some in Hfind. destruct Hfind as [Hin _].
    rewrite Forall_forall in Hall. cbn. now rewrite (Hall te Hin).
  - exfalso.
    assert (Hin : In (WorkoutExercise.exercise_id ex)
                    (map TemplateExercise.exercise_id
                       (WorkoutTemplateWithExercises.template_exercises template))).
    { rewrite <- Hids. apply in_map_iff. exists ex. split; [|exact Hex].
      reflexivity. }
    apply in_map_iff in Hin. destruct Hin as (te & Heq & Hin).
    apply (find_none _ _ Hfind) in Hin. cbn in Hin.
    rewrite Heq, String.eqb_refl in Hin. discriminate.
Qed.

End StartThenLog.

Section LogOnFirst.

Lemma all_sets_none (exs : list WorkoutExercise.t) :
  Forall (fun ex => ex.(WorkoutExercise.sets) = Some []) exs -> all_sets exs = [].
Proof.
  induction 1 as [|ex exs Hex _ IH]; [reflexivity|].
  unfold all_sets in *. cbn. rewrite Hex, IH. reflexivity.
Qed.

Lemma appendSet_elsewhere (weid : string) (s : WorkoutSet.t)
    (exs : list WorkoutExercise.t) :
  ~ In weid (map WorkoutExercise.id exs) -> map (appendSet weid s) exs = exs.
Proof.
  intros Hnot. rewrite <- (map_id exs) at 2. apply map_ext_in.
  intros ex Hex. unfold appendSet.
  destruct (String.eqb_spec (WorkoutExercise.id ex) weid) as [Heq|_]; [|reflexivity].
  exfalso. apply Hnot. rewrite <- Heq. now apply in_map.
Qed.

Lemma stats_after_first_set (wk : option Workout.t) (first : WorkoutExercise.t)
    (rest : list WorkoutExercise.t) (l : bool) (err : option string)
    (s : WorkoutSet.t) :
  Forall (fun ex => ex.(WorkoutExercise.sets) = Some []) (first :: rest) ->
  ~ In first.(WorkoutExercise.id) (map WorkoutExercise.id rest) ->
  s.(WorkoutSet.is_warmup) = false ->
  s.(WorkoutSet.weight_kg) = Some (100 # 1)%Q ->
  s.(WorkoutSet.reps) = Some 5 ->
  let st2 :=
    mkState wk (map (appendSet first.(WorkoutExercise.id) s) (first :: rest)) l err in
  totalVolume (getWorkoutStats st2) = 500 /\ totalSets (getWorkoutStats st2) = 1.
Proof.
  intros Hempty Hnot Hwarm Hweight Hreps st2.
  assert (Hall : all_sets st2.(exercises) = [s]).
  { subst st2. cbn [exercises map].
    rewrite (appendSet_elsewhere _ _ _ Hnot).
    inversion Hempty as [|? ? Hfirst Hrest]; subst.
    unfold appendSet. rewrite String.eqb_refl.
    pose proof (all_sets_none rest Hrest) as Hnone.
    unfold all_sets in *. cbn. rewrite Hfirst. cbn.
    now rewrite Hnone. }
  assert (Hworking : filter is_working (all_sets st2.(exercises)) = [s]).
  { rewrite Hall. cbn. unfold is_working. rewrite Hwarm. reflexivity. }
  assert (Hexact : exact_volume 0 st2.(exercises)).
  { split; [lia|]. unfold abs_volume. rewrite Hworking. split.
    - repeat constructor. rewrite Hweight. exists 100. vm_compute. reflexivity.
    - cbn. unfold spec_setVolume. rewrite Hweight, Hreps. vm_compute. reflexivity. }
  split.
  - rewrite (totalVolume_round st2.(exercises) st2 eq_refl).
    rewrite (Math_round_comp _ _ (double_volume_exact 0 _ Hexact)).
    unfold spec_volume. rewrite Hworking. cbn.
    unfold spec_setVolume. rewrite Hweight, Hreps. reflexivity.
  - unfold getWorkoutStats. cbn [totalSets].
    rewrite totalSets_fold. unfold spec_totalSets. rewrite Hall. cbn.
    unfold is_working. rewrite Hwarm. reflexivity.
Qed.

End LogOnFirst.

(** C9.  On the store, for a signed-in user and a template of three
    exercises with three target sets each, [startWorkout] succeeds and the
    session holds the new workout and three exercises, one for each template
    exercise in template order, each with [targetSets] 3 and an empty set
    list; a set of 100 kg for 5 reps, not a warmup, then logged on the first
    of them is created, and [getWorkoutStats] gives a total volume of 500
    and one set. *)
Theorem start_three_then_log_one (user : User.t)
    (template : WorkoutTemplateWithExercises.t) (db : RefBackend.Db)
    (setData : NewWorkoutSet.t) :
  length template.(WorkoutTemplateWithExercises.template_exercises) = 3%nat ->
  Forall (fun te => te.(TemplateExercise.target_sets) = 3)
    template.(WorkoutTemplateWithExercises.template_exercises) ->
  setData.(NewWorkoutSet.weight_kg) = Some (100 # 1)%Q ->
  setData.(NewWorkoutSet.reps) = Some 5 ->
  setData.(NewWorkoutSet.is_warmup) <> Some true ->
  exists w st db1 tr,
    run RefBackend.handle (startWorkout (Some user) template initialState) db
    = (Normal (Result.ok (Some w.(Workout.id))), st, db1, tr)
    /\ st.(workout) = Some w
    /\ w.(Workout.status) = in_progress
    /\ length st.(exercises) = 3%nat
    /\ map WorkoutExercise.exercise_id st.(exercises)
       = map TemplateExercise.exercise_id
           template.(WorkoutTemplateWithExercises.template_exercises)
    /\ map WorkoutExercise.template_exercise_id st.(exercises)
       = map (fun te => Some te.(TemplateExercise.id))
           template.(WorkoutTemplateWithExercises.template_exercises)
    /\ Forall (fun ex => ex.(WorkoutExercise.targetSets) = Some 3
                         /\ ex.(WorkoutExercise.sets) = Some [])
         st.(exercises)
    /\ exists first rest newSet st2 db2 tr2,
         st.(exercises) = first :: rest
         /\ run RefBackend.handle (logSet first.(WorkoutExercise.id) setData st) db1
            = (Normal (Result.ok (Some newSet)), st2, db2, tr2)
         /\ totalVolume (getWorkoutStats st2) = 500
         /\ totalSets (getWorkoutStats st2) = 1.
Proof.
  intros Hlen Htargets Hweight Hreps Hwarm.
  destruct (startWorkout_on_store user template db)
    as (w & db1 & db2 & tr & Hrun & Hstatus & _ & _).
  fold (startedExercises template db1 w.(Workout.id)) in Hrun.
  pose proof (started_exercise_ids template db1 w.(Workout.id)) as Heids.
  pose proof (started_template_ids template db1 w.(Workout.id)) as Htids.
  pose proof (started_ids template db1 w.(Workout.id)) as Hids.
  pose proof (started_sets_empty template db1 w.(Workout.id)) as Hsets.
  pose proof (started_targets template db1 w.(Workout.id) 3 Htargets) as Htgt.
  set (exs := startedExercises template db1 w.(Workout.id)) in *.
  clearbody exs.
  exists w, (mkState (Some w) exs false None), db2, tr.
  split; [exact Hrun|]. split; [reflexivity|]. split; [exact Hstatus|].
  assert (Hn : length exs = 3%nat).
  { rewrite <- Hlen, <- (length_map WorkoutExercise.exercise_id exs), Heids.
    apply length_map. }
  split; [exact Hn|]. split; [exact Heids|]. split; [exact Htids|].
  split.
  { rewrite Forall_forall in *. intros ex Hex. split; auto. }
  rewrite Hlen in Hids.
  destruct exs as [|first rest]; [discriminate|].
  cbn in Hids. injection Hids as Hfirst Hrest.
  exists first, rest, (RefBackend.new_set db2 first.(WorkoutExercise.id) setData).
  do 3 eexists.
  split; [reflexivity|].
  rewrite logSet_run. cbn [workout RefBackend.handle].
  split; [reflexivity|].
  apply stats_after_first_set.
  - exact Hsets.
  - rewrite Hrest, Hfirst. intros Hin.
    cbn in Hin. destruct Hin as [Hin|[Hin|[]]]; apply mk_id_inj in Hin; lia.
  - cbn. destruct (NewWorkoutSet.is_warmup setData) as [[|]|]; cbn; congruence.
  - exact Hweight.
  - exact Hreps.
Qed.


Lemma start_three_then_log_one_witness :
  length Sample.template.(WorkoutTemplateWithExercises.template_exercises) = 3%nat
  /\ Forall (fun te => te.(TemplateExercise.target_sets) = 3)
       Sample.template.(WorkoutTemplateWithExercises.template_exercises)
  /\ (Sample.set_100x5 1).(NewWorkoutSet.weight_kg) = Some (100 # 1)%Q
  /\ (Sample.set_100x5 1).(NewWorkoutSet.reps) = Some 5
  /\ (Sample.set_100x5 1).(NewWorkoutSet.is_warmup) <> Some true
  /\ exists w st db1 tr,
       run RefBackend.handle
         (startWorkout (Some Sample.user) Sample.template initialState) Sample.db
       = (Normal (Result.ok (Some w.(Workout.id))), st, db1, tr)
       /\ st.(workout) = Some w
       /\ w.(Workout.status) = in_progress
       /\ length st.(exercises) = 3%nat
       /\ map WorkoutExercise.exercise_id st.(exercises)
          = map TemplateExercise.exercise_id
              Sample.template.(WorkoutTemplateWithExercises.template_exercises)
       /\ map WorkoutExercise.template_exercise_id st.(exercises)
          = map (fun te => Some te.(TemplateExercise.id))
              Sample.template.(WorkoutTemplateWithExercises.template_exercises)
       /\ Forall (fun ex => ex.(WorkoutExercise.targetSets) = Some 3
                            /\ ex.(WorkoutExercise.sets) = Some [])
            st.(exercises)
       /\ exists first rest newSet st2 db2 tr2,
            st.(exercises) = first :: rest
            /\ run RefBackend.handle
                 (logSet first.(WorkoutExercise.id) (Sample.set_100x5 1) st) db1
               = (Normal (Result.ok (Some newSet)), st2, db2, tr2)
            /\ totalVolume (getWorkoutStats st2) = 500
            /\ totalSets (getWorkoutStats st2) = 1.
Proof.
  split; [reflexivity|]. split; [repeat constructor|].
  split; [reflexivity|]. split; [reflexivity|]. split; [discriminate|].
  apply (start_three_then_log_one Sample.user Sample.template Sample.db
           (Sample.set_100x5 1)).
  - reflexivity.
  - repeat constructor.
  - reflexivity.
  - reflexivity.
  - discriminate.
Defined.

(** The example of the specification, run: three slots with three target
    sets each, then 500 kg of volume in one set. *)
Example sample_start_then_log_run :
  map WorkoutExercise.targetSets Sample.session.(exercises)
  = [Some 3; Some 3; Some 3]
  /\ map WorkoutExercise.exercise_id Sample.session.(exercises)
     = ["bench"; "squat"; "row"]
  /\ (let '(_, st2, _, _) :=
        run RefBackend.handle (logSet "1" (Sample.set_100x5 1) Sample.session)
          Sample.store in
      (totalVolume (getWorkoutStats st2), totalSets (getWorkoutStats st2)))
     = (500, 1).
Proof. repeat split. Qed.

Example previous_sets_sample :
  map PreviousSetData.set_number SamplePrevious.result = [1; 2]
  /\ map PreviousSetData.weight_kg SamplePrevious.result = [95%Q; 100%Q]
  /\ option_map Workout.id (most_recent SamplePrevious.db "user-1" "bench")
     = Some "w-new".
Proof. vm_compute. repeat split. Qed.

(** ** Looking up the previous sets *)

Section Orders.

Lemma string_leb_trans (a b c : string) :
  (a <=? b)%string = true -> (b <=? c)%string = true -> (a <=? c)%string = true.
Proof.
  unfold String.leb. revert b c.
  induction a as [|x a IH]; intros [|y b] [|z c]; cbn; try congruence.
  unfold Ascii.compare.
  destruct (N.compare_spec (N_of_ascii x) (N_of_ascii y)) as [Hxy|Hxy|Hxy];
    destruct (N.compare_spec (N_of_ascii y) (N_of_ascii z)) as [Hyz|Hyz|Hyz];
    try congruence; intros H1 H2.
  - rewrite Hxy, Hyz, N.compare_refl. now apply (IH b c).
  - rewrite Hxy. now rewrite (proj2 (N.compare_lt_iff _ _) Hyz).
  - rewrite <- Hyz. now rewrite (proj2 (N.compare_lt_iff _ _) Hxy).
  - now rewrite (proj2 (N.compare_lt_iff _ _) (N.lt_trans _ _ _ Hxy Hyz)).
Qed.

Lemma completed_not_before_total (a b : Workout.t) :
  RefBackend.completed_not_before a b = true
  \/ RefBackend.completed_not_before b a = true.
Proof.
  unfold RefBackend.completed_not_before.
  destruct (Workout.completed_at a) as [x|], (Workout.completed_at b) as [y|];
    auto.
  destruct (String.leb_total x y); auto.
Qed.

Lemma completed_not_before_trans (a b c : Workout.t) :
  RefBackend.completed_not_before a b = true ->
  RefBackend.completed_not_before b c = true ->
  RefBackend.completed_not_before a c = true.
Proof.
  unfold RefBackend.completed_not_before.
  destruct (Workout.completed_at a) as [x|], (Workout.completed_at b) as [y|],
    (Workout.completed_at c) as [z|]; try congruence.
  intros H1 H2. exact (string_leb_trans z y x H2 H1).
Qed.

End Orders.

Section Sorting.

Context {A : Type} (leb : A -> A -> bool).
Hypothesis leb_total : forall a b, leb a b = true \/ leb b a = true.
Hypothesis leb_trans : forall a b c, leb a b = true -> leb b c = true -> leb a c = true.

Lemma insert_by_In (x y : A) (l : list A) :
  In y (RefBackend.insert_by leb x l) <-> y = x \/ In y l.
Proof.
  induction l as [|z l IH]; cbn.
  - intuition.
  - destruct (leb x z); cbn; rewrite ?IH; intuition.
Qed.

Lemma sort_by_In (y : A) (l : list A) :
  In y (RefBackend.sort_by leb l) <-> In y l.
Proof.
  induction l as [|x l IH]; cbn; [reflexivity|].
  rewrite insert_by_In, IH. intuition.
Qed.

Lemma insert_by_sorted (x : A) (l : list A) :
  StronglySorted (fun a b => leb a b = true) l ->
  StronglySorted (fun a b => leb a b = true) (RefBackend.insert_by leb x l).
Proof.
  induction 1 as [|z l Hl IH Hz]; cbn.
  - constructor; constructor.
  - destruct (leb x z) eqn:Hxz.
    + constructor; [constructor; assumption|].
      constructor; [exact Hxz|].
      rewrite Forall_forall in *. intros y Hy. apply (leb_trans x z y Hxz), Hz, Hy.
    + constructor; [exact IH|].
      rewrite Forall_forall in *. intros y Hy.
      apply insert_by_In in Hy. destruct Hy as [->|Hy]; [|apply Hz, Hy].
      destruct (leb_total x z) as [H|H]; [congruence|exact H].
Qed.

Lemma sort_by_sorted (l : list A) :
  StronglySorted (fun a b => leb a b = true) (RefBackend.sort_by leb l).
Proof.
  induction l as [|x l IH]; cbn; [constructor|].
  apply insert_by_sorted, IH.
Qed.

(** The first row of an ordered result comes no later than any row. *)
Lemma sort_by_head (l : list A) (x : A) :
  hd_error (RefBackend.sort_by leb l) = Some x ->
  In x l /\ forall y, In y l -> leb x y = true.
Proof.
  intros Hhd.
  pose proof (sort_by_sorted l) as Hsorted.
  destruct (RefBackend.sort_by leb l) as [|z rest] eqn:Hsort; [discriminate|].
  injection Hhd as ->.
  split.
  - apply sort_by_In. rewrite Hsort. left. reflexivity.
  - intros y Hy. apply sort_by_In in Hy. rewrite Hsort in Hy.
    inversion Hsorted as [|? ? _ Hall]; subst.
    destruct Hy as [<-|Hy].
    + destruct (leb_total x x); assumption.
    + rewrite Forall_forall in Hall. apply Hall, Hy.
Qed.

End Sorting.

Section PreviousSets.

Context {B : Type} (h : Handler B).

(** [getPreviousSets] for a signed-in user, by the answers of the backend. *)
Lemma getPreviousSets_run (user : User.t) (exerciseId : string)
    (st : UseWorkoutState) (b : B) :
  run h (getPreviousSets (Some user) exerciseId st) b
  = match h _ (SelectRecentCompletedWorkout user.(User.id) exerciseId) b with
    | (PgData (Some recentWorkout), b1) =>
        match find (fun we => (we.(RecentWorkout.we_exercise_id) =? exerciseId)%string)
                   recentWorkout.(RecentWorkout.workout_exercises) with
        | Some workoutExercise =>
            match h _ (SelectWorkingSets workoutExercise.(RecentWorkout.we_id)) b1 with
            | (PgData sets, b2) =>
                (Normal (previousSetData exerciseId (nullish sets [])), st, b2,
                 [exchange (SelectRecentCompletedWorkout user.(User.id) exerciseId)
                           (PgData (Some recentWorkout));
                  exchange (SelectWorkingSets workoutExercise.(RecentWorkout.we_id))
                           (PgData sets)])
            | (PgError e, b2) =>
                (Normal [], st, b2,
                 [exchange (SelectRecentCompletedWorkout user.(User.id) exerciseId)
                           (PgData (Some recentWorkout));
                  exchange (SelectWorkingSets workoutExercise.(RecentWorkout.we_id))
                           (PgError e)])
            end
        | None =>
            (Normal [], st, b1,
             [exchange (SelectRecentCompletedWorkout user.(User.id) exerciseId)
                       (PgData (Some recentWorkout))])
        end
    | (r, b1) =>
        (Normal [], st, b1,
         [exchange (SelectRecentCompletedWorkout user.(User.id) exerciseId) r])
    end.
Proof.
  cbn.
  destruct (h _ (SelectRecentCompletedWorkout _ _) b) as [[[rw|]|e] b1]; cbn;
    try reflexivity.
  destruct (find _ _) as [we|]; cbn; [|reflexivity].
  destruct (h _ (SelectWorkingSets _) b1) as [[sets|e] b2]; reflexivity.
Qed.

(** Whatever the backend, the look-up completes normally, leaves the state
    alone, only reads, starts with the query for the recent workout, and
    returns nothing when a request is refused. *)
Lemma getPreviousSets_any (user : User.t) (exerciseId : string)
    (st : UseWorkoutState) (b : B) :
  exists r b' tr,
    run h (getPreviousSets (Some user) exerciseId st) b = (Normal r, st, b', tr)
    /\ existsb is_write (requests tr) = false
    /\ hd_error (requests tr)
       = Some (call (SelectRecentCompletedWorkout user.(User.id) exerciseId))
    /\ (existsb refused tr = true -> r = []).
Proof.
  rewrite getPreviousSets_run.
  destruct (h _ (SelectRecentCompletedWorkout _ _) b) as [[[rw|]|e] b1].
  - destruct (find _ _) as [we|].
    + destruct (h _ (SelectWorkingSets _) b1) as [[sets|e] b2];
        do 3 eexists; (split; [reflexivity|]); cbn; repeat split; discriminate.
    + do 3 eexists. split; [reflexivity|]. cbn. repeat split.
  - do 3 eexists. split; [reflexivity|]. cbn. repeat split.
  - do 3 eexists. split; [reflexivity|]. cbn. repeat split.
Qed.

End PreviousSets.

Section PreviousInStore.

Variable db : RefBackend.Db.

Lemma find_recent_row (exercise_id : string) (w : Workout.t) :
  find (fun r => (r.(RecentWorkout.we_exercise_id) =? exercise_id)%string)
       (RefBackend.recent_row db exercise_id w).(RecentWorkout.workout_exercises)
  = option_map (fun we => RecentWorkout.mk_ref we.(WorkoutExercise.id)
                            we.(WorkoutExercise.exercise_id))
      (slot_of db w exercise_id).
Proof.
  unfold RefBackend.recent_row, slot_of. cbn.
  induction (RefBackend.workout_exercises db) as [|we l IH]; cbn; [reflexivity|].
  destruct (WorkoutExercise.workout_id we =? Workout.id w)%string; cbn; [|exact IH].
  destruct (WorkoutExercise.exercise_id we =? exercise_id)%string eqn:He; cbn.
  - rewrite He. reflexivity.
  - exact IH.
Qed.

(** On the store the look-up returns what the tables say. *)
Lemma getPreviousSets_on_store (user : User.t) (exerciseId : string)
    (st : UseWorkoutState) :
  exists tr,
    run RefBackend.handle (getPreviousSets (Some user) exerciseId st) db
    = (Normal (previous_in_store db user.(User.id) exerciseId), st, db, tr).
Proof.
  rewrite getPreviousSets_run. unfold previous_in_store, most_recent.
  cbn [RefBackend.handle].
  destruct (RefBackend.sort_by _ _) as [|w rest]; cbn [hd_error].
  - eexists. reflexivity.
  - rewrite find_recent_row.
    destruct (slot_of db w exerciseId) as [we|]; cbn.
    + eexists. reflexivity.
    + eexists. reflexivity.
Qed.

Lemma StronglySorted_filter {A : Type} (R : A -> A -> Prop) (p : A -> bool)
    (l : list A) :
  StronglySorted R l -> StronglySorted R (filter p l).
Proof.
  induction 1 as [|x l Hl IH Hx]; cbn; [constructor|].
  destruct (p x); [|exact IH].
  constructor; [exact IH|].
  rewrite Forall_forall in *. intros y Hy. apply filter_In in Hy. apply Hx, Hy.
Qed.

Lemma StronglySorted_map {A C : Type} (R : C -> C -> Prop) (f : A -> C)
    (l : list A) :
  StronglySorted (fun a b => R (f a) (f b)) l -> StronglySorted R (map f l).
Proof.
  induction 1 as [|x l Hl IH Hx]; cbn; constructor; [exact IH|].
  rewrite Forall_forall in *. intros y Hy. apply in_map_iff in Hy.
  destruct Hy as (a & <- & Ha). apply Hx, Ha.
Qed.

Lemma StronglySorted_weaken {A : Type} (R R' : A -> A -> Prop) (l : list A) :
  (forall a c, R a c -> R' a c) -> StronglySorted R l -> StronglySorted R' l.
Proof.
  intros Himp. induction 1 as [|x l Hl IH Hx]; constructor; [exact IH|].
  rewrite Forall_forall in *. intros y Hy. apply Himp, Hx, Hy.
Qed.

(** The fetched sets come by ascending set number. *)
Lemma working_sets_sorted (workout_exercise_id : string) :
  StronglySorted (fun a b => a.(WorkoutSet.set_number) <= b.(WorkoutSet.set_number))
    (RefBackend.working_sets db workout_exercise_id).
Proof.
  unfold RefBackend.working_sets.
  eapply StronglySorted_weaken.
  2: { apply sort_by_sorted.
       - intros a c. rewrite !Z.leb_le. lia.
       - intros a c d. rewrite !Z.leb_le. lia. }
  intros a c Hac. cbn in Hac. now apply Z.leb_le.
Qed.

Lemma previous_sorted (exerciseId workout_exercise_id : string) :
  StronglySorted Z.le
    (map PreviousSetData.set_number
       (previousSetData exerciseId
          (map RefBackend.set_row
             (RefBackend.working_sets db workout_exercise_id)))).
Proof.
  unfold previousSetData. rewrite map_map. cbn.
  apply StronglySorted_map, StronglySorted_filter.
  apply (StronglySorted_map
           (fun a c => SetRow.set_number a <= SetRow.set_number c)
           RefBackend.set_row).
  apply working_sets_sorted.
Qed.

Lemma previous_members (exerciseId workout_exercise_id : string)
    (p : PreviousSetData.t) :
  In p (previousSetData exerciseId
          (map RefBackend.set_row
             (RefBackend.working_sets db workout_exercise_id)))
  <-> exists s,
        In s db.(RefBackend.workout_sets)
        /\ s.(WorkoutSet.workout_exercise_id) = workout_exercise_id
        /\ s.(WorkoutSet.is_warmup) = false
        /\ truthyQ s.(WorkoutSet.weight_kg) = true
        /\ truthyZ s.(WorkoutSet.reps) = true
        /\ p = PreviousSetData.mk exerciseId
                 (nullish s.(WorkoutSet.weight_kg) 0%Q)
                 (nullish s.(WorkoutSet.reps) 0)
                 s.(WorkoutSet.set_number).
Proof.
  unfold previousSetData, RefBackend.working_sets.
  rewrite in_map_iff. split.
  - intros (row & <- & Hrow).
    apply filter_In in Hrow. destruct Hrow as [Hrow Huse].
    apply in_map_iff in Hrow. destruct Hrow as (s & <- & Hs).
    apply sort_by_In, filter_In in Hs. destruct Hs as [Hs Hq].
    apply andb_true_iff in Hq. destruct Hq as [Hid Hwarm].
    apply andb_true_iff in Huse. destruct Huse as [Hw Hr].
    exists s. repeat split; try assumption.
    + now apply String.eqb_eq.
    + now apply negb_true_iff.
  - intros (s & Hs & Hid & Hwarm & Hw & Hr & ->).
    exists (RefBackend.set_row s). split; [reflexivity|].
    apply filter_In. split.
    + apply in_map, sort_by_In, filter_In. split; [exact Hs|].
      rewrite Hid, String.eqb_refl, Hwarm. reflexivity.
    + unfold usable. cbn. now rewrite Hw, Hr.
Qed.

End PreviousInStore.

(** C7, as stated, fails: in the sample store the latest finished workout
    with the bench press has three non-warmup sets for it, numbered 1, 2
    and 3; the look-up returns the first two only, the third having no
    weight. *)
Lemma previous_sets_drop_unweighted :
  option_map Workout.id (most_recent SamplePrevious.db "user-1" "bench")
  = Some "w-new"
  /\ map WorkoutSet.set_number (RefBackend.working_sets SamplePrevious.db "s-new")
     = [1; 2; 3]
  /\ map PreviousSetData.set_number SamplePrevious.result = [1; 2]
  /\ map PreviousSetData.set_number SamplePrevious.result
     <> map WorkoutSet.set_number
          (RefBackend.working_sets SamplePrevious.db "s-new").
Proof.
  assert (H1 : map WorkoutSet.set_number
                 (RefBackend.working_sets SamplePrevious.db "s-new") = [1; 2; 3])
    by reflexivity.
  assert (H2 : map PreviousSetData.set_number SamplePrevious.result = [1; 2])
    by reflexivity.
  split; [reflexivity|]. split; [exact H1|]. split; [exact H2|].
  rewrite H1, H2. discriminate.
Qed.

(** C7, amended.  On the store, for a signed-in user whose latest finished
    workout with the exercise is [w], held there in slot [we]:
    [getPreviousSets] returns, by ascending set number, the sets stored for
    that slot that are no warmups and have a weight and a repetition count
    other than zero (the others are left out), and changes neither the
    state nor the store; [w] is a finished workout of the user and no other
    finished workout of the user with the exercise was completed after it.
    With no such workout the result is empty.  On any backend the look-up
    completes normally with the state untouched, sends only reads, and
    returns the empty list when a request is refused or no user is signed
    in (then nothing is sent); nothing is remembered between calls: a second
    call sends its query again. *)
Theorem getPreviousSets_lookup {B : Type} (h : Handler B) (b : B)
    (st : UseWorkoutState) (user : User.t) (exerciseId : string)
    (db : RefBackend.Db) (w : Workout.t) (we : WorkoutExercise.t) :
  most_recent db user.(User.id) exerciseId = Some w ->
  slot_of db w exerciseId = Some we ->
  (exists tr,
      run RefBackend.handle (getPreviousSets (Some user) exerciseId st) db
      = (Normal (previousSetData exerciseId
                   (map RefBackend.set_row
                      (RefBackend.working_sets db we.(WorkoutExercise.id)))),
         st, db, tr))
  /\ (In w db.(RefBackend.workouts)
      /\ w.(Workout.user_id) = user.(User.id)
      /\ w.(Workout.status) = completed
      /\ In we db.(RefBackend.workout_exercises)
      /\ we.(WorkoutExercise.workout_id) = w.(Workout.id)
      /\ we.(WorkoutExercise.exercise_id) = exerciseId)
  /\ (forall w',
         In w' db.(RefBackend.workouts) ->
         w'.(Workout.user_id) = user.(User.id) ->
         w'.(Workout.status) = completed ->
         RefBackend.contains_exercise db exerciseId w' = true ->
         RefBackend.completed_not_before w w' = true)
  /\ StronglySorted Z.le
       (map PreviousSetData.set_number
          (previousSetData exerciseId
             (map RefBackend.set_row
                (RefBackend.working_sets db we.(WorkoutExercise.id)))))
  /\ (forall p,
         In p (previousSetData exerciseId
                 (map RefBackend.set_row
                    (RefBackend.working_sets db we.(WorkoutExercise.id))))
         <-> exists s,
               In s db.(RefBackend.workout_sets)
               /\ s.(WorkoutSet.workout_exercise_id) = we.(WorkoutExercise.id)
               /\ s.(WorkoutSet.is_warmup) = false
               /\ truthyQ s.(WorkoutSet.weight_kg) = true
               /\ truthyZ s.(WorkoutSet.reps) = true
               /\ p = PreviousSetData.mk exerciseId
                        (nullish s.(WorkoutSet.weight_kg) 0%Q)
                        (nullish s.(WorkoutSet.reps) 0)
                        s.(WorkoutSet.set_number))
  /\ (forall db0,
         RefBackend.completed_with db0 user.(User.id) exerciseId = [] ->
         exists tr,
           run RefBackend.handle (getPreviousSets (Some user) exerciseId st) db0
           = (Normal [], st, db0, tr))
  /\ (exists r b' tr,
         run h (getPreviousSets (Some user) exerciseId st) b = (Normal r, st, b', tr)
         /\ existsb is_write (requests tr) = false
         /\ hd_error (requests tr)
            = Some (call (SelectRecentCompletedWorkout user.(User.id) exerciseId))
         /\ (existsb refused tr = true -> r = []))
  /\ run h (getPreviousSets None exerciseId st) b = (Normal [], st, b, [])
  /\ (exists r1 b1 tr1 r2 b2 tr2,
         run h (getPreviousSets (Some user) exerciseId st) b
         = (Normal r1, st, b1, tr1)
         /\ run h (getPreviousSets (Some user) exerciseId st) b1
            = (Normal r2, st, b2, tr2)
         /\ run h ((_ <- getPreviousSets (Some user) exerciseId ;;
                    getPreviousSets (Some user) exerciseId) st) b
            = (Normal r2, st, b2, (tr1 ++ tr2)%list)
         /\ hd_error (requests tr2)
            = Some (call (SelectRecentCompletedWorkout user.(User.id) exerciseId))).
Proof.
  intros Hrecent Hslot.
  split; [|split; [|split; [|split; [|split; [|split; [|split; [|split]]]]]]].
  - destruct (getPreviousSets_on_store db user exerciseId st) as [tr Hrun].
    exists tr. rewrite Hrun. unfold previous_in_store.
    rewrite Hrecent, Hslot. reflexivity.
  - unfold most_recent in Hrecent.
    apply (sort_by_head _ completed_not_before_total completed_not_before_trans)
      in Hrecent.
    destruct Hrecent as [Hin _].
    apply filter_In in Hin. destruct Hin as [Hin Hq].
    apply andb_true_iff in Hq. destruct Hq as [Hq _].
    apply andb_true_iff in Hq. destruct Hq as [Huser Hstatus].
    apply find_some in Hslot. destruct Hslot as [Hwe Hq].
    apply andb_true_iff in Hq. destruct Hq as [Hwid Heid].
    repeat split; try assumption.
    + now apply String.eqb_eq.
    + destruct (Workout.status w); cbn in Hstatus; congruence.
    + now apply String.eqb_eq.
    + now apply String.eqb_eq.
  - intros w' Hin Huser Hstatus Hcontains.
    unfold most_recent in Hrecent.
    apply (sort_by_head _ completed_not_before_total completed_not_before_trans)
      in Hrecent.
    destruct Hrecent as [_ Hmax]. apply Hmax.
    apply filter_In. split; [exact Hin|].
    rewrite Huser, String.eqb_refl, Hstatus, Hcontains. reflexivity.
  - apply previous_sorted.
  - intros p. apply previous_members.
  - intros db0 Hnone.
    destruct (getPreviousSets_on_store db0 user exerciseId st) as [tr Hrun].
    exists tr. rewrite Hrun. unfold previous_in_store, most_recent.
    rewrite Hnone. reflexivity.
  - apply getPreviousSets_any.
  - reflexivity.
  - destruct (getPreviousSets_any h user exerciseId st b)
      as (r1 & b1 & tr1 & Hrun1 & _).
    destruct (getPreviousSets_any h user exerciseId st b1)
      as (r2 & b2 & tr2 & Hrun2 & _ & Hhd & _).
    exists r1, b1, tr1, r2, b2, tr2.
    split; [exact Hrun1|]. split; [exact Hrun2|]. split; [|exact Hhd].
    unfold bind. rewrite run_pbind, Hrun1, Hrun2. reflexivity.
Qed.

Lemma getPreviousSets_lookup_witness :
  most_recent SamplePrevious.db Sample.user.(User.id) "bench"
  = Some (SamplePrevious.finished "w-new" "2024-02-08T18:00:00.000Z")
  /\ slot_of SamplePrevious.db
       (SamplePrevious.finished "w-new" "2024-02-08T18:00:00.000Z") "bench"
     = Some (SamplePrevious.slot "s-new" "w-new" "bench" 1)
  /\ exists tr,
       run RefBackend.handle (getPreviousSets (Some Sample.user) "bench" initialState)
         SamplePrevious.db
       = (Normal (previousSetData "bench"
                    (map RefBackend.set_row
                       (RefBackend.working_sets SamplePrevious.db "s-new"))),
          initialState, SamplePrevious.db, tr).
Proof.
  split; [reflexivity|]. split; [reflexivity|].
  apply (getPreviousSets_lookup Offline.handle tt initialState Sample.user "bench"
           SamplePrevious.db
           (SamplePrevious.finished "w-new" "2024-02-08T18:00:00.000Z")
           (SamplePrevious.slot "s-new" "w-new" "bench" 1));
    reflexivity.
Defined.


(** * Further properties of the hook *)

(** ** Updating a set *)

Section UpdateSet.

Context {B : Type} (h : Handler B).

Lemma replaceSet_id setId updatedSet ex :
  WorkoutExercise.id (replaceSet setId updatedSet ex) = WorkoutExercise.id ex.
Proof. reflexivity. Qed.

Lemma setsOf_replace setId updatedSet key st :
  setsOf key
    (mkState st.(workout) (map (replaceSet setId updatedSet) st.(exercises))
       st.(loading) st.(error))
  = map (fun s => if (s.(WorkoutSet.id) =? setId)%string then updatedSet else s)
      (setsOf key st).
Proof.
  unfold setsOf. simpl.
  rewrite (find_map_id _ _ _ (replaceSet_id setId updatedSet)).
  destruct (find _ (exercises st)) as [ex|]; [|reflexivity].
  simpl. destruct (WorkoutExercise.sets ex); reflexivity.
Qed.

(** One [updateSet], by the answer of the backend. *)
Lemma updateSet_run (setId : string) (updates : PartialWorkoutSet.t)
    (st : UseWorkoutState) (b : B) :
  run h (updateSet setId updates st) b
  = match h _ (UpdateSet setId updates) b with
    | (PgData updatedSet, b1) =>
        (Normal (Result.ok None),
         mkState st.(workout) (map (replaceSet setId updatedSet) st.(exercises))
           st.(loading) st.(error),
         b1, [exchange (UpdateSet setId updates) (PgData updatedSet)])
    | (PgError e, b1) =>
        (Normal (Result.fail (catch_message e "Failed to update set")),
         st, b1, [exchange (UpdateSet setId updates) (PgError e)])
    end.
Proof.
  destruct st as [wk exs l err]. cbn.
  destruct (h _ (UpdateSet setId updates) b) as [[u|e] b1]; reflexivity.
Qed.

End UpdateSet.

(** X1.  When the backend carries out the update, [updateSet] leaves the
    workout, the exercises and their order alone: the list of slots keeps
    its length, and the slot at each place agrees with the one that was
    there on every field but [sets]; [loading] and [error] stay.  In the set
    list of every slot each set with the given id is replaced, in place, by
    the returned row and every other set stays what and where it was, so no
    list changes its length (a slot without a set list stays without); a
    state that holds no set with that id keeps all its set lists. *)
Theorem updateSet_patches_by_id {B : Type} (h : Handler B) (b b1 : B)
    (st : UseWorkoutState) (setId : string) (updates : PartialWorkoutSet.t)
    (updatedSet : WorkoutSet.t) :
  h _ (UpdateSet setId updates) b = (PgData updatedSet, b1) ->
  exists st',
    run h (updateSet setId updates st) b
    = (Normal (Result.ok None), st', b1,
       [exchange (UpdateSet setId updates) (PgData updatedSet)])
    /\ st'.(workout) = st.(workout)
    /\ map WorkoutExercise.id st'.(exercises) = map WorkoutExercise.id st.(exercises)
    /\ (forall key, length (setsOf key st') = length (setsOf key st))
    /\ (forall key j s,
           nth_error (setsOf key st) j = Some s ->
           nth_error (setsOf key st') j
           = Some (if (s.(WorkoutSet.id) =? setId)%string then updatedSet else s))
    /\ (Forall (fun s => s.(WorkoutSet.id) <> setId) (all_sets st.(exercises)) ->
        all_sets st'.(exercises) = all_sets st.(exercises))
    /\ length st'.(exercises) = length st.(exercises)
    /\ (forall i ex,
           nth_error st.(exercises) i = Some ex ->
           exists ex',
             nth_error st'.(exercises) i = Some ex'
             /\ WorkoutExercise.same_but_sets ex' ex
             /\ ex'.(WorkoutExercise.sets)
                = option_map
                    (map (fun s => if (s.(WorkoutSet.id) =? setId)%string
                                   then updatedSet else s))
                    ex.(WorkoutExercise.sets))
    /\ st'.(loading) = st.(loading)
    /\ st'.(error) = st.(error).
Proof.
  intros Hanswer. eexists. rewrite updateSet_run, Hanswer.
  split; [reflexivity|]. split; [reflexivity|]. split.
  { cbn. rewrite map_map. reflexivity. }
  split.
  { intros key. rewrite setsOf_replace. apply length_map. }
  split.
  { intros key j s Hj. rewrite setsOf_replace, nth_error_map, Hj. reflexivity. }
  split.
  2: { split; [apply length_map|]. split; [|split; reflexivity].
       intros i ex Hi. eexists. cbn [exercises].
       rewrite nth_error_map, Hi.
       split; [reflexivity|]. split; [|reflexivity].
       cbv [WorkoutExercise.same_but_sets]. cbn. repeat split. }
  cbn. unfold all_sets.
  induction (exercises st) as [|ex exs IH]; intros Hall; [reflexivity|].
  cbn in *. apply Forall_app in Hall. destruct Hall as [Hex Hexs].
  rewrite (IH Hexs). f_equal.
  destruct (WorkoutExercise.sets ex) as [sets|]; [|reflexivity].
  cbn in *. rewrite <- (map_id sets) at 2. apply map_ext_in.
  intros s Hs. rewrite Forall_forall in Hex. specialize (Hex s Hs).
  destruct (String.eqb_spec (WorkoutSet.id s) setId); [contradiction|reflexivity].
Qed.

Lemma updateSet_patches_by_id_witness :
  RefBackend.handle _ (UpdateSet "4" SampleUpdate.correction) SampleSwap.store
  = (PgData SampleUpdate.corrected,
     snd (RefBackend.handle _ (UpdateSet "4" SampleUpdate.correction)
            SampleSwap.store))
  /\ exists st',
       run RefBackend.handle
         (updateSet "4" SampleUpdate.correction SampleSwap.session)
         SampleSwap.store
       = (Normal (Result.ok None), st',
          snd (RefBackend.handle _ (UpdateSet "4" SampleUpdate.correction)
                 SampleSwap.store),
          [exchange (UpdateSet "4" SampleUpdate.correction)
                    (PgData SampleUpdate.corrected)])
       /\ length (setsOf "1" st') = 2%nat
       /\ nth_error (setsOf "1" st') 0 = Some SampleUpdate.corrected
       /\ length st'.(exercises) = 3%nat.
Proof.
  assert (Hanswer :
    RefBackend.handle _ (UpdateSet "4" SampleUpdate.correction) SampleSwap.store
    = (PgData SampleUpdate.corrected,
       snd (RefBackend.handle _ (UpdateSet "4" SampleUpdate.correction)
              SampleSwap.store))) by reflexivity.
  split; [exact Hanswer|].
  destruct (updateSet_patches_by_id RefBackend.handle SampleSwap.store _
              SampleSwap.session "4" SampleUpdate.correction
              SampleUpdate.corrected Hanswer)
    as (st' & Hrun & _ & _ & Hlen & Hnth & _ & Hslots & _).
  exists st'. split; [exact Hrun|]. split; [|split].
  - rewrite Hlen. reflexivity.
  - apply (Hnth "1" 0%nat
             (RefBackend.new_set (RefBackend.mk [] [] [] [] 4 SampleRows.now) "1"
                (Sample.set_100x5 1))).
    reflexivity.
  - rewrite Hslots. reflexivity.
Defined.

(** ** Logging a set and taking it back *)

(** X2.  On any backend that carries out both requests, logging a set on a
    slot and then deleting that very set leaves every slot with the set
    list it had, provided the id the backend gave the new set was not yet
    in use in that slot. *)
Theorem logSet_then_deleteSet_restores {B : Type} (h : Handler B) (b b1 b2 : B)
    (st : UseWorkoutState) (workoutExerciseId : string)
    (setData : NewWorkoutSet.t) (newSet : WorkoutSet.t) :
  st.(workout) <> None ->
  h _ (InsertSet workoutExerciseId setData) b = (PgData newSet, b1) ->
  h _ (DeleteSet newSet.(WorkoutSet.id)) b1 = (PgData tt, b2) ->
  Forall (fun s => s.(WorkoutSet.id) <> newSet.(WorkoutSet.id))
    (setsOf workoutExerciseId st) ->
  exists st',
    run h ((_ <- logSet workoutExerciseId setData ;;
            deleteSet newSet.(WorkoutSet.id) workoutExerciseId) st) b
    = (Normal (Result.ok None), st', b2,
       [exchange (InsertSet workoutExerciseId setData) (PgData newSet);
        exchange (DeleteSet newSet.(WorkoutSet.id)) (PgData tt)])
    /\ st'.(workout) = st.(workout)
    /\ forall key, setsOf key st' = setsOf key st.
Proof.
  intros Hactive Hinsert Hdelete Hfresh.
  destruct (workout st) as [w|] eqn:Hw; [|congruence].
  set (st1 := mkState (Some w) (map (appendSet workoutExerciseId newSet) (exercises st))
                (loading st) (error st)).
  exists (mkState st1.(workout)
            (map (removeSet (WorkoutSet.id newSet) workoutExerciseId) st1.(exercises))
            st1.(loading) st1.(error)).
  unfold bind. rewrite run_pbind, logSet_run, Hw, Hinsert.
  rewrite deleteSet_run, Hdelete.
  split; [reflexivity|]. split; [reflexivity|].
  intros key.
  destruct (String.eqb_spec key workoutExerciseId) as [->|Hne].
  - rewrite setsOf_remove_same. subst st1. rewrite <- Hw.
    unfold setsOf in *. cbn.
    rewrite (find_map_id _ _ _ (appendSet_id workoutExerciseId newSet)).
    destruct (find _ (exercises st)) as [ex|] eqn:Hex; [|reflexivity].
    apply find_some in Hex. destruct Hex as [_ Hid].
    cbn. unfold appendSet. rewrite Hid. cbn.
    rewrite filter_app. cbn. rewrite String.eqb_refl. cbn. rewrite app_nil_r.
    apply forallb_filter_id. apply forallb_forall. intros s Hs.
    rewrite Forall_forall in Hfresh. specialize (Hfresh s Hs).
    apply negb_true_iff. now apply String.eqb_neq.
  - rewrite setsOf_remove_other by exact Hne. subst st1. rewrite <- Hw.
    now apply setsOf_append_other.
Qed.

Lemma logSet_then_deleteSet_restores_witness :
  Sample.session.(workout) <> None
  /\ Forall (fun s => s.(WorkoutSet.id) <> "4") (setsOf "1" Sample.session)
  /\ exists st',
       fst (fst (run RefBackend.handle
                   ((_ <- logSet "1" (Sample.set_100x5 1) ;; deleteSet "4" "1")
                      Sample.session)
                   Sample.store))
       = (Normal (Result.ok None), st')
       /\ forall key, setsOf key st' = setsOf key Sample.session.
Proof.
  assert (Hactive : Sample.session.(workout) <> None) by discriminate.
  assert (Hfresh : Forall (fun s => s.(WorkoutSet.id) <> "4")
                     (setsOf "1" Sample.session)) by constructor.
  split; [exact Hactive|]. split; [exact Hfresh|].
  destruct (logSet_then_deleteSet_restores RefBackend.handle Sample.store
              (snd (RefBackend.handle _ (InsertSet "1" (Sample.set_100x5 1))
                      Sample.store))
              (snd (RefBackend.handle _ (DeleteSet "4")
                      (snd (RefBackend.handle _ (InsertSet "1" (Sample.set_100x5 1))
                              Sample.store))))
              Sample.session "1" (Sample.set_100x5 1)
              (RefBackend.new_set Sample.store "1" (Sample.set_100x5 1))
              Hactive eq_refl eq_refl Hfresh)
    as (st' & Hrun & _ & Hsets).
  exists st'. split; [|exact Hsets].
  change (WorkoutSet.id (RefBackend.new_set Sample.store "1" (Sample.set_100x5 1)))
    with "4" in Hrun.
  rewrite Hrun. reflexivity.
Defined.

(** ** More about the statistics *)

Section StatsInvariants.

Lemma workingSetCount_nonneg (ex : WorkoutExercise.t) : 0 <= workingSetCount ex.
Proof. rewrite workingSetCount_all_sets. unfold length_. lia. Qed.

Lemma spec_totalSets_cons (ex : WorkoutExercise.t) (exs : list WorkoutExercise.t) :
  spec_totalSets (ex :: exs) = workingSetCount ex + spec_totalSets exs.
Proof.
  unfold spec_totalSets, all_sets. cbn.
  rewrite filter_app, length_app_Z, workingSetCount_all_sets. reflexivity.
Qed.

Lemma completed_bounds (exs : list WorkoutExercise.t) :
  0 <= length_ (filter (fun ex => 0 <? workingSetCount ex) exs) <= length_ exs
  /\ length_ (filter (fun ex => 0 <? workingSetCount ex) exs) <= spec_totalSets exs
  /\ (spec_totalSets exs = 0 ->
      length_ (filter (fun ex => 0 <? workingSetCount ex) exs) = 0).
Proof.
  induction exs as [|ex exs IH].
  - unfold spec_totalSets, length_. cbn. lia.
  - rewrite spec_totalSets_cons. cbn [filter].
    pose proof (workingSetCount_nonneg ex) as Hex.
    assert (Hrest : 0 <= spec_totalSets exs) by (unfold spec_totalSets, length_; lia).
    destruct (Z.ltb_spec 0 (workingSetCount ex)); unfold length_ in *; cbn [length];
      lia.
Qed.

Lemma fold_add_zeros {A : Type} (f : A -> Q) (l : list A) :
  (forall a, In a l -> f a = 0%Q) -> fold_left Double.add (map f l) 0%Q = 0%Q.
Proof.
  induction l as [|a l IH]; intros H; cbn [map fold_left]; [reflexivity|].
  rewrite (H a (or_introl eq_refl)).
  change (Double.add 0 0) with 0%Q.
  apply IH. intros b Hb. apply H. right. exact Hb.
Qed.

Lemma no_working_set_no_volume (exs : list WorkoutExercise.t) :
  spec_totalSets exs = 0 -> double_volume exs = 0%Q.
Proof.
  unfold spec_totalSets, length_. intros H.
  assert (Hnone : filter is_working (all_sets exs) = []).
  { destruct (filter is_working (all_sets exs)); [reflexivity|cbn in H; lia]. }
  rewrite filter_flat_map_sets in Hnone.
  unfold double_volume, Double.sum. apply fold_add_zeros.
  intros ex Hex.
  assert (Hex' : filter is_working (nullish ex.(WorkoutExercise.sets) []) = []).
  { destruct (filter is_working (nullish ex.(WorkoutExercise.sets) []))
      as [|s l] eqn:Hw; [reflexivity|].
    assert (Hin : In s (flat_map
                          (fun ex => filter is_working
                                       (nullish ex.(WorkoutExercise.sets) []))
                          exs)).
    { apply in_flat_map. exists ex. split; [exact Hex|].
      rewrite Hw. left. reflexivity. }
    rewrite Hnone in Hin. destruct Hin. }
  rewrite Hex'. reflexivity.
Qed.

End StatsInvariants.

(** X3.  Whatever the state, the statistics are consistent: the number of
    exercises is the length of the list; between zero and that many of them
    count as done; no more exercises are done than there are working sets;
    none is done exactly when there is no working set, and then the volume
    is zero too. *)
Theorem getWorkoutStats_consistent (state : UseWorkoutState) :
  exerciseCount (getWorkoutStats state) = length_ state.(exercises)
  /\ 0 <= completedExercises (getWorkoutStats state)
          <= exerciseCount (getWorkoutStats state)
  /\ completedExercises (getWorkoutStats state) <= totalSets (getWorkoutStats state)
  /\ (totalSets (getWorkoutStats state) = 0
      <-> completedExercises (getWorkoutStats state) = 0)
  /\ (totalSets (getWorkoutStats state) = 0 ->
      totalVolume (getWorkoutStats state) = 0).
Proof.
  pose proof (completed_bounds state.(exercises)) as (Hbound & Hle & Hzero).
  assert (Hsets : totalSets (getWorkoutStats state) = spec_totalSets state.(exercises)).
  { unfold getWorkoutStats. cbn. rewrite totalSets_fold. lia. }
  assert (Hdone : completedExercises (getWorkoutStats state)
                  = length_ (filter (fun ex => 0 <? workingSetCount ex)
                               state.(exercises))) by reflexivity.
  assert (Hcount : exerciseCount (getWorkoutStats state) = length_ state.(exercises))
    by reflexivity.
  rewrite Hsets, Hdone, Hcount.
  split; [reflexivity|]. split; [exact Hbound|]. split; [exact Hle|]. split.
  - split; [exact Hzero|]. intros Hnone.
    assert (Hall : forall exs,
               length_ (filter (fun ex => 0 <? workingSetCount ex) exs) = 0 ->
               spec_totalSets exs = 0).
    { clear. induction exs as [|ex exs IH]; intros H.
      - reflexivity.
      - rewrite spec_totalSets_cons. cbn [filter] in H.
        pose proof (workingSetCount_nonneg ex) as Hex.
        destruct (Z.ltb_spec 0 (workingSetCount ex)).
        + unfold length_ in H. cbn in H. lia.
        + rewrite (IH H). lia. }
    apply Hall, Hnone.
  - intros Hnone.
    rewrite (totalVolume_round state.(exercises) state eq_refl).
    rewrite (no_working_set_no_volume _ Hnone).
    reflexivity.
Qed.

Lemma getWorkoutStats_consistent_witness :
  totalSets (getWorkoutStats Sample.session) = 0
  /\ totalVolume (getWorkoutStats Sample.session) = 0
  /\ completedExercises (getWorkoutStats Sample.session) = 0.
Proof.
  destruct (getWorkoutStats_consistent Sample.session)
    as (_ & _ & _ & Hiff & Hvol).
  assert (H0 : totalSets (getWorkoutStats Sample.session) = 0) by reflexivity.
  split; [exact H0|]. split; [exact (Hvol H0)|]. exact (proj1 Hiff H0).
Defined.

Section StatsAfterLog.

Variable weid : string.
Variable s : WorkoutSet.t.

Lemma workingSetCount_append (ex : WorkoutExercise.t) :
  workingSetCount (appendSet weid s ex)
  = workingSetCount ex
    + (if (ex.(WorkoutExercise.id) =? weid)%string && negb s.(WorkoutSet.is_warmup)
       then 1 else 0).
Proof.
  rewrite !workingSetCount_all_sets. unfold appendSet.
  destruct (WorkoutExercise.id ex =? weid)%string; cbn; [|lia].
  rewrite filter_app, length_app_Z. cbn. unfold is_working.
  destruct (WorkoutSet.is_warmup s); unfold length_; cbn; lia.
Qed.

Lemma spec_totalSets_append (exs : list WorkoutExercise.t) :
  spec_totalSets (map (appendSet weid s) exs)
  = spec_totalSets exs
    + (if s.(WorkoutSet.is_warmup) then 0 else slotsWithId weid exs).
Proof.
  unfold slotsWithId.
  induction exs as [|ex exs IH].
  - unfold spec_totalSets, length_. cbn. destruct (WorkoutSet.is_warmup s); lia.
  - cbn [map filter]. rewrite !spec_totalSets_cons, IH, workingSetCount_append.
    destruct (WorkoutExercise.id ex =? weid)%string, (WorkoutSet.is_warmup s);
      unfold length_; cbn [length negb andb]; lia.
Qed.

Lemma working_sets_append_warmup (exs : list WorkoutExercise.t) :
  s.(WorkoutSet.is_warmup) = true ->
  filter is_working (all_sets (map (appendSet weid s) exs))
  = filter is_working (all_sets exs).
Proof.
  intros Hwarm. unfold all_sets.
  induction exs as [|ex exs IH]; [reflexivity|].
  cbn. rewrite !filter_app, IH. f_equal.
  unfold appendSet. destruct (WorkoutExercise.id ex =? weid)%string; [|reflexivity].
  cbn. rewrite filter_app. cbn. unfold is_working at 2. rewrite Hwarm. cbn.
  apply app_nil_r.
Qed.

Lemma double_volume_append_warmup (exs : list WorkoutExercise.t) :
  s.(WorkoutSet.is_warmup) = true ->
  double_volume (map (appendSet weid s) exs) = double_volume exs.
Proof.
  intros Hwarm. unfold double_volume. rewrite map_map. f_equal.
  apply map_ext. intros ex. f_equal. f_equal.
  unfold appendSet. destruct (WorkoutExercise.id ex =? weid)%string; [|reflexivity].
  cbn. rewrite filter_app. cbn. unfold is_working at 2. rewrite Hwarm. cbn.
  apply app_nil_r.
Qed.

Lemma completed_append_warmup (exs : list WorkoutExercise.t) :
  s.(WorkoutSet.is_warmup) = true ->
  length_ (filter (fun ex => 0 <? workingSetCount ex) (map (appendSet weid s) exs))
  = length_ (filter (fun ex => 0 <? workingSetCount ex) exs).
Proof.
  intros Hwarm. induction exs as [|ex exs IH]; [reflexivity|].
  cbn [map filter]. rewrite workingSetCount_append, Hwarm, andb_false_r, Z.add_0_r.
  destruct (0 <? workingSetCount ex); unfold length_ in *; cbn [length]; lia.
Qed.

End StatsAfterLog.

(** X4.  When the backend creates the set, [logSet] raises the number of
    sets in the statistics by the number of exercises that carry the slot
    id if the created set is a working set, and not at all if it is a
    warmup; a warmup leaves the whole statistics as they were. *)
Theorem logSet_counts_working_sets {B : Type} (h : Handler B) (b b1 : B)
    (st : UseWorkoutState) (workoutExerciseId : string)
    (setData : NewWorkoutSet.t) (newSet : WorkoutSet.t) :
  st.(workout) <> None ->
  h _ (InsertSet workoutExerciseId setData) b = (PgData newSet, b1) ->
  exists st',
    run h (logSet workoutExerciseId setData st) b
    = (Normal (Result.ok (Some newSet)), st', b1,
       [exchange (InsertSet workoutExerciseId setData) (PgData newSet)])
    /\ totalSets (getWorkoutStats st')
       = totalSets (getWorkoutStats st)
         + (if newSet.(WorkoutSet.is_warmup) then 0
            else slotsWithId workoutExerciseId st.(exercises))
    /\ (newSet.(WorkoutSet.is_warmup) = true ->
        getWorkoutStats st' = getWorkoutStats st).
Proof.
  intros Hactive Hanswer.
  destruct (workout st) as [w|] eqn:Hw; [|congruence].
  exists (mkState (Some w) (map (appendSet workoutExerciseId newSet) (exercises st))
            (loading st) (error st)).
  rewrite logSet_run, Hw, Hanswer. split; [reflexivity|].
  set (st' := mkState _ _ _ _).
  assert (Hsets : forall s0, totalSets (getWorkoutStats s0) = spec_totalSets s0.(exercises)).
  { intros s0. unfold getWorkoutStats. cbn. rewrite totalSets_fold. lia. }
  split.
  - rewrite !Hsets. subst st'. cbn [exercises]. apply spec_totalSets_append.
  - intros Hwarm.
    assert (Hvol : totalVolume (getWorkoutStats st') = totalVolume (getWorkoutStats st)).
    { rewrite (totalVolume_round _ st' eq_refl), (totalVolume_round _ st eq_refl).
      subst st'. cbn [exercises].
      now rewrite double_volume_append_warmup. }
    assert (Htot : totalSets (getWorkoutStats st') = totalSets (getWorkoutStats st)).
    { rewrite !Hsets. subst st'. cbn [exercises].
      rewrite spec_totalSets_append, Hwarm. lia. }
    assert (Hcount : exerciseCount (getWorkoutStats st')
                     = exerciseCount (getWorkoutStats st)).
    { subst st'. unfold getWorkoutStats, length_. cbn. now rewrite length_map. }
    assert (Hdone : completedExercises (getWorkoutStats st')
                    = completedExercises (getWorkoutStats st)).
    { subst st'. unfold getWorkoutStats. cbn [completedExercises exercises].
      now apply completed_append_warmup. }
    destruct (getWorkoutStats st') as [a1 a2 a3 a4], (getWorkoutStats st) as [c1 c2 c3 c4].
    cbn in *. congruence.
Qed.

Lemma logSet_counts_working_sets_witness :
  Sample.session.(workout) <> None
  /\ RefBackend.handle _ (InsertSet "1" SampleUpdate.warmup) Sample.store
     = (PgData (RefBackend.new_set Sample.store "1" SampleUpdate.warmup),
        snd (RefBackend.handle _ (InsertSet "1" SampleUpdate.warmup) Sample.store))
  /\ exists st',
       fst (fst (run RefBackend.handle (logSet "1" SampleUpdate.warmup Sample.session)
                   Sample.store))
       = (Normal (Result.ok (Some (RefBackend.new_set Sample.store "1"
                                     SampleUpdate.warmup))), st')
       /\ length (setsOf "1" st') = 1%nat
       /\ getWorkoutStats st' = getWorkoutStats Sample.session.
Proof.
  assert (Hactive : Sample.session.(workout) <> None) by discriminate.
  split; [exact Hactive|]. split; [reflexivity|].
  destruct (logSet_counts_working_sets RefBackend.handle Sample.store _
              Sample.session "1" SampleUpdate.warmup
              (RefBackend.new_set Sample.store "1" SampleUpdate.warmup)
              Hactive eq_refl)
    as (st' & Hrun & _ & Hwarm).
  exists st'. rewrite Hrun. split; [reflexivity|]. split.
  - apply (f_equal (fun r => snd (fst (fst r)))) in Hrun. cbn [fst snd] in Hrun.
    rewrite <- Hrun. reflexivity.
  - apply Hwarm. reflexivity.
Defined.

(** ** Starting and resuming *)

(** X5.  A signed-in [startWorkout] whose second insert is refused reports
    the failure, keeps the workout and exercises it held, and has sent the
    two inserts and nothing else: the workout row it created is neither
    deleted nor closed.  With the store behind a backend that refuses that
    insert, the store ends with the new in-progress workout row and no
    exercise rows for it.  Without a user nothing is sent and the state is
    not touched at all. *)
Theorem startWorkout_leaves_orphan {B : Type} (h : Handler B) (b b1 b2 : B)
    (st : UseWorkoutState) (user : User.t)
    (template : WorkoutTemplateWithExercises.t) (w : Workout.t)
    (e : PostgrestError) (db : RefBackend.Db) :
  h _ (InsertWorkout user.(User.id) template.(WorkoutTemplateWithExercises.id)
         template.(WorkoutTemplateWithExercises.name) in_progress) b
    = (PgData w, b1) ->
  h _ (InsertWorkoutExercises (plannedRows w.(Workout.id) template)) b1
    = (PgError e, b2) ->
  run h (startWorkout (Some user) template st) b
  = (Normal (Result.fail (catch_message e "Failed to start workout")),
     mkState st.(workout) st.(exercises) false
       (Some (catch_message e "Failed to start workout")),
     b2,
     [exchange (InsertWorkout user.(User.id)
                  template.(WorkoutTemplateWithExercises.id)
                  template.(WorkoutTemplateWithExercises.name) in_progress)
               (PgData w);
      exchange (InsertWorkoutExercises (plannedRows w.(Workout.id) template))
               (PgError e)])
  /\ run h (startWorkout None template st) b
     = (Normal (Result.fail "Not authenticated"), st, b, [])
  /\ exists orphan db' tr,
       run (Refusing.handle Refusing.inserts_exercises RefBackend.handle)
         (startWorkout (Some user) template st) db
       = (Normal (Result.fail "Network request failed"),
          mkState st.(workout) st.(exercises) false (Some "Network request failed"),
          db', tr)
       /\ db'.(RefBackend.workouts) = (db.(RefBackend.workouts) ++ [orphan])%list
       /\ orphan.(Workout.status) = in_progress
       /\ orphan.(Workout.user_id) = user.(User.id)
       /\ db'.(RefBackend.workout_exercises) = db.(RefBackend.workout_exercises).
Proof.
  intros Hfirst Hsecond.
  destruct st as [wk exs l err].
  split; [|split].
  - cbn. rewrite Hfirst. cbn. unfold plannedRows in Hsecond. rewrite Hsecond.
    reflexivity.
  - reflexivity.
  - do 3 eexists. split; [reflexivity|]. cbn. repeat split.
Qed.

Lemma startWorkout_leaves_orphan_witness :
  Refusing.handle Refusing.inserts_exercises RefBackend.handle _
    (InsertWorkout "user-1" "tpl-1" "Full Body" in_progress) Sample.db
  = (PgData SampleRows.workout0,
     snd (RefBackend.handle _
            (InsertWorkout "user-1" "tpl-1" "Full Body" in_progress) Sample.db))
  /\ fst (Refusing.handle Refusing.inserts_exercises RefBackend.handle _
            (InsertWorkoutExercises (plannedRows "0" Sample.template))
            (snd (RefBackend.handle _
                    (InsertWorkout "user-1" "tpl-1" "Full Body" in_progress)
                    Sample.db)))
     = PgError Refusing.refusal
  /\ fst (fst (run (Refusing.handle Refusing.inserts_exercises RefBackend.handle)
                 (startWorkout (Some Sample.user) Sample.template initialState)
                 Sample.db))
     = (Normal (Result.fail "Network request failed"),
        mkState None [] false (Some "Network request failed")).
Proof.
  split; [reflexivity|]. split; [reflexivity|].
  rewrite (proj1 (startWorkout_leaves_orphan
                    (Refusing.handle Refusing.inserts_exercises RefBackend.handle)
                    Sample.db _ _ initialState Sample.user Sample.template
                    SampleRows.workout0 Refusing.refusal Sample.db
                    eq_refl eq_refl)).
  reflexivity.
Defined.

Section Resume.

Lemma insert_by_length {A : Type} (leb : A -> A -> bool) (x : A) (l : list A) :
  length (RefBackend.insert_by leb x l) = S (length l).
Proof.
  induction l as [|y l IH]; cbn; [reflexivity|].
  destruct (leb x y); cbn; [reflexivity|]. now rewrite IH.
Qed.

Lemma sort_by_length {A : Type} (leb : A -> A -> bool) (l : list A) :
  length (RefBackend.sort_by leb l) = length l.
Proof.
  induction l as [|x l IH]; cbn; [reflexivity|].
  now rewrite insert_by_length, IH.
Qed.

(** The rows [resumeWorkout] gets from the store for a workout. *)
Lemma resumed_rows_sorted (db : RefBackend.Db) (workoutId : string) :
  StronglySorted
    (fun a c => a.(WorkoutExercise.order_index) <= c.(WorkoutExercise.order_index))
    (RefBackend.sort_by
       (fun a c => a.(WorkoutExercise.order_index) <=? c.(WorkoutExercise.order_index))
       (filter (fun r => (r.(WorkoutExercise.workout_id) =? workoutId)%string)
          db.(RefBackend.workout_exercises))).
Proof.
  eapply StronglySorted_weaken.
  2: { apply sort_by_sorted.
       - intros a c. rewrite !Z.leb_le. lia.
       - intros a c d. rewrite !Z.leb_le. lia. }
  intros a c Hac. cbn in Hac. now apply Z.leb_le.
Qed.

End Resume.

(** X6.  On the store, resuming a workout whose id names exactly one stored
    workout succeeds with reads only and replaces the state by that workout
    and its exercise rows: all the stored rows of the workout and no others,
    by ascending [order_index], each with its catalogue entry, with the sets
    stored for it in stored order, and without the targets that
    [startWorkout] had attached.  When no stored workout has the id, it
    fails with the error of the query and keeps the workout and exercises it
    held. *)
Theorem resumeWorkout_on_store (db : RefBackend.Db) (st : UseWorkoutState)
    (workoutId : string) (w : Workout.t) :
  filter (RefBackend.has_id Workout.id workoutId) db.(RefBackend.workouts) = [w] ->
  (exists exs tr,
      run RefBackend.handle (resumeWorkout workoutId st) db
      = (Normal (Result.ok None), mkState (Some w) exs false None, db, tr)
      /\ existsb is_write (requests tr) = false
      /\ (forall id,
             In id (map WorkoutExercise.id exs)
             <-> exists row,
                   In row db.(RefBackend.workout_exercises)
                   /\ row.(WorkoutExercise.workout_id) = workoutId
                   /\ row.(WorkoutExercise.id) = id)
      /\ length exs
         = length (filter (fun r => (r.(WorkoutExercise.workout_id) =? workoutId)%string)
                     db.(RefBackend.workout_exercises))
      /\ StronglySorted Z.le (map WorkoutExercise.order_index exs)
      /\ Forall (fun ex =>
                   ex.(WorkoutExercise.workout_id) = workoutId
                   /\ ex.(WorkoutExercise.sets)
                      = Some (filter (fun s => (s.(WorkoutSet.workout_exercise_id)
                                                =? ex.(WorkoutExercise.id))%string)
                                db.(RefBackend.workout_sets))
                   /\ ex.(WorkoutExercise.exercise)
                      = find (fun c => (c.(Exercise.id)
                                        =? ex.(WorkoutExercise.exercise_id))%string)
                          db.(RefBackend.exercises)
                   /\ ex.(WorkoutExercise.targetSets) = None
                   /\ ex.(WorkoutExercise.restSeconds) = None)
           exs)
  /\ forall db0,
       filter (RefBackend.has_id Workout.id workoutId) db0.(RefBackend.workouts) = [] ->
       exists tr,
         run RefBackend.handle (resumeWorkout workoutId st) db0
         = (Normal (Result.fail RefBackend.single_error.(message)),
            mkState st.(workout) st.(exercises) false
              (Some RefBackend.single_error.(message)),
            db0, tr).
Proof.
  intros Hw. destruct st as [wk exs0 l err]. split.
  - do 2 eexists. cbn. rewrite Hw. cbn.
    split; [reflexivity|]. split; [reflexivity|].
    set (rows := RefBackend.sort_by _ _).
    assert (Hrows : forall r, In r rows <->
                      In r db.(RefBackend.workout_exercises)
                      /\ r.(WorkoutExercise.workout_id) = workoutId).
    { intros r. subst rows. rewrite sort_by_In, filter_In.
      now rewrite String.eqb_eq. }
    split; [|split; [|split]].
    + intros id. rewrite map_map. cbn. rewrite in_map_iff. split.
      * intros (r & <- & Hr). apply Hrows in Hr. exists r. tauto.
      * intros (r & Hin & Hwid & <-). exists r. split; [reflexivity|].
        apply Hrows. tauto.
    + rewrite length_map. subst rows. apply sort_by_length.
    + rewrite map_map. cbn.
      apply (StronglySorted_map Z.le WorkoutExercise.order_index).
      apply resumed_rows_sorted.
    + apply Forall_map, Forall_forall. intros r Hr. apply Hrows in Hr.
      cbn. repeat split. tauto.
  - intros db0 Hnone. eexists. cbn. rewrite Hnone. reflexivity.
Qed.

Lemma resumeWorkout_on_store_witness :
  filter (RefBackend.has_id Workout.id "0") SampleSwap.store.(RefBackend.workouts)
  = [SampleRows.workout0]
  /\ exists exs tr,
       run RefBackend.handle (resumeWorkout "0" initialState) SampleSwap.store
       = (Normal (Result.ok None), mkState (Some SampleRows.workout0) exs false None,
          SampleSwap.store, tr)
       /\ map WorkoutExercise.id exs = ["1"; "2"; "3"]
       /\ length (setsOf "1" (mkState (Some SampleRows.workout0) exs false None))
          = 2%nat.
Proof.
  split; [reflexivity|].
  destruct (proj1 (resumeWorkout_on_store SampleSwap.store initialState "0"
                     SampleRows.workout0 eq_refl))
    as (exs & tr & Hrun & _).
  exists exs, tr. split; [exact Hrun|].
  apply (f_equal (fun r => exercises (snd (fst (fst r))))) in Hrun.
  cbn [fst snd exercises] in Hrun. rewrite <- Hrun.
  split; reflexivity.
Defined.


(** * The rest timer and the workout screen *)

(** ** Counting down *)

Section Countdown.

Import RestTimer.

Lemma ticks_ignored (s : State) (k : nat) :
  s.(visible) = false \/ s.(isPaused) = true ->
  steps s (repeat Tick k) = (s, []).
Proof.
  intros Hidle. induction k as [|k IH]; [reflexivity|].
  cbn [repeat steps step]. unfold tick.
  replace (negb (visible s) || isPaused s) with true.
  - rewrite IH. reflexivity.
  - destruct Hidle as [-> | ->]; [reflexivity|]. now rewrite orb_true_r.
Qed.

Lemma ticks_running (d : Z) (k : nat) :
  forall r,
    0 <= r ->
    steps (mk true d r false) (repeat Tick k)
    = if Z.of_nat k <? Z.max r 1
      then (mk true d (r - Z.of_nat k) false, [])
      else (mk false d 0 false, [Vibrate; OnClose]).
Proof.
  induction k as [|k IH]; intros r Hr.
  - cbn [repeat steps]. destruct (Z.ltb_spec (Z.of_nat 0) (Z.max r 1)); [|lia].
    do 2 f_equal. lia.
  - cbn [repeat steps step]. unfold tick. cbn [visible isPaused negb orb remainingSeconds duration].
    destruct (Z.leb_spec r 1) as [Hle|Hgt].
    + rewrite (ticks_ignored _ k) by (left; reflexivity).
      destruct (Z.ltb_spec (Z.of_nat (S k)) (Z.max r 1)); [lia|reflexivity].
    + rewrite (IH (r - 1)) by lia.
      destruct (Z.ltb_spec (Z.of_nat k) (Z.max (r - 1) 1)),
               (Z.ltb_spec (Z.of_nat (S k)) (Z.max r 1)); try lia.
      * do 2 f_equal. lia.
      * reflexivity.
Qed.

End Countdown.

(** X7.  A timer opened with a non-negative number [d] of seconds and left
    alone counts down one second per tick without any signal, completes at
    tick number [d] (at the first tick when [d] is zero) by vibrating and
    closing once, and is then inert: later ticks change and signal nothing.
    A paused or hidden timer ignores every tick. *)
Theorem rest_timer_completes_once (d : Z) (k : nat) (s : RestTimer.State) :
  0 <= d ->
  RestTimer.steps (RestTimer.open d) (repeat RestTimer.Tick k)
  = (if Z.of_nat k <? Z.max d 1
     then (RestTimer.mk true d (d - Z.of_nat k) false, [])
     else (RestTimer.mk false d 0 false, [RestTimer.Vibrate; RestTimer.OnClose]))
  /\ (s.(RestTimer.visible) = false \/ s.(RestTimer.isPaused) = true ->
      RestTimer.steps s (repeat RestTimer.Tick k) = (s, [])).
Proof.
  intros Hd. split.
  - apply ticks_running. exact Hd.
  - apply ticks_ignored.
Qed.

Lemma rest_timer_completes_once_witness :
  0 <= 3
  /\ RestTimer.steps (RestTimer.open 3) (repeat RestTimer.Tick 2)
     = (RestTimer.mk true 3 1 false, [])
  /\ RestTimer.steps (RestTimer.open 3) (repeat RestTimer.Tick 5)
     = (RestTimer.mk false 3 0 false, [RestTimer.Vibrate; RestTimer.OnClose]).
Proof.
  assert (Hd : 0 <= 3) by lia.
  split; [exact Hd|]. split.
  - exact (proj1 (rest_timer_completes_once 3 2 (RestTimer.open 3) Hd)).
  - exact (proj1 (rest_timer_completes_once 3 5 (RestTimer.open 3) Hd)).
Defined.

(** X8.  On a timer with a non-negative value, +15s followed by -15s gives
    back the state it started from, while -15s followed by +15s leaves the
    larger of the old value and fifteen; and on a running timer with at most
    sixteen seconds left, -15s makes the next tick complete the rest. *)
Theorem rest_timer_adjust_buttons (s : RestTimer.State) :
  0 <= s.(RestTimer.remainingSeconds) ->
  RestTimer.adjustTime (-15) (RestTimer.adjustTime 15 s) = s
  /\ (RestTimer.adjustTime 15 (RestTimer.adjustTime (-15) s)).(RestTimer.remainingSeconds)
     = Z.max s.(RestTimer.remainingSeconds) 15
  /\ (s.(RestTimer.visible) = true -> s.(RestTimer.isPaused) = false ->
      s.(RestTimer.remainingSeconds) <= 16 ->
      RestTimer.steps s [RestTimer.AdjustTime (-15); RestTimer.Tick]
      = (RestTimer.mk false s.(RestTimer.duration) 0 false,
         [RestTimer.Vibrate; RestTimer.OnClose])).
Proof.
  destruct s as [v dur r p]. cbn. intros Hr.
  unfold RestTimer.adjustTime, Math_max. cbn. split; [|split].
  - f_equal. lia.
  - lia.
  - intros -> -> Hle. unfold RestTimer.tick. cbn.
    destruct (Z.leb_spec (Z.max 0 (r + -15)) 1); [reflexivity|lia].
Qed.

Lemma rest_timer_adjust_buttons_witness :
  0 <= (RestTimer.open 10).(RestTimer.remainingSeconds)
  /\ RestTimer.adjustTime (-15) (RestTimer.adjustTime 15 (RestTimer.open 10))
     = RestTimer.open 10
  /\ RestTimer.steps (RestTimer.open 10) [RestTimer.AdjustTime (-15); RestTimer.Tick]
     = (RestTimer.mk false 10 0 false, [RestTimer.Vibrate; RestTimer.OnClose]).
Proof.
  assert (H0 : 0 <= (RestTimer.open 10).(RestTimer.remainingSeconds)) by (cbn; lia).
  destruct (rest_timer_adjust_buttons (RestTimer.open 10) H0) as (Hback & _ & Hend).
  split; [exact H0|]. split; [exact Hback|].
  apply Hend; [reflexivity|reflexivity|cbn; lia].
Defined.

(** ** The clock texts *)

Section ClockTexts.

Lemma two_digits_below_hundred (n : nat) :
  (n < 100)%nat ->
  Js.padStart 2 "0" (Js.Number_toString (Z.of_nat n)) = Js.two_digits (Z.of_nat n).
Proof.
  intros Hn.
  assert (Hall :
    forallb (fun n => String.eqb
                        (Js.padStart 2 "0" (Js.Number_toString (Z.of_nat n)))
                        (Js.two_digits (Z.of_nat n)))
            (seq 0 100) = true) by (vm_compute; reflexivity).
  rewrite forallb_forall in Hall.
  apply String.eqb_eq, Hall, in_seq. lia.
Qed.

Lemma padded (r : Z) :
  0 <= r < 100 ->
  Js.padStart 2 "0" (Js.Number_toString r) = Js.two_digits r.
Proof.
  intros Hr. rewrite <- (Z2Nat.id r) by lia.
  apply two_digits_below_hundred. lia.
Qed.

End ClockTexts.

(** X9.  For every non-negative number of seconds the rest timer shows the
    minutes, a colon, and the seconds past the minute with exactly two
    digits; the elapsed-time display shows the same text below one hour and
    from one hour on the hours, the minutes past the hour and the seconds,
    the last two with exactly two digits each. *)
Theorem clocks_show_two_digits (seconds : Z) :
  0 <= seconds ->
  RestTimerText.formatTime seconds
  = Js.Number_toString (seconds / 60) ++ ":" ++ Js.two_digits (seconds mod 60)
  /\ (seconds < 3600 ->
      ActiveWorkoutScreen.formatTime seconds = RestTimerText.formatTime seconds)
  /\ (3600 <= seconds ->
      ActiveWorkoutScreen.formatTime seconds
      = Js.Number_toString (seconds / 3600) ++ ":"
        ++ Js.two_digits (seconds mod 3600 / 60) ++ ":"
        ++ Js.two_digits (seconds mod 60)).
Proof.
  intros Hs.
  assert (H60 : Z.rem seconds 60 = seconds mod 60) by (apply Z.rem_mod_nonneg; lia).
  assert (H3600 : Z.rem seconds 3600 = seconds mod 3600)
    by (apply Z.rem_mod_nonneg; lia).
  pose proof (Z.mod_pos_bound seconds 60 ltac:(lia)) as Hsec.
  pose proof (Z.mod_pos_bound seconds 3600 ltac:(lia)) as Hrem.
  assert (Hmin : 0 <= seconds mod 3600 / 60 < 100).
  { split; [apply Z.div_pos; lia|]. apply Z.div_lt_upper_bound; lia. }
  unfold RestTimerText.formatTime, ActiveWorkoutScreen.formatTime.
  rewrite H60, H3600, !(padded (seconds mod 60)) by lia.
  split; [reflexivity|]. split.
  - intros Hlt. rewrite (Z.div_small seconds 3600) by lia. cbn [Z.ltb Z.compare].
    rewrite (Z.mod_small seconds 3600) by lia. reflexivity.
  - intros Hge.
    assert (Hh : 0 < seconds / 3600) by (apply Z.div_str_pos; lia).
    apply Z.ltb_lt in Hh. rewrite Hh, (padded _ Hmin). reflexivity.
Qed.

Lemma clocks_show_two_digits_witness :
  0 <= 3725
  /\ RestTimerText.formatTime 65 = "1:05"
  /\ ActiveWorkoutScreen.formatTime 3725 = "1:02:05"
  /\ ActiveWorkoutScreen.formatTime 3725
     = Js.Number_toString (3725 / 3600) ++ ":"
       ++ Js.two_digits (3725 mod 3600 / 60) ++ ":" ++ Js.two_digits (3725 mod 60).
Proof.
  assert (H : 0 <= 3725) by lia.
  split; [exact H|]. split; [reflexivity|]. split; [reflexivity|].
  apply (clocks_show_two_digits 3725 H). lia.
Defined.

(** ** The exercise pointer *)

Section Pointer.

Import ActiveWorkoutScreen.

Lemma press_in_bounds (exercises : list WorkoutExercise.t) (idx : Z) (p : Press) :
  rendered exercises p ->
  0 <= idx < length_ exercises ->
  0 <= press exercises idx p < length_ exercises.
Proof.
  unfold length_. intros Hp Hidx. destruct p as [| |i]; cbn in *.
  - unfold handleNextExercise, length_.
    destruct (Z.ltb_spec idx (Z.of_nat (length exercises) - 1)); lia.
  - unfold handlePreviousExercise. destruct (Z.ltb_spec 0 idx); lia.
  - lia.
Qed.

Lemma presses_in_bounds (exercises : list WorkoutExercise.t) (presses : list Press) :
  forall idx,
    Forall (rendered exercises) presses ->
    0 <= idx < length_ exercises ->
    0 <= fold_left (press exercises) presses idx < length_ exercises.
Proof.
  induction presses as [|p presses IH]; intros idx Hall Hidx; [exact Hidx|].
  inversion Hall as [|? ? Hp Hrest]; subst. cbn [fold_left].
  apply IH; [exact Hrest|]. now apply press_in_bounds.
Qed.

End Pointer.

(** X10.  On a screen with at least one exercise, starting at the first and
    whatever buttons and dots are pressed, the exercise pointer stays within
    the list, so the screen always has a current exercise; Next on the last
    exercise and Previous on the first change nothing. *)
Theorem exercise_pointer_in_bounds (exercises : list WorkoutExercise.t)
    (presses : list ActiveWorkoutScreen.Press) :
  exercises <> [] ->
  Forall (ActiveWorkoutScreen.rendered exercises) presses ->
  0 <= fold_left (ActiveWorkoutScreen.press exercises) presses 0 < length_ exercises
  /\ ActiveWorkoutScreen.currentExercise exercises
       (fold_left (ActiveWorkoutScreen.press exercises) presses 0) <> None
  /\ ActiveWorkoutScreen.handleNextExercise exercises (length_ exercises - 1)
     = length_ exercises - 1
  /\ ActiveWorkoutScreen.handlePreviousExercise 0 = 0.
Proof.
  intros Hne Hall.
  assert (Hlen : 0 < length_ exercises).
  { unfold length_. destruct exercises; [contradiction|cbn; lia]. }
  pose proof (presses_in_bounds exercises presses 0 Hall ltac:(lia)) as Hidx.
  split; [exact Hidx|]. split; [|split].
  - unfold ActiveWorkoutScreen.currentExercise.
    destruct (Z.ltb_spec (fold_left (ActiveWorkoutScreen.press exercises) presses 0) 0);
      [lia|].
    apply nth_error_Some. unfold length_ in Hidx. lia.
  - unfold ActiveWorkoutScreen.handleNextExercise. now rewrite Z.ltb_irrefl.
  - reflexivity.
Qed.

Lemma exercise_pointer_in_bounds_witness :
  Sample.session.(exercises) <> []
  /\ Forall (ActiveWorkoutScreen.rendered Sample.session.(exercises))
       [ActiveWorkoutScreen.Previous; ActiveWorkoutScreen.Dot 2;
        ActiveWorkoutScreen.Next]
  /\ fold_left (ActiveWorkoutScreen.press Sample.session.(exercises))
       [ActiveWorkoutScreen.Previous; ActiveWorkoutScreen.Dot 2;
        ActiveWorkoutScreen.Next] 0 = 2
  /\ ActiveWorkoutScreen.currentExercise Sample.session.(exercises)
       (fold_left (ActiveWorkoutScreen.press Sample.session.(exercises))
          [ActiveWorkoutScreen.Previous; ActiveWorkoutScreen.Dot 2;
           ActiveWorkoutScreen.Next] 0) <> None.
Proof.
  assert (Hne : Sample.session.(exercises) <> []) by discriminate.
  assert (Hall : Forall (ActiveWorkoutScreen.rendered Sample.session.(exercises))
                   [ActiveWorkoutScreen.Previous; ActiveWorkoutScreen.Dot 2;
                    ActiveWorkoutScreen.Next]).
  { repeat constructor. }
  split; [exact Hne|]. split; [exact Hall|]. split; [reflexivity|].
  exact (proj1 (proj2 (exercise_pointer_in_bounds _ _ Hne Hall))).
Defined.

(** ** Finishing from the screen *)

Section Finish.

Lemma totalSets_zero_iff (exs : list WorkoutExercise.t) :
  spec_totalSets exs = 0
  <-> Forall (fun s => s.(WorkoutSet.is_warmup) = true) (all_sets exs).
Proof.
  unfold spec_totalSets, length_. generalize (all_sets exs) as sets.
  induction sets as [|s sets IH]; cbn.
  - split; [constructor|reflexivity].
  - unfold is_working at 1. destruct (WorkoutSet.is_warmup s) eqn:Hw; cbn.
    + rewrite IH. split; [now constructor|]. intros H. now inversion H.
    + split; [lia|]. intros H. inversion H; congruence.
Qed.

End Finish.

(** X11.  The Finish button opens the completion dialog exactly when the
    session holds at least one set that is no warmup; when every held set is
    a warmup, or none is held, it shows the alert that offers to abandon
    instead. *)
Theorem finish_needs_a_working_set (state : UseWorkoutState) :
  (Forall (fun s => s.(WorkoutSet.is_warmup) = true) (all_sets state.(exercises)) ->
   ActiveWorkoutScreen.handleFinishWorkout state
   = [ActiveWorkoutScreen.AlertNoSetsLogged])
  /\ (Exists (fun s => s.(WorkoutSet.is_warmup) = false) (all_sets state.(exercises)) ->
      ActiveWorkoutScreen.handleFinishWorkout state
      = [ActiveWorkoutScreen.SetShowFinishModal true]).
Proof.
  assert (Hsets : totalSets (getWorkoutStats state) = spec_totalSets state.(exercises)).
  { unfold getWorkoutStats. cbn. rewrite totalSets_fold. lia. }
  unfold ActiveWorkoutScreen.handleFinishWorkout. rewrite Hsets. split.
  - intros Hall. apply totalSets_zero_iff in Hall. now rewrite Hall.
  - intros Hex.
    destruct (Z.eqb_spec (spec_totalSets (exercises state)) 0) as [Hz|_];
      [|reflexivity].
    apply totalSets_zero_iff in Hz. apply Exists_exists in Hex.
    destruct Hex as (s & Hs & Hw). rewrite Forall_forall in Hz.
    specialize (Hz s Hs). congruence.
Qed.

Lemma finish_needs_a_working_set_witness :
  Forall (fun s => s.(WorkoutSet.is_warmup) = true) (all_sets Sample.session.(exercises))
  /\ ActiveWorkoutScreen.handleFinishWorkout Sample.session
     = [ActiveWorkoutScreen.AlertNoSetsLogged]
  /\ Exists (fun s => s.(WorkoutSet.is_warmup) = false)
       (all_sets SampleSwap.session.(exercises))
  /\ ActiveWorkoutScreen.handleFinishWorkout SampleSwap.session
     = [ActiveWorkoutScreen.SetShowFinishModal true].
Proof.
  assert (H1 : Forall (fun s => s.(WorkoutSet.is_warmup) = true)
                 (all_sets Sample.session.(exercises))) by constructor.
  assert (H2 : Exists (fun s => s.(WorkoutSet.is_warmup) = false)
                 (all_sets SampleSwap.session.(exercises)))
    by (constructor; reflexivity).
  split; [exact H1|].
  split; [exact (proj1 (finish_needs_a_working_set Sample.session) H1)|].
  split; [exact H2|].
  exact (proj2 (finish_needs_a_working_set SampleSwap.session) H2).
Defined.



(** * The set-input card *)

Section CardRows.

Variable parseFloat : string -> option Q.
Variable parseInt : string -> option Z.
Variable Weight_toString : Q -> string.

Lemma mapi_ext {A C : Type} (f g : A -> nat -> C) (l : list A) :
  (forall x i, f x i = g x i) -> forall k, mapi f k l = mapi g k l.
Proof.
  intros Hfg. induction l as [|x l IH]; intros k; cbn; [reflexivity|].
  now rewrite Hfg, IH.
Qed.

Lemma map_mapi_same {A C : Type} (g : A -> C) (f : A -> nat -> A) (l : list A) :
  (forall x i, g (f x i) = g x) -> forall k, map g (mapi f k l) = map g l.
Proof.
  intros Hg k. rewrite map_mapi.
  rewrite (mapi_ext _ (fun x _ => g x)) by exact Hg.
  apply mapi_no_index.
Qed.

Lemma nth_error_mapi {A C : Type} (f : A -> nat -> C) (l : list A) :
  forall k j,
    nth_error (mapi f k l) j = option_map (fun x => f x (k + j)%nat) (nth_error l j).
Proof.
  induction l as [|x l IH]; intros k [|j]; cbn; try reflexivity.
  - now rewrite Nat.add_0_r.
  - rewrite IH. now rewrite Nat.add_succ_r.
Qed.

Lemma clean_allowed (value : string) :
  forallb SetInputCard.allowed (list_ascii_of_string (SetInputCard.clean value)) = true.
Proof.
  induction value as [|c rest IH]; cbn; [reflexivity|].
  destruct (SetInputCard.allowed c) eqn:Hc; cbn; [now rewrite Hc|exact IH].
Qed.

Lemma clean_kept (value : string) :
  forallb SetInputCard.allowed (list_ascii_of_string value) = true ->
  SetInputCard.clean value = value.
Proof.
  induction value as [|c rest IH]; cbn; [reflexivity|].
  intros H. apply andb_true_iff in H. destruct H as [Hc Hrest].
  now rewrite Hc, IH.
Qed.

Lemma edit_rows (e : SetInputCard.Edit) (sets : list SetRowData.t) :
  exists f,
    SetInputCard.edit parseFloat parseInt Weight_toString e sets
    = mapi (fun set i => if (i =? SetInputCard.edited_index e)%nat then f set else set)
        0%nat sets
    /\ forall set,
         SetRowData.setNumber (f set) = SetRowData.setNumber set
         /\ SetRowData.isCompleted (f set) = SetRowData.isCompleted set
         /\ SetRowData.setId (f set) = SetRowData.setId set.
Proof.
  destruct e as [index delta|index delta|index field value]; cbn.
  - eexists (fun set => SetInputCard.with_weight set _). split; [reflexivity|].
    intros set. repeat split.
  - eexists (fun set => SetInputCard.with_reps set _). split; [reflexivity|].
    intros set. repeat split.
  - destruct field.
    + exists (fun set => SetInputCard.with_weight set (SetInputCard.clean value)).
      split; [reflexivity|]. intros set. repeat split.
    + exists (fun set => SetInputCard.with_reps set (SetInputCard.clean value)).
      split; [reflexivity|]. intros set. repeat split.
Qed.

End CardRows.

(** X13.  The three edits of the card that need no backend, [adjustWeight],
    [adjustReps] and [updateSetValue], leave the number of rows, the set
    numbers, the completion marks and the set ids as they are and do not
    touch any row but the addressed one (none when the index is past the
    end).  [updateSetValue] stores the typed text without every character
    that is no digit and no dot: what it stores has only digits and dots, a
    text of digits and dots is stored as typed, and cleaning twice is
    cleaning once. *)
Theorem card_edits_touch_one_row (parseFloat : string -> option Q)
    (parseInt : string -> option Z) (Weight_toString : Q -> string)
    (e : SetInputCard.Edit) (sets : list SetRowData.t)
    (index : nat) (field : SetInputCard.Field) (value : string)
    (row : SetRowData.t) :
  nth_error sets index = Some row ->
  length (SetInputCard.edit parseFloat parseInt Weight_toString e sets) = length sets
  /\ map SetRowData.setNumber
       (SetInputCard.edit parseFloat parseInt Weight_toString e sets)
     = map SetRowData.setNumber sets
  /\ map SetRowData.isCompleted
       (SetInputCard.edit parseFloat parseInt Weight_toString e sets)
     = map SetRowData.isCompleted sets
  /\ map SetRowData.setId
       (SetInputCard.edit parseFloat parseInt Weight_toString e sets)
     = map SetRowData.setId sets
  /\ (forall j, j <> SetInputCard.edited_index e ->
      nth_error (SetInputCard.edit parseFloat parseInt Weight_toString e sets) j
      = nth_error sets j)
  /\ (exists row',
         nth_error (SetInputCard.updateSetValue index field value sets) index
         = Some row'
         /\ SetInputCard.field_text field row' = SetInputCard.clean value
         /\ forallb SetInputCard.allowed
              (list_ascii_of_string (SetInputCard.field_text field row')) = true)
  /\ (forallb SetInputCard.allowed (list_ascii_of_string value) = true ->
      SetInputCard.clean value = value)
  /\ SetInputCard.clean (SetInputCard.clean value) = SetInputCard.clean value.
Proof.
  intros Hrow.
  destruct (edit_rows parseFloat parseInt Weight_toString e sets)
    as (f & -> & Hf).
  split; [apply mapi_length|].
  split; [apply map_mapi_same; intros x i; destruct (i =? _)%nat; [apply Hf|reflexivity]|].
  split; [apply map_mapi_same; intros x i; destruct (i =? _)%nat; [apply Hf|reflexivity]|].
  split; [apply map_mapi_same; intros x i; destruct (i =? _)%nat; [apply Hf|reflexivity]|].
  split.
  { intros j Hj. rewrite nth_error_mapi. cbn.
    destruct (Nat.eqb_spec j (SetInputCard.edited_index e)); [contradiction|].
    destruct (nth_error sets j); reflexivity. }
  split.
  { unfold SetInputCard.updateSetValue. rewrite nth_error_mapi, Hrow. cbn.
    rewrite Nat.eqb_refl.
    destruct field; eexists; (split; [reflexivity|]); cbn;
      (split; [reflexivity|apply clean_allowed]). }
  split; [apply clean_kept|].
  apply clean_kept, clean_allowed.
Qed.

Lemma card_edits_touch_one_row_witness :
  nth_error SampleCard.rows 1 = Some (SampleCard.typed 2 "100" "")
  /\ SetInputCard.updateSetValue 1 SetInputCard.reps_field "8 reps" SampleCard.rows
     = [SampleCard.typed 1 "100" "5"; SampleCard.typed 2 "100" "8";
        SampleCard.typed 3 "" ""]
  /\ length (SetInputCard.edit SampleCard.parseFloat SampleCard.parseInt
               SampleCard.Weight_toString
               (SetInputCard.UpdateSetValue 1 SetInputCard.reps_field "8 reps")
               SampleCard.rows)
     = length SampleCard.rows.
Proof.
  split; [reflexivity|]. split; [reflexivity|].
  exact (proj1 (card_edits_touch_one_row SampleCard.parseFloat SampleCard.parseInt
                  SampleCard.Weight_toString
                  (SetInputCard.UpdateSetValue 1 SetInputCard.reps_field "8 reps")
                  SampleCard.rows 1 SetInputCard.reps_field "8 reps"
                  (SampleCard.typed 2 "100" "") eq_refl)).
Defined.

Lemma markCompleted_length (index : nat) (setId : string)
    (prev : list SetRowData.t) :
  length (SetInputCard.markCompleted index setId prev) = length prev.
Proof. apply mapi_length. Qed.

Lemma markCompleted_setNumber (index : nat) (setId : string)
    (prev : list SetRowData.t) :
  map SetRowData.setNumber (SetInputCard.markCompleted index setId prev)
  = map SetRowData.setNumber prev.
Proof.
  apply map_mapi_same. intros x i. destruct (i =? index)%nat; reflexivity.
Qed.

Lemma markCompleted_nth (index : nat) (setId : string)
    (prev : list SetRowData.t) (j : nat) :
  nth_error (SetInputCard.markCompleted index setId prev) j
  = option_map (fun s => if (j =? index)%nat
                         then SetInputCard.completed_with s setId else s)
      (nth_error prev j).
Proof. unfold SetInputCard.markCompleted. now rewrite nth_error_mapi. Qed.

(** X14.  [handleSaveSet] sends nothing for a row whose weight or number of
    repetitions does not parse as a number, or is zero or negative: whatever
    the backend and the state, no request leaves, the state of the hook, the
    rows and the spinner stay what they were and the rest timer is not
    started. *)
Theorem handleSaveSet_rejects_bad_input {B : Type} (h : Handler B) (b : B)
    (parseFloat : string -> option Q) (parseInt : string -> option Z)
    (st : UseWorkoutState) (workoutExercise : WorkoutExercise.t) (index : nat)
    (sets : list SetRowData.t) (savingSet : option nat) (row : SetRowData.t) :
  nth_error sets index = Some row ->
  match parseFloat row.(SetRowData.weight), parseInt row.(SetRowData.reps) with
  | Some weight, Some reps => (weight <= 0)%Q \/ reps <= 0
  | _, _ => True
  end ->
  exists saved,
    run h (SetInputCard.handleSaveSet parseFloat parseInt workoutExercise index
             sets savingSet st) b
    = (Normal saved, st, b, [])
    /\ (forall prev, saved.(SetInputCard.setSets) prev = prev)
    /\ saved.(SetInputCard.savingSet) = savingSet
    /\ saved.(SetInputCard.onSetComplete) = [].
Proof.
  intros Hrow Hbad. unfold SetInputCard.handleSaveSet. rewrite Hrow.
  destruct (parseFloat (SetRowData.weight row)) as [weight|];
    [destruct (parseInt (SetRowData.reps row)) as [reps|]|].
  - assert (Hgate : Qle_bool weight 0 || (reps <=? 0) = true).
    { apply orb_true_iff. destruct Hbad as [Hw|Hr].
      - left. now apply Qle_bool_iff.
      - right. now apply Z.leb_le. }
    rewrite Hgate. eexists. split; [reflexivity|]. cbn. auto.
  - eexists. split; [reflexivity|]. cbn. auto.
  - eexists. split; [reflexivity|]. cbn. auto.
Qed.

Lemma handleSaveSet_rejects_bad_input_witness :
  nth_error SampleCard.rows 1 = Some (SampleCard.typed 2 "100" "")
  /\ SampleCard.parseInt "" = None
  /\ exists saved,
       run RefBackend.handle
         (SetInputCard.handleSaveSet SampleCard.parseFloat SampleCard.parseInt
            SampleCard.slot 1 SampleCard.rows None Sample.session) Sample.store
       = (Normal saved, Sample.session, Sample.store, [])
       /\ (forall prev, saved.(SetInputCard.setSets) prev = prev)
       /\ saved.(SetInputCard.savingSet) = None
       /\ saved.(SetInputCard.onSetComplete) = [].
Proof.
  split; [reflexivity|]. split; [reflexivity|].
  exact (handleSaveSet_rejects_bad_input RefBackend.handle Sample.store
           SampleCard.parseFloat SampleCard.parseInt Sample.session
           SampleCard.slot 1 SampleCard.rows None (SampleCard.typed 2 "100" "")
           eq_refl I).
Defined.

(** X15.  [handleSaveSet] on a row with a positive weight and a positive
    number of repetitions that is not yet saved, in an active session: one
    insert leaves, for the slot of the card, with the set number of the row,
    the parsed weight and repetitions and [is_warmup] false.  When the
    backend creates the set, the session holds it at the end of the list of
    the slot, the update handed to [setSets] marks the row at the index
    completed with the id of the new set and leaves its texts, every other
    row, the number of rows and the set numbers alone, and the rest timer is
    started once with the rest time of the slot (90 when it has none).  When
    the backend refuses, the session and the rows stay what they were and
    the timer is not started.  Either way the spinner is cleared. *)
Theorem handleSaveSet_logs_new_row {B : Type} (h : Handler B) (b : B)
    (parseFloat : string -> option Q) (parseInt : string -> option Z)
    (st : UseWorkoutState) (workoutExercise : WorkoutExercise.t) (index : nat)
    (sets : list SetRowData.t) (savingSet : option nat) (row : SetRowData.t)
    (weight : Q) (reps : Z) :
  nth_error sets index = Some row ->
  parseFloat row.(SetRowData.weight) = Some weight ->
  parseInt row.(SetRowData.reps) = Some reps ->
  (0 < weight)%Q -> 0 < reps ->
  row.(SetRowData.isCompleted) && truthyString row.(SetRowData.setId) = false ->
  st.(workout) <> None ->
  find (fun ex => (ex.(WorkoutExercise.id)
                   =? workoutExercise.(WorkoutExercise.id))%string)
    st.(exercises) <> None ->
  let insert :=
    InsertSet workoutExercise.(WorkoutExercise.id)
      (NewWorkoutSet.mk row.(SetRowData.setNumber) (Some weight) (Some reps)
         None (Some false) None None
         workoutExercise.(WorkoutExercise.targetReps)) in
  (forall newSet b1,
      h _ insert b = (PgData newSet, b1) ->
      exists saved st',
        run h (SetInputCard.handleSaveSet parseFloat parseInt workoutExercise
                 index sets savingSet st) b
        = (Normal saved, st', b1, [exchange insert (PgData newSet)])
        /\ setsOf workoutExercise.(WorkoutExercise.id) st'
           = (setsOf workoutExercise.(WorkoutExercise.id) st ++ [newSet])%list
        /\ saved.(SetInputCard.savingSet) = None
        /\ saved.(SetInputCard.onSetComplete)
           = [nullish workoutExercise.(WorkoutExercise.restSeconds) 90]
        /\ (forall prev,
             length (saved.(SetInputCard.setSets) prev) = length prev
             /\ map SetRowData.setNumber (saved.(SetInputCard.setSets) prev)
                = map SetRowData.setNumber prev
             /\ (forall j, j <> index ->
                 nth_error (saved.(SetInputCard.setSets) prev) j
                 = nth_error prev j)
             /\ (forall s, nth_error prev index = Some s ->
                 exists s',
                   nth_error (saved.(SetInputCard.setSets) prev) index = Some s'
                   /\ s'.(SetRowData.isCompleted) = true
                   /\ s'.(SetRowData.setId) = Some newSet.(WorkoutSet.id)
                   /\ s'.(SetRowData.weight) = s.(SetRowData.weight)
                   /\ s'.(SetRowData.reps) = s.(SetRowData.reps))))
  /\ (forall e b1,
      h _ insert b = (PgError e, b1) ->
      exists saved,
        run h (SetInputCard.handleSaveSet parseFloat parseInt workoutExercise
                 index sets savingSet st) b
        = (Normal saved, st, b1, [exchange insert (PgError e)])
        /\ saved.(SetInputCard.savingSet) = None
        /\ saved.(SetInputCard.onSetComplete) = []
        /\ (forall prev, saved.(SetInputCard.setSets) prev = prev)).
Proof.
  intros Hrow Hw Hr Hwpos Hrpos Hnew Hactive Hslot insert.
  assert (Hgate : Qle_bool weight 0 || (reps <=? 0) = false).
  { apply orb_false_iff. split.
    - destruct (Qle_bool weight 0) eqn:Hq; [|reflexivity].
      apply Qle_bool_iff in Hq. exfalso. apply (Qlt_not_le _ _ Hwpos Hq).
    - apply Z.leb_gt. exact Hrpos. }
  assert (Hrun :
    run h (SetInputCard.handleSaveSet parseFloat parseInt workoutExercise
             index sets savingSet st) b
    = let '(r, st', b1, tr) :=
        run h (logSet workoutExercise.(WorkoutExercise.id)
                 (SetInputCard.newSetFor workoutExercise row weight reps) st) b in
      match r with
      | Normal r =>
          (Normal
             (match r.(Result.success), r.(Result.value) with
              | true, Some newSet =>
                  SetInputCard.mkSaved
                    (SetInputCard.markCompleted index newSet.(WorkoutSet.id))
                    None [SetInputCard.restSeconds workoutExercise]
              | _, _ => SetInputCard.mkSaved (fun prev => prev) None []
              end), st', b1, tr)
      | Abrupt e => (Abrupt e, st', b1, tr)
      end).
  { unfold SetInputCard.handleSaveSet. rewrite Hrow, Hw, Hr, Hnew, Hgate.
    unfold bind. rewrite run_pbind.
    destruct (run h (logSet _ _ st) b) as [[[[r|e] st'] b1] tr];
      [|cbn; now rewrite app_nil_r].
    destruct r as [[|] err [newSet|]]; cbn; now rewrite app_nil_r. }
  rewrite Hrun, logSet_run. clear Hrun.
  destruct (workout st) as [w|] eqn:Hwk; [|congruence].
  unfold SetInputCard.newSetFor, SetInputCard.targetReps. fold insert.
  split.
  - intros newSet b1 Hanswer. rewrite Hanswer.
    eexists; eexists. split; [reflexivity|].
    cbn [SetInputCard.setSets SetInputCard.savingSet SetInputCard.onSetComplete
         Result.success Result.value Result.ok].
    split.
    { rewrite <- Hwk. apply (setsOf_append_same _ newSet st Hslot). }
    split; [reflexivity|]. split; [reflexivity|].
    intros prev. split; [apply markCompleted_length|].
    split; [apply markCompleted_setNumber|].
    split.
    + intros j Hj. rewrite markCompleted_nth.
      destruct (Nat.eqb_spec j index); [contradiction|].
      destruct (nth_error prev j); reflexivity.
    + intros s Hs. rewrite markCompleted_nth, Hs. cbn. rewrite Nat.eqb_refl.
      eexists. split; [reflexivity|]. cbn. auto.
  - intros e b1 Hanswer. rewrite Hanswer.
    eexists. split; [reflexivity|]. cbn. auto.
Qed.

Lemma handleSaveSet_logs_new_row_witness :
  RefBackend.handle _ (InsertSet "1" (Sample.set_100x5 1)) Sample.store
  = (PgData SampleCard.created,
     snd (RefBackend.handle _ (InsertSet "1" (Sample.set_100x5 1)) Sample.store))
  /\ exists saved st',
       run RefBackend.handle
         (SetInputCard.handleSaveSet SampleCard.parseFloat SampleCard.parseInt
            SampleCard.slot 0 SampleCard.rows None Sample.session) Sample.store
       = (Normal saved, st',
          snd (RefBackend.handle _ (InsertSet "1" (Sample.set_100x5 1))
                 Sample.store),
          [exchange (InsertSet "1" (Sample.set_100x5 1))
             (PgData SampleCard.created)])
       /\ setsOf "1" st' = [SampleCard.created]
       /\ saved.(SetInputCard.onSetComplete) = [120]
       /\ map SetRowData.setNumber (saved.(SetInputCard.setSets) SampleCard.rows)
          = [1; 2; 3].
Proof.
  assert (Hanswer :
    RefBackend.handle _ (InsertSet "1" (Sample.set_100x5 1)) Sample.store
    = (PgData SampleCard.created,
       snd (RefBackend.handle _ (InsertSet "1" (Sample.set_100x5 1))
              Sample.store))) by reflexivity.
  split; [exact Hanswer|].
  destruct (proj1 (handleSaveSet_logs_new_row RefBackend.handle Sample.store
                     SampleCard.parseFloat SampleCard.parseInt Sample.session
                     SampleCard.slot 0 SampleCard.rows None
                     (SampleCard.typed 1 "100" "5") 100 5
                     eq_refl eq_refl eq_refl eq_refl eq_refl eq_refl
                     ltac:(discriminate) ltac:(discriminate))
              SampleCard.created _ Hanswer)
    as (saved & st' & Hrun & Hsets & _ & Htimer & Hrows).
  exists saved, st'. split; [exact Hrun|]. split; [exact Hsets|].
  split; [exact Htimer|].
  exact (proj1 (proj2 (Hrows SampleCard.rows))).
Defined.

(** X16.  [handleSaveSet] on a completed row that carries a set id, with a
    positive weight and a positive number of repetitions: exactly one
    request leaves, the update of that set with the parsed weight and
    repetitions and nothing else; no set is inserted, the rest timer is not
    started, the rows are left as they are and the spinner is cleared,
    whatever the backend answers.  When the backend carries the update out,
    the session replaces the sets with that id by the returned row; when it
    refuses, the session stays what it was while the row keeps the text that
    was typed. *)
Theorem handleSaveSet_updates_saved_row {B : Type} (h : Handler B) (b : B)
    (parseFloat : string -> option Q) (parseInt : string -> option Z)
    (st : UseWorkoutState) (workoutExercise : WorkoutExercise.t) (index : nat)
    (sets : list SetRowData.t) (savingSet : option nat) (row : SetRowData.t)
    (weight : Q) (reps : Z) (setId : string) :
  nth_error sets index = Some row ->
  parseFloat row.(SetRowData.weight) = Some weight ->
  parseInt row.(SetRowData.reps) = Some reps ->
  (0 < weight)%Q -> 0 < reps ->
  row.(SetRowData.isCompleted) = true ->
  row.(SetRowData.setId) = Some setId ->
  setId <> "" ->
  let update :=
    UpdateSet setId
      (PartialWorkoutSet.mk None None None (Some (Some weight))
         (Some (Some reps)) None None None None None None None) in
  exists saved st' answer,
    run h (SetInputCard.handleSaveSet parseFloat parseInt workoutExercise index
             sets savingSet st) b
    = (Normal saved, st', snd (h _ update b), [exchange update answer])
    /\ answer = fst (h _ update b)
    /\ saved.(SetInputCard.savingSet) = None
    /\ saved.(SetInputCard.onSetComplete) = []
    /\ (forall prev, saved.(SetInputCard.setSets) prev = prev)
    /\ match answer with
       | PgData updatedSet =>
           forall key,
             setsOf key st'
             = map (fun s => if (s.(WorkoutSet.id) =? setId)%string
                             then updatedSet else s)
                 (setsOf key st)
       | PgError _ => st' = st
       end.
Proof.
  intros Hrow Hw Hr Hwpos Hrpos Hdone Hid Hne update.
  assert (Hgate : Qle_bool weight 0 || (reps <=? 0) = false).
  { apply orb_false_iff. split.
    - destruct (Qle_bool weight 0) eqn:Hq; [|reflexivity].
      apply Qle_bool_iff in Hq. exfalso. apply (Qlt_not_le _ _ Hwpos Hq).
    - apply Z.leb_gt. exact Hrpos. }
  assert (Htruthy : truthyString (Some setId) = true).
  { destruct setId; [congruence|reflexivity]. }
  unfold SetInputCard.handleSaveSet.
  rewrite Hrow, Hw, Hr, Hgate, Hdone, Hid, Htruthy. cbn [andb nullish].
  unfold bind. rewrite run_pbind, updateSet_run.
  unfold SetInputCard.weight_only. fold update.
  destruct (h _ update b) as [[updatedSet|e] b1]; cbn.
  - eexists; eexists; eexists. split; [reflexivity|]. cbn.
    split; [reflexivity|]. split; [reflexivity|]. split; [reflexivity|].
    split; [reflexivity|].
    intros key.
    apply (setsOf_replace setId updatedSet key st).
  - eexists; eexists; eexists. split; [reflexivity|]. cbn. auto.
Qed.

Lemma handleSaveSet_updates_saved_row_witness :
  exists saved st' answer,
    run RefBackend.handle
      (SetInputCard.handleSaveSet SampleCard.parseFloat SampleCard.parseInt
         SampleCard.slot 1 SampleDelete.rows None SampleDelete.session)
      SampleDelete.store
    = (Normal saved, st',
       snd (RefBackend.handle _ (UpdateSet "5" SampleCard.correction)
              SampleDelete.store),
       [exchange (UpdateSet "5" SampleCard.correction) answer])
    /\ saved.(SetInputCard.onSetComplete) = []
    /\ saved.(SetInputCard.setSets) SampleDelete.rows = SampleDelete.rows.
Proof.
  destruct (handleSaveSet_updates_saved_row RefBackend.handle SampleDelete.store
              SampleCard.parseFloat SampleCard.parseInt SampleDelete.session
              SampleCard.slot 1 SampleDelete.rows None
              (SampleDelete.saved 2 "5") 100 5 "5"
              eq_refl eq_refl eq_refl eq_refl eq_refl eq_refl eq_refl
              ltac:(discriminate))
    as (saved & st' & answer & Hrun & _ & _ & Htimer & Hrows & _).
  exists saved, st', answer. split; [exact Hrun|]. split; [exact Htimer|].
  apply Hrows.
Defined.

(** ** The numbering of the rows *)

Lemma one_to_length (n : nat) : length (one_to n) = n.
Proof. unfold one_to. now rewrite length_map, length_seq. Qed.

Lemma one_to_S (n : nat) : one_to (S n) = (one_to n ++ [Z.of_nat n + 1])%list.
Proof. unfold one_to. now rewrite seq_S, map_app. Qed.

Lemma nth_error_one_to (n i : nat) :
  nth_error (one_to n) i = if (i <? n)%nat then Some (Z.of_nat i + 1) else None.
Proof.
  unfold one_to. rewrite nth_error_map.
  destruct (Nat.ltb_spec i n) as [Hlt|Hge].
  - assert (H : forall k, nth_error (seq k n) i = Some (k + i)%nat).
    { revert i Hlt. induction n as [|n IH]; intros i Hlt k; [lia|].
      destruct i as [|i]; cbn; [now rewrite Nat.add_0_r|].
      rewrite IH by lia. f_equal. lia. }
    rewrite H. reflexivity.
  - assert (H : nth_error (seq 0 n) i = None).
    { apply nth_error_None. rewrite length_seq. exact Hge. }
    rewrite H. reflexivity.
Qed.

Section Numbering.

Variable Weight_toString : Q -> string.

Lemma initialRow_setNumber (workoutExercise : WorkoutExercise.t)
    (prevSets : list PreviousSetData.t) (i : Z) :
  SetRowData.setNumber
    (SetInputCard.initialRow Weight_toString workoutExercise prevSets i) = i.
Proof.
  unfold SetInputCard.initialRow.
  destruct (find _ (SetInputCard.workingSets workoutExercise)); reflexivity.
Qed.

Lemma initialSets_numbered (workoutExercise : WorkoutExercise.t)
    (prevSets : list PreviousSetData.t) :
  SetInputCard.numbered
    (SetInputCard.initialSets Weight_toString workoutExercise prevSets).
Proof.
  unfold SetInputCard.numbered, SetInputCard.initialSets.
  rewrite length_map, one_to_length, map_map.
  rewrite <- (map_id (one_to _)) at 2.
  apply map_ext. intros i. apply initialRow_setNumber.
Qed.

Lemma addSet_numbered (workoutExercise : WorkoutExercise.t)
    (previousSets : list PreviousSetData.t) (sets : list SetRowData.t) :
  SetInputCard.numbered sets ->
  SetInputCard.numbered
    (SetInputCard.addSet Weight_toString workoutExercise previousSets sets)
  /\ length (SetInputCard.addSet Weight_toString workoutExercise previousSets sets)
     = S (length sets).
Proof.
  unfold SetInputCard.numbered, SetInputCard.addSet. intros Hnum.
  rewrite length_app, map_app, Hnum. cbn [length map SetRowData.setNumber].
  rewrite Nat.add_1_r, one_to_S. split; reflexivity.
Qed.

End Numbering.

Section SaveSetAny.

Context {B : Type} (h : Handler B).
Variable parseFloat : string -> option Q.
Variable parseInt : string -> option Z.

(** [handleSaveSet] on a row that exists, whatever the row and the backend. *)
Lemma handleSaveSet_completes (workoutExercise : WorkoutExercise.t)
    (index : nat) (sets : list SetRowData.t) (savingSet : option nat)
    (st : UseWorkoutState) (b : B) :
  (index < length sets)%nat ->
  exists saved st' b' tr,
    run h (SetInputCard.handleSaveSet parseFloat parseInt workoutExercise index
             sets savingSet st) b
    = (Normal saved, st', b', tr)
    /\ (length tr <= 1)%nat
    /\ forallb (fun c => touches_sets (request c)) tr = true
    /\ (forall prev,
         length (saved.(SetInputCard.setSets) prev) = length prev
         /\ map SetRowData.setNumber (saved.(SetInputCard.setSets) prev)
            = map SetRowData.setNumber prev).
Proof.
  intros Hlt. unfold SetInputCard.handleSaveSet.
  destruct (nth_error sets index) as [row|] eqn:Hrow;
    [|apply nth_error_None in Hrow; lia].
  assert (Hsame : forall (sv : option nat) (st' : UseWorkoutState) (b' : B)
                    (tr : list Exchange),
             (length tr <= 1)%nat ->
             forallb (fun c => touches_sets (request c)) tr = true ->
             exists saved st'' b'' tr',
               (Normal (SetInputCard.mkSaved (fun prev => prev) sv []), st', b', tr)
               = (Normal saved, st'', b'', tr')
               /\ (length tr' <= 1)%nat
               /\ forallb (fun c => touches_sets (request c)) tr' = true
               /\ (forall prev,
                    length (saved.(SetInputCard.setSets) prev) = length prev
                    /\ map SetRowData.setNumber (saved.(SetInputCard.setSets) prev)
                       = map SetRowData.setNumber prev)).
  { intros sv st' b' tr Hlen Hreq. do 4 eexists. split; [reflexivity|].
    cbn. auto. }
  destruct (parseFloat (SetRowData.weight row)) as [weight|];
    [destruct (parseInt (SetRowData.reps row)) as [reps|]|];
    [|apply Hsame; cbn; auto|apply Hsame; cbn; auto].
  destruct (Qle_bool weight 0 || (reps <=? 0)); [apply Hsame; cbn; auto|].
  destruct (SetRowData.isCompleted row && truthyString (SetRowData.setId row)).
  - unfold bind. rewrite run_pbind, updateSet_run.
    destruct (h _ (UpdateSet _ _) b) as [[u|e] b1]; cbn; apply Hsame; cbn; auto.
  - unfold bind. rewrite run_pbind, logSet_run.
    destruct (workout st) as [w|]; [|cbn; apply Hsame; cbn; auto].
    destruct (h _ (InsertSet _ _) b) as [[newSet|e] b1];
      cbn -[SetInputCard.markCompleted]; [|apply Hsame; cbn; auto].
    do 4 eexists. split; [reflexivity|].
    cbn [SetInputCard.setSets length forallb].
    split; [lia|]. split; [reflexivity|].
    intros prev. split;
      [apply markCompleted_length|apply markCompleted_setNumber].
Qed.

End SaveSetAny.

(** X17.  The rows of the card are numbered 1, 2, ..., N in order at every
    moment: [loadData] builds them so, and from rows so numbered [addSet]
    adds one row and keeps the numbering, the three edits keep it,
    [handleSaveSet] on a row that exists ends normally with at most one
    request, about a set, and an update of the rows that keeps their number
    and numbering, and [handleDeleteSet] on a row that exists takes one row
    away and leaves the rest numbered from one. *)
Theorem card_rows_stay_numbered {B : Type} (h : Handler B) (b : B)
    (parseFloat : string -> option Q) (parseInt : string -> option Z)
    (Weight_toString : Q -> string) (st : UseWorkoutState)
    (workoutExercise : WorkoutExercise.t) (previousSets : list PreviousSetData.t)
    (sets : list SetRowData.t) :
  SetInputCard.numbered sets ->
  SetInputCard.numbered
    (SetInputCard.initialSets Weight_toString workoutExercise previousSets)
  /\ (SetInputCard.numbered
        (SetInputCard.addSet Weight_toString workoutExercise previousSets sets)
      /\ length (SetInputCard.addSet Weight_toString workoutExercise
                   previousSets sets) = S (length sets))
  /\ (forall e,
        SetInputCard.numbered
          (SetInputCard.edit parseFloat parseInt Weight_toString e sets))
  /\ (forall index savingSet,
        (index < length sets)%nat ->
        exists saved st' b' tr,
          run h (SetInputCard.handleSaveSet parseFloat parseInt workoutExercise
                   index sets savingSet st) b
          = (Normal saved, st', b', tr)
          /\ (length tr <= 1)%nat
          /\ forallb (fun c => touches_sets (request c)) tr = true
          /\ SetInputCard.numbered (saved.(SetInputCard.setSets) sets))
  /\ (forall index,
        (index < length sets)%nat ->
        exists rows' st' b' tr,
          run h (handleDeleteSet workoutExercise index sets st) b
          = (Normal rows', st', b', tr)
          /\ S (length rows') = length sets
          /\ SetInputCard.numbered rows').
Proof.
  intros Hnum.
  split; [apply initialSets_numbered|].
  split; [apply addSet_numbered; exact Hnum|].
  split.
  { intros e.
    destruct (edit_rows parseFloat parseInt Weight_toString e sets)
      as (f & Hedit & Hf).
    unfold SetInputCard.numbered. rewrite Hedit, mapi_length.
    rewrite map_mapi_same; [exact Hnum|].
    intros x i. destruct (i =? _)%nat; [apply Hf|reflexivity]. }
  split.
  { intros index savingSet Hlt.
    destruct (handleSaveSet_completes h parseFloat parseInt workoutExercise
                index sets savingSet st b Hlt)
      as (saved & st' & b' & tr & Hrun & Hlen & Hreq & Hrows).
    exists saved, st', b', tr. split; [exact Hrun|]. split; [exact Hlen|].
    split; [exact Hreq|].
    unfold SetInputCard.numbered.
    destruct (Hrows sets) as [Hl Hn]. rewrite Hl, Hn. exact Hnum. }
  intros index Hlt. apply handleDeleteSet_rows. exact Hlt.
Qed.

Lemma card_rows_stay_numbered_witness :
  SetInputCard.numbered SampleCard.rows
  /\ SetInputCard.numbered
       (SetInputCard.addSet SampleCard.Weight_toString SampleCard.slot []
          SampleCard.rows)
  /\ length (SetInputCard.addSet SampleCard.Weight_toString SampleCard.slot []
               SampleCard.rows) = 4%nat.
Proof.
  split; [reflexivity|].
  exact (proj1 (proj2 (card_rows_stay_numbered RefBackend.handle Sample.store
                         SampleCard.parseFloat SampleCard.parseInt
                         SampleCard.Weight_toString Sample.session
                         SampleCard.slot [] SampleCard.rows eq_refl))).
Defined.

(** ** The rows a card starts from *)

Lemma find_by_number {A : Type} (num : A -> Z) (l : list A) :
  forall k,
    map num l = map (fun i => Z.of_nat i + 1) (seq k (length l)) ->
    (forall i s, nth_error l i = Some s ->
       find (fun s => num s =? Z.of_nat (k + i) + 1) l = Some s)
    /\ (forall n, (k + length l <= n)%nat ->
          find (fun s => num s =? Z.of_nat n + 1) l = None).
Proof.
  induction l as [|x l IH]; intros k Hmap.
  - split; [intros [|i] s H; discriminate|reflexivity].
  - cbn in Hmap. injection Hmap as Hx Hl.
    destruct (IH (S k) Hl) as [IHin IHout]. split.
    + intros [|i] s Hs; cbn in *.
      * injection Hs as <-. rewrite Hx, Nat.add_0_r, Z.eqb_refl. reflexivity.
      * rewrite Hx.
        destruct (Z.eqb_spec (Z.of_nat k + 1) (Z.of_nat (k + S i) + 1)); [lia|].
        replace (k + S i)%nat with (S k + i)%nat by lia.
        apply IHin. exact Hs.
    + intros n Hn. cbn in *. rewrite Hx.
      destruct (Z.eqb_spec (Z.of_nat k + 1) (Z.of_nat n + 1)); [lia|].
      apply IHout. lia.
Qed.

(** X18.  The rows [loadData] builds for a slot.  There are as many as the
    larger of the target number of sets (3 when the slot has none) and the
    number of working sets of the slot, none of them a warm-up row.  A row
    is marked completed exactly when it carries a set id, and then the id is
    that of a working set of the slot whose set number is the number of the
    row; every working set numbered within the rows has a completed row at
    its number.  When the working sets are numbered 1, 2, ... in order, as
    the card itself logs them, row i shows the i-th of them for each i up to
    their number, with its id, and every further row is open. *)
Theorem initialSets_show_working_sets (Weight_toString : Q -> string)
    (workoutExercise : WorkoutExercise.t) (prevSets : list PreviousSetData.t) :
  let working :=
    filter (fun s => negb s.(WorkoutSet.is_warmup))
      (nullish workoutExercise.(WorkoutExercise.sets) []) in
  let rows :=
    SetInputCard.initialSets Weight_toString workoutExercise prevSets in
  length_ rows
  = Math_max (nullish workoutExercise.(WorkoutExercise.targetSets) 3)
      (length_ working)
  /\ (forall i row, nth_error rows i = Some row ->
        row.(SetRowData.isWarmup) = false
        /\ (row.(SetRowData.isCompleted) = true
            <-> row.(SetRowData.setId) <> None)
        /\ (forall setId, row.(SetRowData.setId) = Some setId ->
              exists s, In s working
                        /\ s.(WorkoutSet.id) = setId
                        /\ s.(WorkoutSet.set_number) = Z.of_nat i + 1))
  /\ (forall s, In s working ->
        1 <= s.(WorkoutSet.set_number) <= length_ rows ->
        exists row,
          nth_error rows (Z.to_nat (s.(WorkoutSet.set_number) - 1)) = Some row
          /\ row.(SetRowData.isCompleted) = true)
  /\ (map WorkoutSet.set_number working = one_to (length working) ->
      (forall i s, nth_error working i = Some s ->
         exists row,
           nth_error rows i = Some row
           /\ row.(SetRowData.isCompleted) = true
           /\ row.(SetRowData.setId) = Some s.(WorkoutSet.id))
      /\ (forall i row, (length working <= i)%nat ->
            nth_error rows i = Some row ->
            row.(SetRowData.isCompleted) = false
            /\ row.(SetRowData.setId) = None)).
Proof.
  intros working rows.
  set (N := Z.to_nat (Math_max (SetInputCard.targetSets workoutExercise)
                        (length_ working))).
  assert (Hrows : forall i,
            nth_error rows i
            = if (i <? N)%nat
              then Some (SetInputCard.initialRow Weight_toString workoutExercise
                           prevSets (Z.of_nat i + 1))
              else None).
  { intros i. unfold rows, SetInputCard.initialSets.
    rewrite nth_error_map. fold working. fold (SetInputCard.workingSets workoutExercise).
    unfold SetInputCard.workingSets. fold working. fold N.
    rewrite nth_error_one_to. destruct (i <? N)%nat; reflexivity. }
  assert (Hlen : length rows = N).
  { unfold rows, SetInputCard.initialSets. rewrite length_map, one_to_length.
    reflexivity. }
  assert (HN : Z.of_nat N
               = Math_max (nullish workoutExercise.(WorkoutExercise.targetSets) 3)
                   (length_ working)).
  { unfold N, SetInputCard.targetSets, Math_max, length_. lia. }
  split.
  { unfold length_ at 1. rewrite Hlen. exact HN. }
  split.
  { intros i row Hrow. rewrite Hrows in Hrow.
    destruct (i <? N)%nat; [|discriminate]. injection Hrow as <-.
    unfold SetInputCard.initialRow, SetInputCard.workingSets. fold working.
    destruct (find _ working) as [s|] eqn:Hfind; cbn.
    - split; [reflexivity|]. split; [split; [discriminate|reflexivity]|].
      intros setId Hid. injection Hid as <-.
      apply find_some in Hfind. destruct Hfind as [Hin Hnum].
      exists s. split; [exact Hin|]. split; [reflexivity|].
      apply Z.eqb_eq. exact Hnum.
    - split; [reflexivity|]. split; [split; [discriminate|congruence]|].
      discriminate. }
  split.
  { intros s Hin Hrange. unfold length_ in Hrange. rewrite Hlen in Hrange.
    rewrite Hrows.
    destruct (Nat.ltb_spec (Z.to_nat (WorkoutSet.set_number s - 1)) N) as [_|Hge];
      [|lia].
    eexists. split; [reflexivity|].
    unfold SetInputCard.initialRow, SetInputCard.workingSets. fold working.
    replace (Z.of_nat (Z.to_nat (WorkoutSet.set_number s - 1)) + 1)
      with (WorkoutSet.set_number s) by lia.
    destruct (find _ working) as [s'|] eqn:Hfind; [reflexivity|].
    pose proof (find_none _ _ Hfind s Hin) as Hno. cbn in Hno.
    rewrite Z.eqb_refl in Hno. discriminate. }
  intros Hdense.
  destruct (find_by_number WorkoutSet.set_number working 0%nat Hdense)
    as [Hin Hout].
  assert (Hle : (length working <= N)%nat).
  { apply Nat2Z.inj_le. rewrite HN. unfold Math_max, length_. lia. }
  split.
  - intros i s Hs. rewrite Hrows.
    assert (Hi : (i < length working)%nat).
    { apply nth_error_Some. congruence. }
    destruct (Nat.ltb_spec i N) as [_|Hge]; [|lia].
    eexists. split; [reflexivity|].
    unfold SetInputCard.initialRow, SetInputCard.workingSets. fold working.
    pose proof (Hin i s Hs) as Hfound. cbn [Nat.add] in Hfound.
    rewrite Hfound. split; reflexivity.
  - intros i row Hi Hrow. rewrite Hrows in Hrow.
    destruct (i <? N)%nat; [|discriminate]. injection Hrow as <-.
    unfold SetInputCard.initialRow, SetInputCard.workingSets. fold working.
    rewrite (Hout i) by lia. split; reflexivity.
Qed.

Lemma initialSets_show_working_sets_witness :
  map WorkoutSet.id
    (filter (fun s => negb s.(WorkoutSet.is_warmup))
       (nullish SampleCard.resumed.(WorkoutExercise.sets) []))
  = ["4"; "5"; "6"]
  /\ forall i s,
       nth_error
         (filter (fun s => negb s.(WorkoutSet.is_warmup))
            (nullish SampleCard.resumed.(WorkoutExercise.sets) [])) i = Some s ->
       exists row,
         nth_error
           (SetInputCard.initialSets SampleCard.Weight_toString
              SampleCard.resumed []) i = Some row
         /\ row.(SetRowData.isCompleted) = true
         /\ row.(SetRowData.setId) = Some s.(WorkoutSet.id).
Proof.
  split; [reflexivity|].
  exact (proj1 (proj2 (proj2 (proj2
           (initialSets_show_working_sets SampleCard.Weight_toString
              SampleCard.resumed []))) eq_refl)).
Defined.

(** X19.  [loadData] only reads: whatever the backend, the user and the
    state, it ends normally, leaves the state of the hook alone and sends no
    write; signed out it sends nothing at all, and signed out or refused it
    has no previous sets.  In the rows it builds, an open row with a
    previous set of its number shows the weight and the repetitions of that
    set and keeps them as the previous values; an open row without one
    shows no weight, the target repetitions of the slot (nothing when it has
    none) and no previous values. *)
Theorem loadData_prefills_open_rows {B : Type} (h : Handler B) (b : B)
    (Weight_toString : Q -> string) (user : option User.t)
    (workoutExercise : WorkoutExercise.t) (st : UseWorkoutState) :
  exists prevSets rows b' tr,
    run h (SetInputCard.loadData Weight_toString user workoutExercise st) b
    = (Normal (prevSets, rows), st, b', tr)
    /\ existsb is_write (requests tr) = false
    /\ (user = None -> tr = [])
    /\ (user = None \/ existsb refused tr = true -> prevSets = [])
    /\ SetInputCard.numbered rows
    /\ forall i row,
         nth_error rows i = Some row ->
         row.(SetRowData.isCompleted) = false ->
         match find (fun p => p.(PreviousSetData.set_number) =? Z.of_nat i + 1)
                    prevSets with
         | Some p =>
             row.(SetRowData.weight) = Weight_toString p.(PreviousSetData.weight_kg)
             /\ row.(SetRowData.reps) = Js.Number_toString p.(PreviousSetData.reps)
             /\ row.(SetRowData.previousWeight) = Some p.(PreviousSetData.weight_kg)
             /\ row.(SetRowData.previousReps) = Some p.(PreviousSetData.reps)
         | None =>
             row.(SetRowData.weight) = ""
             /\ row.(SetRowData.reps)
                = match workoutExercise.(WorkoutExercise.targetReps) with
                  | Some n => Js.Number_toString n
                  | None => ""
                  end
             /\ row.(SetRowData.previousWeight) = None
             /\ row.(SetRowData.previousReps) = None
         end.
Proof.
  assert (Hrows : forall prevSets i row,
            nth_error (SetInputCard.initialSets Weight_toString workoutExercise
                         prevSets) i = Some row ->
            row.(SetRowData.isCompleted) = false ->
            match find (fun p => p.(PreviousSetData.set_number) =? Z.of_nat i + 1)
                       prevSets with
            | Some p =>
                row.(SetRowData.weight)
                = Weight_toString p.(PreviousSetData.weight_kg)
                /\ row.(SetRowData.reps)
                   = Js.Number_toString p.(PreviousSetData.reps)
                /\ row.(SetRowData.previousWeight)
                   = Some p.(PreviousSetData.weight_kg)
                /\ row.(SetRowData.previousReps) = Some p.(PreviousSetData.reps)
            | None =>
                row.(SetRowData.weight) = ""
                /\ row.(SetRowData.reps)
                   = match workoutExercise.(WorkoutExercise.targetReps) with
                     | Some n => Js.Number_toString n
                     | None => ""
                     end
                /\ row.(SetRowData.previousWeight) = None
                /\ row.(SetRowData.previousReps) = None
            end).
  { intros prevSets i row Hrow Hopen.
    unfold SetInputCard.initialSets in Hrow.
    rewrite nth_error_map, nth_error_one_to in Hrow.
    destruct (i <? _)%nat; [|discriminate]. cbn in Hrow. injection Hrow as <-.
    revert Hopen. unfold SetInputCard.initialRow.
    destruct (find _ (SetInputCard.workingSets workoutExercise));
      [discriminate|intros _].
    destruct (find _ prevSets) as [p|]; cbn; [auto|].
    unfold SetInputCard.targetReps.
    destruct (WorkoutExercise.targetReps workoutExercise); cbn; auto. }
  unfold SetInputCard.loadData, bind. rewrite run_pbind.
  destruct user as [user|].
  - destruct (getPreviousSets_any h user
                workoutExercise.(WorkoutExercise.exercise_id) st b)
      as (prevSets & b' & tr & Hrun & Hread & _ & Hrefused).
    rewrite Hrun. cbn. rewrite app_nil_r.
    exists prevSets, (SetInputCard.initialSets Weight_toString workoutExercise
                        prevSets), b', tr.
    split; [reflexivity|]. split; [exact Hread|].
    split; [discriminate|].
    split; [intros [Hnone|Href]; [discriminate|exact (Hrefused Href)]|].
    split; [apply initialSets_numbered|apply Hrows].
  - cbn.
    exists [], (SetInputCard.initialSets Weight_toString workoutExercise []), b, [].
    split; [reflexivity|]. split; [reflexivity|]. split; [reflexivity|].
    split; [reflexivity|].
    split; [apply initialSets_numbered|apply Hrows].
Qed.

Lemma loadData_prefills_open_rows_witness :
  exists prevSets rows b' tr,
    run Offline.handle
      (SetInputCard.loadData SampleCard.Weight_toString (Some Sample.user)
         SampleCard.slot Sample.session) tt
    = (Normal (prevSets, rows), Sample.session, b', tr)
    /\ existsb is_write (requests tr) = false
    /\ SetInputCard.numbered rows.
Proof.
  destruct (loadData_prefills_open_rows Offline.handle tt
              SampleCard.Weight_toString (Some Sample.user) SampleCard.slot
              Sample.session)
    as (prevSets & rows & b' & tr & Hrun & Hread & _ & _ & Hnum & _).
  exists prevSets, rows, b', tr. auto.
Defined.

(** * The exercise swap dialog *)

Section SwapDialog.

Import ExerciseSwapModal.

Lemma MuscleGroup_text_inj (a b : MuscleGroup) :
  (MuscleGroup_text a =? MuscleGroup_text b)%string = true -> a = b.
Proof. destruct a, b; cbn; intros H; try discriminate H; reflexivity. Qed.

Lemma includes_In (ms : list MuscleGroup) (m : MuscleGroup) :
  includes ms m = true <-> In m ms.
Proof.
  unfold includes. rewrite existsb_exists. split.
  - intros (x & Hin & Hx). apply MuscleGroup_text_inj in Hx. now subst.
  - intros Hin. exists m. split; [exact Hin|apply String.eqb_refl].
Qed.

(** Every muscle group is on exactly one chip, and the chip is found again
    by its label. *)
Lemma group_of (m : MuscleGroup) :
  exists group,
    find (fun g => includes g.(muscles) m) MUSCLE_GROUPS = Some group
    /\ In group MUSCLE_GROUPS
    /\ In m group.(muscles)
    /\ (forall g, In g MUSCLE_GROUPS -> In m g.(muscles) -> g = group)
    /\ truthyString (Some group.(label)) = true
    /\ find (fun g => (g.(label) =? group.(label))%string) MUSCLE_GROUPS
       = Some group.
Proof.
  destruct m; eexists; (split; [reflexivity|]);
    (split; [cbn; tauto|]); (split; [cbn; tauto|]);
    (split; [|split; reflexivity]);
    intros g Hg Hm; cbn in Hg;
    repeat (destruct Hg as [<-|Hg]; [cbn in Hm; try reflexivity;
                                      exfalso; intuition discriminate|]);
    destruct Hg.
Qed.

Lemma filter_twice {A : Type} (f g : A -> bool) (l : list A) :
  filter f (filter g l) = filter (fun x => g x && f x) l.
Proof.
  induction l as [|x l IH]; cbn; [reflexivity|].
  destruct (g x); cbn; [destruct (f x)|]; now rewrite IH.
Qed.

Lemma filter_all {A : Type} (l : list A) : filter (fun _ => true) l = l.
Proof. induction l as [|x l IH]; cbn; [reflexivity|]. now rewrite IH. Qed.

End SwapDialog.

Section SwapHook.

Context {B : Type} (h : Handler B).

(** One [swapExercise], by the answer of the backend. *)
Lemma swapExercise_run (workoutExerciseId newExerciseId : string)
    (st : UseWorkoutState) (b : B) :
  run h (swapExercise workoutExerciseId newExerciseId st) b
  = match h _ (UpdateWorkoutExercise workoutExerciseId newExerciseId true) b with
    | (PgData data, b1) =>
        (Normal (Result.ok None),
         mkState st.(workout)
           (map (fun ex =>
                   if (ex.(WorkoutExercise.id) =? workoutExerciseId)%string
                   then WorkoutExercise.with_sets data (Some [])
                   else ex)
                st.(exercises))
           st.(loading) st.(error),
         b1,
         [exchange (UpdateWorkoutExercise workoutExerciseId newExerciseId true)
            (PgData data)])
    | (PgError e, b1) =>
        (Normal (Result.fail (catch_message e "Failed to swap exercise")),
         st, b1,
         [exchange (UpdateWorkoutExercise workoutExerciseId newExerciseId true)
            (PgError e)])
    end.
Proof.
  destruct st as [wk exs l err]. cbn.
  destruct (h _ (UpdateWorkoutExercise _ _ _) b) as [[data|e] b1]; reflexivity.
Qed.

End SwapHook.

(** X22.  The list of the swap dialog only ever leaves exercises out: it is
    the catalogue filtered, in catalogue order.  It never offers an exercise
    with the id of the current one; with a chip selected whose label names a
    group it offers only exercises whose primary muscle is in that group;
    with a search text that is not blank it offers only exercises whose
    name, primary muscle or equipment contains the lower-cased text, which
    is not trimmed; and with no search and no chip, or a label that names no
    group, it offers every exercise but the current one. *)
Theorem swap_list_is_filtered (toLowerCase trim : string -> string)
    (exercises : list Exercise.t) (currentExercise : option Exercise.t)
    (selectedFilter : option string) (searchQuery : string) :
  let filtered :=
    ExerciseSwapModal.filteredExercises toLowerCase trim exercises
      currentExercise selectedFilter searchQuery in
  (exists keep, filtered = filter keep exercises)
  /\ (forall c e, currentExercise = Some c -> In e filtered ->
        e.(Exercise.id) <> c.(Exercise.id))
  /\ (forall l group e,
        selectedFilter = Some l -> l <> "" ->
        find (fun g => (g.(ExerciseSwapModal.label) =? l)%string)
          ExerciseSwapModal.MUSCLE_GROUPS = Some group ->
        In e filtered ->
        In e.(Exercise.primary_muscle_group) group.(ExerciseSwapModal.muscles))
  /\ (forall e, trim searchQuery <> "" -> In e filtered ->
        ExerciseSwapModal.matches toLowerCase (toLowerCase searchQuery) e = true)
  /\ (trim searchQuery = "" ->
      (selectedFilter = None \/ selectedFilter = Some ""
       \/ exists l, selectedFilter = Some l
                    /\ find (fun g => (g.(ExerciseSwapModal.label) =? l)%string)
                         ExerciseSwapModal.MUSCLE_GROUPS = None) ->
      filtered
      = match currentExercise with
        | Some c =>
            filter (fun e => negb (e.(Exercise.id) =? c.(Exercise.id))%string)
              exercises
        | None => exercises
        end).
Proof.
  cbv zeta. unfold ExerciseSwapModal.filteredExercises.
  set (f1 := match currentExercise with
             | Some c =>
                 filter (fun e => negb (e.(Exercise.id) =? c.(Exercise.id))%string)
                   exercises
             | None => exercises
             end).
  set (f2 := if truthyString selectedFilter
             then match find _ ExerciseSwapModal.MUSCLE_GROUPS with
                  | Some group => filter _ f1
                  | None => f1
                  end
             else f1).
  set (f3 := if ExerciseSwapModal.truthy (trim searchQuery)
             then filter _ f2 else f2).
  assert (H1 : exists keep, f1 = filter keep exercises).
  { subst f1. destruct currentExercise as [c|].
    - eexists. reflexivity.
    - exists (fun _ => true). symmetry. apply filter_all. }
  assert (H2 : exists keep, f2 = filter keep f1).
  { subst f2. destruct (truthyString selectedFilter);
      [destruct (find _ ExerciseSwapModal.MUSCLE_GROUPS)|];
      try (eexists; reflexivity);
      exists (fun _ => true); symmetry; apply filter_all. }
  assert (H3 : exists keep, f3 = filter keep f2).
  { subst f3. destruct (ExerciseSwapModal.truthy (trim searchQuery)).
    - eexists. reflexivity.
    - exists (fun _ => true). symmetry. apply filter_all. }
  assert (Hin32 : forall e, In e f3 -> In e f2).
  { destruct H3 as [k ->]. intros e He. apply filter_In in He. tauto. }
  assert (Hin21 : forall e, In e f2 -> In e f1).
  { destruct H2 as [k ->]. intros e He. apply filter_In in He. tauto. }
  split.
  { destruct H1 as [k1 E1], H2 as [k2 E2], H3 as [k3 E3].
    rewrite E3, E2, E1, !filter_twice. eexists. reflexivity. }
  split.
  { intros c e -> He. apply Hin32, Hin21 in He. subst f1.
    apply filter_In in He. destruct He as [_ He]. intros Heq.
    rewrite Heq, String.eqb_refl in He. discriminate. }
  split.
  { intros l group e -> Hl Hfind He. apply Hin32 in He. subst f2.
    assert (Ht : truthyString (Some l) = true) by (destruct l; [congruence|reflexivity]).
    rewrite Ht in He. cbn [nullish] in He. rewrite Hfind in He.
    apply filter_In in He. destruct He as [_ He].
    apply includes_In. exact He. }
  split.
  { intros e Hq He. subst f3.
    assert (Ht : ExerciseSwapModal.truthy (trim searchQuery) = true)
      by (destruct (trim searchQuery); [congruence|reflexivity]).
    rewrite Ht in He. apply filter_In in He. tauto. }
  intros Hq Hnone. subst f3. rewrite Hq. cbn [ExerciseSwapModal.truthy].
  subst f2. destruct Hnone as [->|[->|(l & -> & Hfind)]];
    [reflexivity|reflexivity|].
  destruct (truthyString (Some l)); [|reflexivity].
  cbn [nullish]. rewrite Hfind. reflexivity.
Qed.

Lemma swap_list_is_filtered_witness :
  SampleModal.trim "  row" <> ""
  /\ ExerciseSwapModal.filteredExercises SampleModal.toLowerCase SampleModal.trim
       SampleModal.exercises (Some Sample.bench) None "ROW"
     = [Sample.row]
  /\ ExerciseSwapModal.filteredExercises SampleModal.toLowerCase SampleModal.trim
       SampleModal.exercises (Some Sample.bench) None "  row"
     = []
  /\ forall e,
       In e (ExerciseSwapModal.filteredExercises SampleModal.toLowerCase
               SampleModal.trim SampleModal.exercises (Some Sample.bench) None
               "  row") ->
       ExerciseSwapModal.matches SampleModal.toLowerCase
         (SampleModal.toLowerCase "  row") e = true.
Proof.
  assert (Hq : SampleModal.trim "  row" <> "") by discriminate.
  split; [exact Hq|]. split; [reflexivity|]. split; [reflexivity|].
  intros e.
  exact (proj1 (proj2 (proj2 (proj2
           (swap_list_is_filtered SampleModal.toLowerCase SampleModal.trim
              SampleModal.exercises (Some Sample.bench) None "  row"))))
           e Hq).
Defined.

(** X23.  The chips of the dialog split the muscle groups: every muscle
    group is on exactly one chip.  So a dialog opened on an exercise always
    has a chip selected, the one of the primary muscle of that exercise,
    and, with a blank search, it offers exactly the other exercises of the
    catalogue whose primary muscle is on that chip. *)
Theorem swap_default_filter (toLowerCase trim : string -> string)
    (exercises : list Exercise.t) (currentExercise : Exercise.t)
    (selectedFilter : option string) (searchQuery : string) :
  trim searchQuery = "" ->
  exists group,
    In group ExerciseSwapModal.MUSCLE_GROUPS
    /\ In currentExercise.(Exercise.primary_muscle_group)
         group.(ExerciseSwapModal.muscles)
    /\ (forall g, In g ExerciseSwapModal.MUSCLE_GROUPS ->
          In currentExercise.(Exercise.primary_muscle_group)
            g.(ExerciseSwapModal.muscles) ->
          g = group)
    /\ ExerciseSwapModal.defaultFilter true (Some currentExercise) selectedFilter
       = Some group.(ExerciseSwapModal.label)
    /\ forall e,
         In e (ExerciseSwapModal.filteredExercises toLowerCase trim exercises
                 (Some currentExercise)
                 (ExerciseSwapModal.defaultFilter true (Some currentExercise)
                    selectedFilter)
                 searchQuery)
         <-> In e exercises
             /\ e.(Exercise.id) <> currentExercise.(Exercise.id)
             /\ In e.(Exercise.primary_muscle_group)
                  group.(ExerciseSwapModal.muscles).
Proof.
  intros Hq.
  destruct (group_of currentExercise.(Exercise.primary_muscle_group))
    as (group & Hfind & Hin & Hm & Huniq & Htruthy & Hlabel).
  exists group. split; [exact Hin|]. split; [exact Hm|]. split; [exact Huniq|].
  assert (Hdefault :
    ExerciseSwapModal.defaultFilter true (Some currentExercise) selectedFilter
    = Some group.(ExerciseSwapModal.label)).
  { unfold ExerciseSwapModal.defaultFilter. rewrite Hfind. reflexivity. }
  split; [exact Hdefault|].
  intros e. rewrite Hdefault. unfold ExerciseSwapModal.filteredExercises.
  rewrite Htruthy, Hq. cbn [nullish ExerciseSwapModal.truthy]. rewrite Hlabel.
  rewrite !filter_In, includes_In, negb_true_iff. split.
  - intros [[He Hid] Hg]. split; [exact He|]. split; [|exact Hg].
    intros Heq. rewrite Heq, String.eqb_refl in Hid. discriminate.
  - intros (He & Hid & Hg). split; [split; [exact He|]|exact Hg].
    apply String.eqb_neq. exact Hid.
Qed.

Lemma swap_default_filter_witness :
  SampleModal.trim "  " = ""
  /\ ExerciseSwapModal.defaultFilter true (Some SampleModal.pulldown) None
     = Some "Back"
  /\ ExerciseSwapModal.filteredExercises SampleModal.toLowerCase SampleModal.trim
       SampleModal.exercises (Some SampleModal.pulldown)
       (ExerciseSwapModal.defaultFilter true (Some SampleModal.pulldown) None)
       "  "
     = [Sample.row]
  /\ exists group,
       In group ExerciseSwapModal.MUSCLE_GROUPS
       /\ In lats group.(ExerciseSwapModal.muscles)
       /\ ExerciseSwapModal.defaultFilter true (Some SampleModal.pulldown) None
          = Some group.(ExerciseSwapModal.label).
Proof.
  split; [reflexivity|]. split; [reflexivity|]. split; [reflexivity|].
  destruct (swap_default_filter SampleModal.toLowerCase SampleModal.trim
              SampleModal.exercises SampleModal.pulldown None "  " eq_refl)
    as (group & Hin & Hm & _ & Hdefault & _).
  exists group. split; [exact Hin|]. split; [exact Hm|exact Hdefault].
Defined.

(** X24.  [handleSwap] without a slot id, or with an empty one, does
    nothing: no request, no change of the session, the dialog stays as it
    is.  With a slot id it sends exactly one request, the update of that
    slot to the chosen exercise marked as a substitution, shows and hides
    the spinner, and closes the dialog exactly when the backend carried the
    update out; the session then holds the returned row with an empty set
    list in place of each exercise with that slot id.  When the backend
    refuses, the dialog stays open, the failure goes to the console only,
    and the session is what it was. *)
Theorem handleSwap_closes_on_success {B : Type} (h : Handler B) (b : B)
    (st : UseWorkoutState) (newExercise : Exercise.t) :
  (forall workoutExerciseId,
      workoutExerciseId = None \/ workoutExerciseId = Some "" ->
      run h (ExerciseSwapModal.handleSwap workoutExerciseId newExercise st) b
      = (Normal [], st, b, []))
  /\ (forall id,
        id <> "" ->
        let update :=
          UpdateWorkoutExercise id newExercise.(Exercise.id) true in
        exists signals st',
          run h (ExerciseSwapModal.handleSwap (Some id) newExercise st) b
          = (Normal signals, st', snd (h _ update b),
             [exchange update (fst (h _ update b))])
          /\ match fst (h _ update b) with
             | PgData data =>
                 signals = [ExerciseSwapModal.SetSwapping true;
                            ExerciseSwapModal.SetSwapping false;
                            ExerciseSwapModal.OnClose]
                 /\ st'.(workout) = st.(workout)
                 /\ st'.(exercises)
                    = map (fun ex =>
                             if (ex.(WorkoutExercise.id) =? id)%string
                             then WorkoutExercise.with_sets data (Some [])
                             else ex)
                        st.(exercises)
             | PgError e =>
                 (exists message,
                    signals = [ExerciseSwapModal.SetSwapping true;
                               ExerciseSwapModal.SetSwapping false;
                               ExerciseSwapModal.ConsoleError (Some message)])
                 /\ st' = st
             end).
Proof.
  split.
  - intros workoutExerciseId [->| ->]; reflexivity.
  - intros id Hid update. unfold ExerciseSwapModal.handleSwap.
    assert (Ht : truthyString (Some id) = true) by (destruct id; [congruence|reflexivity]).
    rewrite Ht. cbn [negb nullish]. unfold bind.
    rewrite run_pbind, swapExercise_run. fold update.
    destruct (h _ update b) as [[data|e] b1]; cbn.
    + eexists; eexists. split; [reflexivity|]. auto.
    + eexists; eexists. split; [reflexivity|]. split; [|reflexivity].
      eexists. reflexivity.
Qed.

Lemma handleSwap_closes_on_success_witness :
  exists signals st',
    run RefBackend.handle
      (ExerciseSwapModal.handleSwap (Some "1") Sample.squat SampleSwap.session)
      SampleSwap.store
    = (Normal signals, st',
       snd (RefBackend.handle _ (UpdateWorkoutExercise "1" "squat" true)
              SampleSwap.store),
       [exchange (UpdateWorkoutExercise "1" "squat" true)
          (fst (RefBackend.handle _ (UpdateWorkoutExercise "1" "squat" true)
                  SampleSwap.store))]).
Proof.
  destruct (proj2 (handleSwap_closes_on_success RefBackend.handle
                     SampleSwap.store SampleSwap.session Sample.squat)
              "1" ltac:(discriminate))
    as (signals & st' & Hrun & _).
  exists signals, st'. exact Hrun.
Defined.

(** * The summary of a workout *)

Section Summary.

Import WorkoutSummaryScreen.

Lemma volume_double (s : WorkoutSet.t) : volume s = double_setVolume s.
Proof.
  unfold volume, double_setVolume.
  destruct (WorkoutSet.weight_kg s) as [w|], (WorkoutSet.reps s) as [r|];
    cbn [nullish]; try reflexivity;
    (apply mul_0_r || apply mul_0_l); reflexivity.
Qed.

(** The running total is the sum of the products, from the left. *)
Lemma visit_total (l : list WorkoutSet.t) :
  forall acc,
    loop_totalVolume (fold_left visit l acc)
    = fold_left Double.add (map double_setVolume l) (loop_totalVolume acc).
Proof.
  induction l as [|s l IH]; intros acc; cbn [fold_left map]; [reflexivity|].
  rewrite IH. unfold visit.
  destruct (negb (Qle_bool (volume s) (loop_bestVolume acc)));
    cbn [loop_totalVolume]; rewrite volume_double; reflexivity.
Qed.

(** What the loop leaves in [bestSet]: either what it found there, no set
    being larger than [bestVolume], or the first of the sets of the largest
    volume. *)
Lemma visit_best (l : list WorkoutSet.t) :
  forall acc,
    (loop_bestSet (fold_left visit l acc) = loop_bestSet acc
     /\ forall s, In s l -> (volume s <= loop_bestVolume acc)%Q)
    \/ (exists i s,
          nth_error l i = Some s
          /\ loop_bestSet (fold_left visit l acc)
             = Some (mkBest s.(WorkoutSet.weight_kg) s.(WorkoutSet.reps))
          /\ (loop_bestVolume acc < volume s)%Q
          /\ (forall s', In s' l -> (volume s' <= volume s)%Q)
          /\ (forall j s', (j < i)%nat -> nth_error l j = Some s' ->
                (volume s' < volume s)%Q)).
Proof.
  induction l as [|x l IH]; intros acc; cbn [fold_left].
  - left. split; [reflexivity|]. intros s [].
  - destruct (Qle_bool (volume x) (loop_bestVolume acc)) eqn:Hle.
    + assert (Hv : visit acc x
                   = mkLoop (Double.add (loop_totalVolume acc) (volume x))
                       (loop_bestSet acc) (loop_bestVolume acc)).
      { unfold visit. rewrite Hle. reflexivity. }
      rewrite Hv. clear Hv. apply Qle_bool_iff in Hle.
      destruct (IH (mkLoop (Double.add (loop_totalVolume acc) (volume x))
                      (loop_bestSet acc) (loop_bestVolume acc)))
        as [[Hbest Hall]|(i & s & Hi & Hbest & Hlt & Hall & Hbefore)];
        cbn [loop_bestSet loop_bestVolume] in *.
      * left. split; [exact Hbest|].
        intros s [<-|Hin]; [exact Hle|apply Hall; exact Hin].
      * right. exists (S i), s. split; [exact Hi|]. split; [exact Hbest|].
        split; [exact Hlt|]. split.
        -- intros s' [<-|Hin]; [|apply Hall; exact Hin].
           apply Qlt_le_weak. apply (Qle_lt_trans _ _ _ Hle Hlt).
        -- intros [|j] s' Hj Hs'; cbn in Hs'.
           ++ injection Hs' as <-. apply (Qle_lt_trans _ _ _ Hle Hlt).
           ++ apply (Hbefore j s'); [lia|exact Hs'].
    + assert (Hv : visit acc x
                   = mkLoop (Double.add (loop_totalVolume acc) (volume x))
                       (Some (mkBest x.(WorkoutSet.weight_kg) x.(WorkoutSet.reps)))
                       (volume x)).
      { unfold visit. rewrite Hle. reflexivity. }
      rewrite Hv. clear Hv.
      assert (Hgt : (loop_bestVolume acc < volume x)%Q).
      { apply Qnot_le_lt. intros H. apply Qle_bool_iff in H. congruence. }
      destruct (IH (mkLoop (Double.add (loop_totalVolume acc) (volume x))
                      (Some (mkBest x.(WorkoutSet.weight_kg) x.(WorkoutSet.reps)))
                      (volume x)))
        as [[Hbest Hall]|(i & s & Hi & Hbest & Hlt & Hall & Hbefore)];
        cbn [loop_bestSet loop_bestVolume] in *.
      * right. exists 0%nat, x. split; [reflexivity|]. split; [exact Hbest|].
        split; [exact Hgt|]. split.
        -- intros s' [<-|Hin]; [apply Qle_refl|apply Hall; exact Hin].
        -- intros j s' Hj. lia.
      * right. exists (S i), s. split; [exact Hi|]. split; [exact Hbest|].
        split; [apply (Qlt_trans _ _ _ Hgt Hlt)|]. split.
        -- intros s' [<-|Hin]; [apply Qlt_le_weak; exact Hlt|apply Hall; exact Hin].
        -- intros [|j] s' Hj Hs'; cbn in Hs'.
           ++ injection Hs' as <-. exact Hlt.
           ++ apply (Hbefore j s'); [lia|exact Hs'].
Qed.

Lemma exerciseStat_line (totals : Z * Q) (we : WorkoutExercise.t) :
  sets (snd (exerciseStat totals we)) = workingSetCount we
  /\ fst (fst (exerciseStat totals we)) = fst totals + workingSetCount we
  /\ snd (fst (exerciseStat totals we))
     = fold_left Double.add
         (map double_setVolume
            (filter is_working (nullish we.(WorkoutExercise.sets) [])))
         (snd totals).
Proof.
  unfold exerciseStat. cbn [fst snd sets].
  rewrite workingSetCount_all_sets. split; [reflexivity|]. split; [reflexivity|].
  apply visit_total.
Qed.

(** The totals after all exercises: the count of the working sets, and one
    running sum over all of them. *)
Lemma exerciseStats_totals (exs : list WorkoutExercise.t) :
  forall totals,
    fst (fst (exerciseStats totals exs)) = fst totals + spec_totalSets exs
    /\ snd (fst (exerciseStats totals exs))
       = fold_left Double.add
           (map double_setVolume (filter is_working (all_sets exs)))
           (snd totals)
    /\ map sets (snd (exerciseStats totals exs)) = map workingSetCount exs.
Proof.
  induction exs as [|we exs IH]; intros totals.
  - cbn. unfold spec_totalSets, length_. cbn.
    split; [lia|]. split; reflexivity.
  - cbn [exerciseStats].
    destruct (exerciseStat_line totals we) as (Hsets & Hcount & Hvol).
    destruct (exerciseStat totals we) as [totals1 line]. cbn [fst snd] in *.
    destruct (IH totals1) as (IHcount & IHvol & IHsets).
    destruct (exerciseStats totals1 exs) as [totals2 lines]. cbn [fst snd] in *.
    split.
    { rewrite IHcount, Hcount, spec_totalSets_cons. lia. }
    split.
    { rewrite IHvol, Hvol. unfold all_sets. cbn [flat_map].
      rewrite filter_app, map_app, fold_left_app. reflexivity. }
    cbn [map]. rewrite Hsets, IHsets. reflexivity.
Qed.

Lemma exerciseStats_nth (exs : list WorkoutExercise.t) :
  forall totals i we,
    nth_error exs i = Some we ->
    exists totals',
      nth_error (snd (exerciseStats totals exs)) i
      = Some (snd (exerciseStat totals' we)).
Proof.
  induction exs as [|x exs IH]; intros totals [|i] we Hi; try discriminate;
    cbn [exerciseStats].
  - injection Hi as <-. exists totals.
    destruct (exerciseStat totals x) as [totals1 line].
    destruct (exerciseStats totals1 exs) as [totals2 lines]. reflexivity.
  - destruct (exerciseStat totals x) as [totals1 line].
    destruct (IH totals1 i we Hi) as [totals' H]. exists totals'.
    destruct (exerciseStats totals1 exs) as [totals2 lines]. exact H.
Qed.

(** Under [exact_volume] the running sum is the exact sum too. *)
Lemma running_volume_exact (k : Z) (exs : list WorkoutExercise.t) :
  exact_volume k exs ->
  (Double.sum (map double_setVolume (filter is_working (all_sets exs)))
   == spec_volume exs)%Q.
Proof.
  intros Hexact. pose proof (exact_volume_sets k exs Hexact) as Hsets.
  destruct Hexact as (Hk & _ & Hb).
  unfold Double.sum, spec_volume.
  rewrite (fold_add_map_exact k double_setVolume spec_setVolume _ _ Hk Hb).
  - ring.
  - apply on_grid_0.
  - exact Hsets.
  - change (Qabs 0) with 0%Q. rewrite Qplus_0_l. apply Qle_refl.
Qed.

End Summary.

(** X20.  The summary screen and the running session count alike: on the
    same exercise rows the statistics block of [fetchWorkoutStats] gives the
    [totalSets] and the [exerciseCount] that [getWorkoutStats] gives, the
    line of each exercise shows its number of non-warmup sets, and the
    exercises [getWorkoutStats] counts as completed are the lines with at
    least one set.  The volumes are added up differently: the summary keeps
    one running sum of doubles over all non-warmup sets, the hook adds the
    sums of the exercises.  They are the same number whenever the doubles
    are exact (weights that are multiples of [2^-k], absolute products
    adding up to less than [2^(53-k)]), and need not be otherwise: for
    50.4 kg by 7 in one exercise and 80.8 kg by 8 and 135.1 kg by 3 in the
    next the summary shows 1405 and the hook 1404. *)
Theorem summary_agrees_with_session (state : UseWorkoutState) :
  let summary := WorkoutSummaryScreen.calculate state.(exercises) in
  summary.(WorkoutSummaryScreen.totalSets) = totalSets (getWorkoutStats state)
  /\ summary.(WorkoutSummaryScreen.exerciseCount)
     = exerciseCount (getWorkoutStats state)
  /\ map WorkoutSummaryScreen.sets summary.(WorkoutSummaryScreen.exercises)
     = map workingSetCount state.(exercises)
  /\ length_ (filter (fun line => 0 <? line.(WorkoutSummaryScreen.sets))
                summary.(WorkoutSummaryScreen.exercises))
     = completedExercises (getWorkoutStats state)
  /\ summary.(WorkoutSummaryScreen.totalVolume)
     = Math_round
         (Double.sum
            (map double_setVolume
               (filter is_working (all_sets state.(exercises)))))
  /\ (forall k,
        exact_volume k state.(exercises) ->
        summary.(WorkoutSummaryScreen.totalVolume)
        = totalVolume (getWorkoutStats state))
  /\ (WorkoutSummaryScreen.calculate SampleSummary.uneven).(WorkoutSummaryScreen.totalVolume)
     = 1405
  /\ totalVolume (getWorkoutStats (mkState None SampleSummary.uneven false None))
     = 1404.
Proof.
  cbv zeta. unfold WorkoutSummaryScreen.calculate.
  destruct (exerciseStats_totals state.(exercises) (0, 0%Q))
    as (Hcount & Hvol & Hsets).
  destruct (WorkoutSummaryScreen.exerciseStats (0, 0%Q) (exercises state))
    as [[count vol] lines].
  cbn [fst snd WorkoutSummaryScreen.totalSets WorkoutSummaryScreen.totalVolume
       WorkoutSummaryScreen.exerciseCount WorkoutSummaryScreen.exercises] in *.
  split.
  { rewrite Hcount. unfold getWorkoutStats. cbn [totalSets].
    rewrite totalSets_fold. reflexivity. }
  split; [reflexivity|]. split; [exact Hsets|].
  split.
  { unfold getWorkoutStats. cbn [completedExercises]. unfold length_. f_equal.
    clear Hcount Hvol. revert lines Hsets.
    induction (exercises state) as [|ex exs IH]; intros [|line lines] Hsets;
      try discriminate; [reflexivity|].
    cbn in Hsets. injection Hsets as Hline Hrest. cbn [filter].
    rewrite Hline. destruct (0 <? workingSetCount ex); cbn [length];
      rewrite (IH lines Hrest); reflexivity. }
  split; [rewrite Hvol; reflexivity|].
  split.
  { intros k Hexact.
    rewrite (totalVolume_round state.(exercises) state eq_refl), Hvol.
    apply Math_round_comp.
    rewrite (double_volume_exact k _ Hexact).
    apply (running_volume_exact k _ Hexact). }
  split; vm_compute; reflexivity.
Qed.

Lemma summary_agrees_with_session_witness :
  exact_volume 0 [SampleSummary.slot]
  /\ (WorkoutSummaryScreen.calculate [SampleSummary.slot]).(WorkoutSummaryScreen.totalVolume)
     = 1700
  /\ totalVolume (getWorkoutStats (mkState None [SampleSummary.slot] false None))
     = 1700.
Proof.
  assert (Hexact : exact_volume 0 [SampleSummary.slot]).
  { split; [lia|]. split; [|vm_compute; reflexivity].
    repeat constructor.
    - exists 100. vm_compute. reflexivity.
    - exists 60. vm_compute. reflexivity.
    - exists 120. vm_compute. reflexivity. }
  split; [exact Hexact|]. split; [vm_compute; reflexivity|].
  rewrite <- (proj1 (proj2 (proj2 (proj2 (proj2 (proj2
                (summary_agrees_with_session
                   (mkState None [SampleSummary.slot] false None)))))))
              0 Hexact).
  vm_compute. reflexivity.
Defined.

(** X21.  The best set the summary shows for an exercise is the first of
    its non-warmup sets of the largest weight times repetitions, the
    product taken in doubles (a missing weight or number counting as 0): it
    is the weight and the repetitions of one of them, no non-warmup set of
    the exercise has a larger product and none before it has as large a
    one.  The summary shows no best set exactly when no non-warmup set has a
    positive product. *)
Theorem summary_best_set_is_largest (exercises : list WorkoutExercise.t)
    (i : nat) (we : WorkoutExercise.t) :
  nth_error exercises i = Some we ->
  let workingSets :=
    filter (fun s => negb s.(WorkoutSet.is_warmup))
      (nullish we.(WorkoutExercise.sets) []) in
  exists line,
    nth_error (WorkoutSummaryScreen.calculate exercises).(WorkoutSummaryScreen.exercises) i
    = Some line
    /\ line.(WorkoutSummaryScreen.sets) = length_ workingSets
    /\ match line.(WorkoutSummaryScreen.bestSet) with
       | None =>
           forall s, In s workingSets -> (WorkoutSummaryScreen.volume s <= 0)%Q
       | Some best =>
           exists k s,
             nth_error workingSets k = Some s
             /\ best = WorkoutSummaryScreen.mkBest s.(WorkoutSet.weight_kg)
                         s.(WorkoutSet.reps)
             /\ (0 < WorkoutSummaryScreen.volume s)%Q
             /\ (forall s', In s' workingSets ->
                   (WorkoutSummaryScreen.volume s' <= WorkoutSummaryScreen.volume s)%Q)
             /\ (forall j s', (j < k)%nat -> nth_error workingSets j = Some s' ->
                   (WorkoutSummaryScreen.volume s' < WorkoutSummaryScreen.volume s)%Q)
       end.
Proof.
  intros Hi workingSets.
  destruct (exerciseStats_nth exercises (0, 0%Q) i we Hi) as [totals' Hline].
  exists (snd (WorkoutSummaryScreen.exerciseStat totals' we)). split.
  { unfold WorkoutSummaryScreen.calculate.
    destruct (WorkoutSummaryScreen.exerciseStats (0, 0%Q) exercises)
      as [[count vol] lines]. exact Hline. }
  split; [reflexivity|].
  unfold WorkoutSummaryScreen.exerciseStat.
  cbn [snd WorkoutSummaryScreen.bestSet]. fold workingSets.
  destruct (visit_best workingSets
              (WorkoutSummaryScreen.mkLoop (snd totals') None 0))
    as [[Hbest Hall]|(k & s & Hk & Hbest & Hlt & Hall & Hbefore)];
    cbn [WorkoutSummaryScreen.loop_bestSet WorkoutSummaryScreen.loop_bestVolume] in *.
  - rewrite Hbest. exact Hall.
  - rewrite Hbest. exists k, s. auto.
Qed.

(** Of 500, 600 and 600 the first 600 is the best; of 32.3 by 15 and 96.9
    by 5 the second, whose double product is the larger. *)
Lemma summary_best_set_is_largest_witness :
  nth_error [SampleSummary.slot; SampleSummary.close] 0 = Some SampleSummary.slot
  /\ map WorkoutSummaryScreen.bestSet
       (WorkoutSummaryScreen.calculate
          [SampleSummary.slot; SampleSummary.close]).(WorkoutSummaryScreen.exercises)
     = [Some (WorkoutSummaryScreen.mkBest (Some 60%Q) (Some 10));
        Some (WorkoutSummaryScreen.mkBest (Some (969 # 10)%Q) (Some 5))]
  /\ exists line,
       nth_error
         (WorkoutSummaryScreen.calculate
            [SampleSummary.slot; SampleSummary.close]).(WorkoutSummaryScreen.exercises) 0
       = Some line
       /\ line.(WorkoutSummaryScreen.sets) = 3.
Proof.
  split; [reflexivity|]. split; [vm_compute; reflexivity|].
  destruct (summary_best_set_is_largest [SampleSummary.slot; SampleSummary.close]
              0 SampleSummary.slot eq_refl) as (line & Hline & Hsets & _).
  exists line. split; [exact Hline|]. rewrite Hsets. reflexivity.
Defined.

(** * Starting from the template screen *)

Lemma mk_id_nonempty (n : nat) : RefBackend.mk_id n <> "".
Proof.
  unfold RefBackend.mk_id. intros H.
  assert (Hnil : Nat.to_uint n = Decimal.Nil).
  { destruct (Nat.to_uint n); cbn in H; try discriminate H; reflexivity. }
  apply (f_equal Nat.of_uint) in Hnil.
  rewrite DecimalNat.Unsigned.of_to in Hnil. cbn in Hnil. subst n.
  discriminate H.
Qed.

Section StartRequests.

Context {B : Type} (h : Handler B).

(** Whatever the backend, [startWorkout] sends inserts only. *)
Lemma startWorkout_inserts_only (user : option User.t)
    (template : WorkoutTemplateWithExercises.t) (st : UseWorkoutState) (b : B) :
  exists r st' b' tr,
    run h (startWorkout user template st) b = (Normal r, st', b', tr)
    /\ existsb updates_workout (requests tr) = false
    /\ (length tr <= 2)%nat.
Proof.
  destruct st as [wk exs l err]. destruct user as [user|].
  - cbn.
    destruct (h _ (InsertWorkout _ _ _ _) b) as [[w|e] b1]; cbn.
    + destruct (h _ (InsertWorkoutExercises _) b1) as [[rows|e] b2]; cbn;
        do 4 eexists; (split; [reflexivity|]); cbn; split; (reflexivity || lia).
    + do 4 eexists. split; [reflexivity|]. cbn. split; (reflexivity || lia).
  - do 4 eexists. split; [reflexivity|]. cbn. split; (reflexivity || lia).
Qed.

End StartRequests.

(** X25.  Starting a workout from the template screen while another one is
    in progress.  The screen asks first; "Continue Current" sends nothing
    and leaves the session alone.  "Start New" starts the new workout
    without closing the old one: whatever the backend, no request of the
    flow changes a stored workout row, and at most two requests are sent.
    On the reference store the flow ends on the workout screen of a new
    in-progress workout of the user that the session now holds, every
    workout row the store held, the one in progress among them, is still
    there unchanged, and the store has gained exactly the new row. *)
Theorem start_new_leaves_old_workout_open {B : Type} (h : Handler B) (b : B)
    (db : RefBackend.Db) (st : UseWorkoutState) (old : Workout.t)
    (user : User.t) (template : WorkoutTemplateWithExercises.t) :
  st.(workout) = Some old ->
  run h (TemplateDetailScreen.handleStartWorkout (Some user) (Some template)
           TemplateDetailScreen.ContinueCurrent st) b
  = (Normal [TemplateDetailScreen.AlertWorkoutInProgress], st, b, [])
  /\ (exists effects st' b' tr,
        run h (TemplateDetailScreen.handleStartWorkout (Some user) (Some template)
                 TemplateDetailScreen.StartNew st) b
        = (Normal (TemplateDetailScreen.AlertWorkoutInProgress :: effects),
           st', b', tr)
        /\ existsb updates_workout (requests tr) = false
        /\ (length tr <= 2)%nat)
  /\ (exists new st' db' tr,
        run RefBackend.handle
          (TemplateDetailScreen.handleStartWorkout (Some user) (Some template)
             TemplateDetailScreen.StartNew st) db
        = (Normal [TemplateDetailScreen.AlertWorkoutInProgress;
                   TemplateDetailScreen.SetStarting true;
                   TemplateDetailScreen.SetStarting false;
                   TemplateDetailScreen.NavigateReplaceActiveWorkout
                     new.(Workout.id)],
           st', db', tr)
        /\ st'.(workout) = Some new
        /\ new.(Workout.status) = in_progress
        /\ new.(Workout.user_id) = user.(User.id)
        /\ db'.(RefBackend.workouts) = (db.(RefBackend.workouts) ++ [new])%list).
Proof.
  intros Hold.
  assert (Hactive : TemplateDetailScreen.isActive st = true).
  { unfold TemplateDetailScreen.isActive. rewrite Hold. reflexivity. }
  split; [|split].
  - unfold TemplateDetailScreen.handleStartWorkout, bind. cbn.
    rewrite Hactive. reflexivity.
  - destruct (startWorkout_inserts_only h (Some user) template st b)
      as (r & st' & b' & tr & Hrun & Hreq & Hlen).
    unfold TemplateDetailScreen.handleStartWorkout, bind.
    cbn [getState pbind]. rewrite Hactive.
    unfold TemplateDetailScreen.doStartWorkout, bind.
    rewrite !run_pbind, Hrun. cbn. rewrite !app_nil_r.
    do 4 eexists. split; [reflexivity|]. split; [exact Hreq|exact Hlen].
  - unfold TemplateDetailScreen.handleStartWorkout, bind.
    cbn [getState pbind]. rewrite Hactive.
    destruct st as [wk exs l err].
    set (new := Workout.mk (RefBackend.mk_id db.(RefBackend.next_id))
                  user.(User.id)
                  (Some template.(WorkoutTemplateWithExercises.id))
                  template.(WorkoutTemplateWithExercises.name)
                  db.(RefBackend.now) None in_progress None db.(RefBackend.now)
                  db.(RefBackend.now)).
    assert (Htruthy : truthyString (Some new.(Workout.id)) = true).
    { cbn. pose proof (mk_id_nonempty db.(RefBackend.next_id)) as Hne.
      destruct (RefBackend.mk_id _); [congruence|reflexivity]. }
    exists new. cbn. cbn in Htruthy. rewrite Htruthy. cbn.
    do 3 eexists. split; [reflexivity|]. cbn. auto.
Qed.

Lemma start_new_leaves_old_workout_open_witness :
  workout SampleSwap.session = Some SampleRows.workout0
  /\ exists new st' db' tr,
       run RefBackend.handle
         (TemplateDetailScreen.handleStartWorkout (Some Sample.user)
            (Some Sample.template) TemplateDetailScreen.StartNew
            SampleSwap.session) SampleSwap.store
       = (Normal [TemplateDetailScreen.AlertWorkoutInProgress;
                  TemplateDetailScreen.SetStarting true;
                  TemplateDetailScreen.SetStarting false;
                  TemplateDetailScreen.NavigateReplaceActiveWorkout
                    new.(Workout.id)],
          st', db', tr)
       /\ map Workout.status db'.(RefBackend.workouts)
          = [in_progress; in_progress].
Proof.
  split; [reflexivity|].
  destruct (proj2 (proj2
              (start_new_leaves_old_workout_open RefBackend.handle
                 SampleSwap.store SampleSwap.store SampleSwap.session
                 SampleRows.workout0 Sample.user Sample.template eq_refl)))
    as (new & st' & db' & tr & Hrun & _ & Hstatus & _ & Hdb).
  exists new, st', db', tr. split; [exact Hrun|].
  rewrite Hdb, map_app. cbn [map]. rewrite Hstatus. reflexivity.
Defined.

(** * A swapped slot on the card *)

(** X26.  A swap forgets the targets of the slot.  On the reference store,
    swapping a slot that the store holds once and the session holds at some
    position succeeds and leaves at that position a row for the new
    exercise with no sets and without target sets, target repetitions and
    rest time, whatever the slot carried before.  So the card of the
    swapped slot shows three open rows and rests for 90 seconds, whatever
    the template asked for. *)
Theorem swap_forgets_targets (db : RefBackend.Db) (st : UseWorkoutState)
    (workoutExerciseId newExerciseId : string) (row slot : WorkoutExercise.t)
    (i : nat) :
  filter (RefBackend.has_id WorkoutExercise.id workoutExerciseId)
    db.(RefBackend.workout_exercises) = [row] ->
  nth_error st.(exercises) i = Some slot ->
  slot.(WorkoutExercise.id) = workoutExerciseId ->
  exists st' db' tr slot',
    run RefBackend.handle (swapExercise workoutExerciseId newExerciseId st) db
    = (Normal (Result.ok None), st', db', tr)
    /\ nth_error st'.(exercises) i = Some slot'
    /\ slot'.(WorkoutExercise.exercise_id) = newExerciseId
    /\ slot'.(WorkoutExercise.is_substitution) = true
    /\ slot'.(WorkoutExercise.sets) = Some []
    /\ slot'.(WorkoutExercise.targetSets) = None
    /\ slot'.(WorkoutExercise.targetReps) = None
    /\ slot'.(WorkoutExercise.restSeconds) = None
    /\ SetInputCard.restSeconds slot' = 90
    /\ forall Weight_toString prevSets,
         map SetRowData.setNumber
           (SetInputCard.initialSets Weight_toString slot' prevSets) = [1; 2; 3]
         /\ map SetRowData.isCompleted
              (SetInputCard.initialSets Weight_toString slot' prevSets)
            = [false; false; false].
Proof.
  intros Hrow Hslot Hid.
  rewrite swapExercise_run. cbn [RefBackend.handle]. rewrite Hrow.
  do 4 eexists. split; [reflexivity|].
  cbn [exercises]. split.
  { rewrite nth_error_map, Hslot. cbn [option_map].
    rewrite Hid, String.eqb_refl. reflexivity. }
  cbn. repeat split.
Qed.

Lemma swap_forgets_targets_witness :
  option_map WorkoutExercise.restSeconds (nth_error SampleSwap.session.(exercises) 0)
  = Some (Some 120)
  /\ exists st' db' tr slot',
       run RefBackend.handle (swapExercise "1" "squat" SampleSwap.session)
         SampleSwap.store
       = (Normal (Result.ok None), st', db', tr)
       /\ nth_error st'.(exercises) 0 = Some slot'
       /\ SetInputCard.restSeconds slot' = 90.
Proof.
  split; [reflexivity|].
  destruct (swap_forgets_targets SampleSwap.store SampleSwap.session "1" "squat"
              SampleRows.slot1
              (WorkoutExercise.with_sets
                 (WorkoutExercise.with_targets
                    (RefBackend.join_exercise Sample.db SampleRows.slot1) 3
                    (Some 5) None 120)
                 (Some (setsOf "1" SampleSwap.session)))
              0%nat eq_refl eq_refl eq_refl)
    as (st' & db' & tr & slot' & Hrun & Hnth & _ & _ & _ & _ & _ & _ & Hrest & _).
  exists st', db', tr, slot'. auto.
Defined.
